(** * Solo Levelling backend: request handlers over the key-value store

    A shallow embedding of the Hono server of the repository (the
    second document of [src/utils/supabase/client.ts], deployed as
    [supabase/functions/server/index.tsx]), of the client helpers that
    call it (the first document of the same file), and the properties of
    the handlers.

    Conventions of the embedding.
    - A JavaScript string is the list of its UTF-16 code units
      ([jsstring]); [js "abc"] turns a literal into such a list.
    - A JavaScript number is [NaN] or an integer ([Fin z]).  Fractions,
      infinities and the rounding of IEEE doubles are outside the model;
      XP, money amounts and timestamps are integers, and a theorem whose
      point is a sum or a difference asks its operands to be [exact]:
      of absolute value at most 2^52, where doubles add as integers do.
    - A conversion to a string or to a number throws a TypeError on an
      object that has a [toString] property of its own, which JSON can
      carry but never as a function.  [to_string] and [to_number] give
      the result of a conversion that succeeds; the handlers run
      [ToPrimitive] where the code converts, in the code's order with
      respect to the writes, so that a run that throws there ends in the
      [catch] of its handler with the writes made so far.
    - A value read from the store or from a request body is a JSON
      value; two object or array values are never the same reference.
    - [kv_store.tsx] is not part of the sources: the store is modelled
      from its contract as a finite map that never fails.
    - Functions of the JavaScript runtime whose grammar is outside the
      repository (numeric string parsing, [JSON.parse], SHA-256, ISO
      dates, error texts) are fields of the class [Host].
    - The CORS and logger middleware, the OPTIONS route and the calls
      to [console.log] neither read nor write the store and are left
      out. *)

From stdpp Require Import base numbers list strings sorting gmap pretty.


Set Warnings "-register-all".

(** ** JavaScript values *)

Abbreviation jsstring := (list N).

Definition js (s : string) : jsstring :=
  Ascii.N_of_ascii <$> String.list_ascii_of_string s.
Arguments js : simpl never.

Inductive num := NaN | Fin (z : Z).

Inductive value :=
| VUndef
| VNull
| VBool (b : bool)
| VNum (n : num)
| VStr (s : jsstring)
| VArr (l : list value)
| VObj (m : gmap jsstring value).

Abbreviation object := (gmap jsstring value).

Definition VInt (z : Z) : value := VNum (Fin z).
Definition VText (s : string) : value := VStr (js s).

(** Errors thrown by the runtime itself, and [new Error(message)]. *)
Inductive engine_error := TypeError | SyntaxError | InvalidCharacterError | NetworkError.

Inductive exn :=
| Engine (e : engine_error)
| Error (message : value).

Inductive result (A : Type) :=
| Ok (a : A)
| Throw (e : exn).
Arguments Ok {A} a.
Arguments Throw {A} e.

(** What the handlers use of the runtime without defining it. *)
Class Host := {
  (** [Number(s)] on a string: the numeric value of its text. *)
  StringToNumber : jsstring → num;
  (** [JSON.parse]; [None] when it throws a SyntaxError. *)
  JSON_parse : jsstring → option value;
  (** The SHA-256 digest of the UTF-8 encoding of a string, as bytes. *)
  SHA256 : jsstring → list N;
  SHA256_bytes : ∀ s, forallb (λ c, c <=? 255)%N (SHA256 s) = true;
  (** [new Date(ms).toISOString()]. *)
  toISOString : Z → jsstring;
  (** [new Date(s).getTime()]. *)
  Date_getTime : value → num;
  (** [s.toLowerCase()]. *)
  toLowerCase : jsstring → jsstring;
  (** The text of [error.message] for an error of the runtime. *)
  engine_message : engine_error → jsstring;
  (** [Deno.env.get('GEMINI_API_KEY')]; [None] is undefined. *)
  GEMINI_API_KEY : option jsstring
}.

(** *** Coercions and operators *)

Definition truthy (v : value) : bool :=
  match v with
  | VUndef | VNull => false
  | VBool b => b
  | VNum NaN => false
  | VNum (Fin z) => negb (z =? 0)%Z
  | VStr s => negb (bool_decide (s = []))
  | VArr _ | VObj _ => true
  end.

(** [a || b] and [a && b]. *)
Definition or_else (a b : value) : value := if truthy a then a else b.
Definition and_then (a b : value) : value := if truthy a then b else a.

Definition is_nullish (v : value) : bool :=
  match v with VUndef | VNull => true | _ => false end.

Definition typeof (v : value) : jsstring :=
  match v with
  | VUndef => js "undefined"
  | VNull | VArr _ | VObj _ => js "object"
  | VBool _ => js "boolean"
  | VNum _ => js "number"
  | VStr _ => js "string"
  end.

Definition Array_isArray (v : value) : bool :=
  match v with VArr _ => true | _ => false end.

Definition comma : N := 44%N.

Definition join (sep : jsstring) (parts : list jsstring) : jsstring :=
  match parts with
  | [] => []
  | p :: ps => p ++ mjoin ((λ q, sep ++ q) <$> ps)
  end.

(** ToString, as applied by template literals and by [+] on strings,
    for a value that converts (see [converts] below).
    Integers print in decimal (numbers of 1e21 and more, which print
    with an exponent, are outside the model). *)
Fixpoint to_string (v : value) : jsstring :=
  match v with
  | VUndef => js "undefined"
  | VNull => js "null"
  | VBool true => js "true"
  | VBool false => js "false"
  | VNum NaN => js "NaN"
  | VNum (Fin z) => js (pretty z)
  | VStr s => s
  | VArr l =>
      join [comma]
        ((fix elements (l : list value) : list jsstring :=
            match l with
            | [] => []
            | x :: t => (if is_nullish x then [] else to_string x) :: elements t
            end) l)
  | VObj _ => js "[object Object]"
  end.

(** Whether the conversion of a value to a primitive succeeds.  A value
    read from JSON holds no function: an object converts through the
    inherited [toString] unless it has a property of that name of its
    own (as [{"toString": 1}] has), and an array converts when the
    elements that [join] converts do. *)
Fixpoint converts (v : value) : bool :=
  match v with
  | VObj m => match m !! js "toString" with None => true | Some _ => false end
  | VArr l =>
      (fix elements (l : list value) : bool :=
         match l with
         | [] => true
         | x :: t => (is_nullish x || converts x) && elements t
         end) l
  | _ => true
  end.

(** ToPrimitive, for its throw: the TypeError of ToString, ToNumber, [+],
    [-], [/] and template literals on a value that does not convert.
    On the values that convert, [to_string] above and [to_number] below
    give the result. *)
Definition ToPrimitive (v : value) : result () :=
  if converts v then Ok () else Throw (Engine TypeError).

(** ToNumber, for a value that converts. *)
Definition to_number `{Host} (v : value) : num :=
  match v with
  | VUndef => NaN
  | VNull => Fin 0
  | VBool b => Fin (if b then 1 else 0)
  | VNum n => n
  | VStr s => StringToNumber s
  | VArr _ | VObj _ => StringToNumber (to_string v)
  end.

Definition num_add (a b : num) : num :=
  match a, b with Fin x, Fin y => Fin (x + y) | _, _ => NaN end.

Definition num_sub (a b : num) : num :=
  match a, b with Fin x, Fin y => Fin (x - y) | _, _ => NaN end.

(** [Math.max(a, b)]: NaN when either argument is. *)
Definition Math_max (a b : num) : num :=
  match a, b with Fin x, Fin y => Fin (Z.max x y) | _, _ => NaN end.

(** [Math.floor(x / d)] for a positive integer [d]. *)
Definition floor_div (a : num) (d : Z) : num :=
  match a with Fin x => Fin (x / d) | NaN => NaN end.

(** [Math.floor(x * 0.05)], the product taken exactly. *)
Definition floor_5_percent (a : num) : num := floor_div a 20.

Definition is_textual (v : value) : bool :=
  match v with VStr _ | VArr _ | VObj _ => true | _ => false end.

(** The binary [+]: concatenation as soon as one operand is (or
    converts to) a string, addition of numbers otherwise. *)
Definition js_add `{Host} (a b : value) : value :=
  if is_textual a || is_textual b
  then VStr (to_string a ++ to_string b)
  else VNum (num_add (to_number a) (to_number b)).

(** The binary [-]. *)
Definition js_sub `{Host} (a b : value) : num := num_sub (to_number a) (to_number b).

Definition num_eqb (a b : num) : bool :=
  match a, b with Fin x, Fin y => (x =? y)%Z | _, _ => false end.

(** [a === b].  Objects and arrays compare by reference, and no two
    values of the model share one. *)
Definition strict_eq (a b : value) : bool :=
  match a, b with
  | VUndef, VUndef | VNull, VNull => true
  | VBool x, VBool y => bool_decide (x = y)
  | VNum x, VNum y => num_eqb x y
  | VStr x, VStr y => bool_decide (x = y)
  | _, _ => false
  end.

(** SameValueZero, the comparison of [Array.prototype.includes]. *)
Definition same_value_zero (a b : value) : bool :=
  match a, b with
  | VNum NaN, VNum NaN => true
  | _, _ => strict_eq a b
  end.

(** *** Property access *)

(** [v.k] for a [v] that is neither null nor undefined.  Only own
    properties of objects are found: none of the names the handlers read
    is a member of a built-in prototype. *)
Definition get (v : value) (k : string) : value :=
  match v with
  | VObj m => default VUndef (m !! js k)
  | _ => VUndef
  end.

(** [v?.k]. *)
Definition get_opt (v : value) (k : string) : value := get v k.

(** [v.k], which throws on null and undefined. *)
Definition prop (v : value) (k : string) : result value :=
  if is_nullish v then Throw (Engine TypeError) else Ok (get v k).

(** [v[i]] and [v?.[i]] for a constant index. *)
Definition at_index (v : value) (i : nat) : value :=
  match v with
  | VArr l => default VUndef (l !! i)
  | VStr s => from_option (λ c, VStr [c]) VUndef (s !! i)
  | VObj m => default VUndef (m !! js (pretty i))
  | _ => VUndef
  end.

(** The own enumerable properties copied by [{...v}]. *)
Definition indexed {A} (f : A → value) (l : list A) : object :=
  list_to_map (imap (λ i x, (js (pretty i), f x)) l).

Definition spread (v : value) : object :=
  match v with
  | VObj m => m
  | VArr l => indexed id l
  | VStr s => indexed (λ c, VStr [c]) s
  | _ => ∅
  end.

(** An object literal [{k1: v1, ..., kn: vn}]. *)
Definition obj (fields : list (string * value)) : object :=
  list_to_map (prod_map js id <$> fields).

(** [{...base, k1: v1, ..., kn: vn}]. *)
Definition with_fields (base : object) (fields : list (string * value)) : object :=
  obj fields ∪ base.

(** *** Strings *)

Definition colon : N := 58%N.
Definition space : N := 32%N.
Definition equals_sign : N := 61%N.

(** [s.split(sep)] for a separator of one character. *)
Fixpoint split_on (sep : N) (s : jsstring) : list jsstring :=
  match s with
  | [] => [[]]
  | c :: t =>
      if (c =? sep)%N then [] :: split_on sep t
      else match split_on sep t with
           | h :: r => (c :: h) :: r
           | [] => [[c]]
           end
  end.

Definition starts_with (p s : jsstring) : bool := bool_decide (p `prefix_of` s).

(** [s.includes(p)] on strings. *)
Fixpoint str_includes (s p : jsstring) : bool :=
  starts_with p s || match s with [] => false | _ :: t => str_includes t p end.

(** WhiteSpace and LineTerminator code units, as removed by [trim]. *)
Definition is_js_whitespace (c : N) : bool :=
  bool_decide (c ∈ [9; 10; 11; 12; 13; 32; 160; 5760; 8232; 8233; 8239; 8287; 12288; 65279]%N)
  || ((8192 <=? c) && (c <=? 8202))%N.

Fixpoint trim_start (s : jsstring) : jsstring :=
  match s with
  | c :: t => if is_js_whitespace c then trim_start t else s
  | [] => []
  end.
Definition trim (s : jsstring) : jsstring := reverse (trim_start (reverse (trim_start s))).

(** ** Base64: [btoa] and [atob] *)

Definition base64_alphabet : jsstring :=
  js "ABCDEFGHIJKLMNOPQRSTUVWXYZabcdefghijklmnopqrstuvwxyz0123456789+/".

Definition base64_char (sextet : N) : N := nth (N.to_nat sextet) base64_alphabet 0%N.

Definition base64_index (c : N) : option N :=
  N.of_nat <$> list_find (λ a, a = c) base64_alphabet ≫= (λ p, Some p.1).

(** The groups of six bits of a byte sequence, the last one padded with
    zero bits. *)
Fixpoint sextets (bytes : list N) : list N :=
  match bytes with
  | a :: b :: c :: rest =>
      [a / 4; (a mod 4) * 16 + b / 16; (b mod 16) * 4 + c / 64; c mod 64]%N ++ sextets rest
  | [a; b] => [a / 4; (a mod 4) * 16 + b / 16; (b mod 16) * 4]%N
  | [a] => [a / 4; (a mod 4) * 16]%N
  | [] => []
  end.

Definition padding (bytes : list N) : jsstring :=
  replicate ((3 - length bytes mod 3) mod 3) equals_sign.

Definition base64_encode (bytes : list N) : jsstring :=
  (base64_char <$> sextets bytes) ++ padding bytes.

Definition is_latin1 (s : jsstring) : bool := forallb (λ c, c <=? 255)%N s.

(** [btoa(s)]: throws when a character is above U+00FF. *)
Definition btoa (s : jsstring) : result jsstring :=
  if is_latin1 s then Ok (base64_encode s) else Throw (Engine InvalidCharacterError).

(** The bytes of a sequence of sextets; left-over bits are dropped. *)
Fixpoint bytes_of_sextets (sx : list N) : list N :=
  match sx with
  | a :: b :: c :: d :: rest =>
      [a * 4 + b / 16; (b mod 16) * 16 + c / 4; (c mod 4) * 64 + d]%N ++ bytes_of_sextets rest
  | [a; b; c] => [a * 4 + b / 16; (b mod 16) * 16 + c / 4]%N
  | [a; b] => [a * 4 + b / 16]%N
  | _ => []
  end.

Definition is_ascii_whitespace (c : N) : bool := bool_decide (c ∈ [9; 10; 12; 13; 32]%N).

(** The removal of at most two trailing [=] signs. *)
Definition strip_padding (data : jsstring) : jsstring :=
  match reverse data with
  | e1 :: e2 :: r => if (e1 =? equals_sign)%N
                     then if (e2 =? equals_sign)%N then reverse r else reverse (e2 :: r)
                     else data
  | [e1] => if (e1 =? equals_sign)%N then [] else data
  | [] => data
  end.

(** [atob(data)], the forgiving base64 decoding: ASCII whitespace is
    dropped, padding is optional, any other character or a length of
    [4n + 1] makes it throw. *)
Definition atob (data : jsstring) : result jsstring :=
  let data := filter (λ c, is_ascii_whitespace c = false) data in
  let data := if decide (length data mod 4 = 0) then strip_padding data else data in
  if decide (length data mod 4 = 1) then Throw (Engine InvalidCharacterError)
  else match mapM base64_index data with
       | Some sx => Ok (bytes_of_sextets sx)
       | None => Throw (Engine InvalidCharacterError)
       end.

(** ** Tokens and password hashes (lines 109-131) *)

(** [btoa(`${userId}:${Date.now()}`)] *)
Definition generateToken (userId : value) (now : Z) : result jsstring :=
  btoa (to_string userId ++ [colon] ++ to_string (VInt now)).

(** The identity carried by a token; [None] is [null]. *)
Definition verifyToken (token : jsstring) : option jsstring :=
  match atob token with
  | Ok decoded => head (split_on colon decoded)
  | Throw _ => None
  end.

Definition hashPassword `{Host} (password : value) : result jsstring :=
  btoa (SHA256 (to_string password)).

(** ** The key-value store *)

Abbreviation kvstore := (gmap jsstring value).

(** Computations of a handler: they read and write the store and may
    throw; what was written before a throw stays written. *)
Definition M (A : Type) : Type := kvstore → result A * kvstore.

Definition ret {A} (a : A) : M A := λ kv, (Ok a, kv).

Definition bind {A B} (m : M A) (f : A → M B) : M B :=
  λ kv, match m kv with
        | (Ok a, kv') => f a kv'
        | (Throw e, kv') => (Throw e, kv')
        end.

Definition lift {A} (r : result A) : M A := λ kv, (r, kv).

Notation "x <- m ;; k" := (bind m (λ x, k))
  (at level 100, m at next level, right associativity).
Notation "m ;;; k" := (bind m (λ _, k))
  (at level 100, right associativity).

(** Modelled from the spec: kv_store.tsx, of which the sources hold only
    the import.  [get(key) -> value | absent]; an absent key reads as
    undefined. *)
Definition kv_get (key : jsstring) : M value :=
  λ kv, (Ok (default VUndef (kv !! key)), kv).

(** Modelled from the spec: kv_store.tsx.  [set(key, value) -> success];
    the value is kept as it is given. *)
Definition kv_set (key : jsstring) (v : value) : M () :=
  λ kv, (Ok (), <[key := v]> kv).

(** The values stored under the keys that begin with [prefix], in the
    order of the map's listing. *)
Definition values_under (prefix : jsstring) (kv : kvstore) : list value :=
  map_to_list kv ≫= λ entry, if starts_with prefix entry.1 then [entry.2] else [].

(** Modelled from the spec: kv_store.tsx.  [getByPrefix(prefix) -> list
    of values]; the contract leaves the order open, and no theorem below
    depends on it. *)
Definition kv_getByPrefix (prefix : jsstring) : M (list value) :=
  λ kv, (Ok (values_under prefix kv), kv).

(** ** Requests and responses *)

Record fetch_response := {
  fetch_ok : bool;                 (* response.ok *)
  fetch_json : option value        (* response.json(); None when it throws *)
}.

Record request := {
  authorization : option jsstring; (* the Authorization header *)
  json_body : option value;        (* c.req.json(); None when it throws *)
  query_q : option jsstring;       (* c.req.query('q') *)
  now : Z;                         (* Date.now() while the request is served *)
  random_tail : jsstring;          (* Math.random().toString(36).substr(2, 9) *)
  fetch_gemini : jsstring → option fetch_response
                                   (* fetch of the Gemini URL with a prompt;
                                      None when the promise rejects *)
}.

Record response := {
  status : Z;
  payload : object
}.

(** [c.json(fields)] and [c.json(fields, status)]. *)
Definition json (code : Z) (fields : list (string * value)) : response :=
  {| status := code; payload := obj fields |}.

Definition req_json (req : request) : M value :=
  lift (match json_body req with Some b => Ok b | None => Throw (Engine SyntaxError) end).

Definition iso_now `{Host} (req : request) : value := VStr (toISOString (now req)).

(** [error?.message || 'Unknown error'] *)
Definition message_of `{Host} (e : exn) : value :=
  or_else (match e with Engine k => VStr (engine_message k) | Error m => m end)
          (VText "Unknown error").

(** [try { body } catch (error) { return c.json({ error: `${prefix}${...}` }, 500) }] *)
Definition handle `{Host} (prefix : string) (body : M response) (kv : kvstore)
  : response * kvstore :=
  match body kv with
  | (Ok r, kv') => (r, kv')
  | (Throw e, kv') =>
      (json 500 [("error", VStr (js prefix ++ to_string (message_of e)))], kv')
  end.

(** [c.req.header('Authorization')?.split(' ')[1]]; [None] is undefined. *)
Definition access_token (req : request) : option jsstring :=
  authorization req ≫= λ h, split_on space h !! 1%nat.

Definition nonempty (s : option jsstring) : bool :=
  match s with Some (_ :: _) => true | _ => false end.

(** The preamble of every protected handler. *)
Definition authenticated (req : request) (k : jsstring → M response) : M response :=
  let accessToken := access_token req in
  if negb (nonempty accessToken)
  then ret (json 401 [("error", VText "No authorization token provided")])
  else
    let userId := verifyToken (default [] accessToken) in
    if negb (nonempty userId)
    then ret (json 401 [("error", VText "Unauthorized - invalid or expired token")])
    else k (default [] userId).

(** The caller a request authenticates as. *)
Definition caller (req : request) : option jsstring :=
  match access_token req with
  | Some (c :: tok) =>
      match verifyToken (c :: tok) with
      | Some (u :: id) => Some (u :: id)
      | _ => None
      end
  | _ => None
  end.

Definition user_key (email : value) : jsstring := js "user:" ++ to_string email.
Definition missions_key (userId : jsstring) : jsstring := js "missions:" ++ userId.
Definition transactions_key (userId : jsstring) : jsstring := js "transactions:" ++ userId.
Definition financial_key (userId : jsstring) : jsstring := js "financial:" ++ userId.

(** ** Handlers *)

(** POST /signup (lines 159-212) *)
Definition signup `{Host} (req : request) : kvstore → response * kvstore :=
  handle "Server error during sign up: " (
    body <- req_json req;;
    email <- lift (prop body "email");;
    password <- lift (prop body "password");;
    name <- lift (prop body "name");;
    if negb (truthy email) || negb (truthy password) || negb (truthy name)
    then ret (json 400 [("error", VText "Missing required fields: email, password, name")])
    else
      existingUser <- kv_get (user_key email);;
      if truthy existingUser
      then ret (json 400 [("error", VText "User with this email already exists")])
      else
        hashedPassword <- lift (hashPassword password);;
        kv_set (user_key email)
          (VObj (obj [("email", email);
                      ("name", name);
                      ("createdAt", iso_now req);
                      ("isOnboarded", VBool false);
                      ("password", VStr hashedPassword)]));;;
        token <- lift (generateToken email (now req));;
        ret (json 200 [("success", VBool true);
                       ("userId", email);
                       ("accessToken", VStr token);
                       ("message", VText "Account created successfully")])).

(** POST /login (lines 215-262) *)
Definition login `{Host} (req : request) : kvstore → response * kvstore :=
  handle "Server error during login: " (
    body <- req_json req;;
    email <- lift (prop body "email");;
    password <- lift (prop body "password");;
    if negb (truthy email) || negb (truthy password)
    then ret (json 400 [("error", VText "Missing required fields: email, password")])
    else
      userData <- kv_get (user_key email);;
      if negb (truthy userData)
      then ret (json 401 [("error", VText "User not found")])
      else
        hashedPassword <- lift (hashPassword password);;
        if negb (strict_eq (get userData "password") (VStr hashedPassword))
        then ret (json 401 [("error", VText "Incorrect password")])
        else
          token <- lift (generateToken email (now req));;
          ret (json 200 [("success", VBool true);
                         ("accessToken", VStr token);
                         ("userId", email);
                         ("userData", or_else userData (VObj ∅))])).

(** GET /profile (lines 265-293) *)
Definition get_profile `{Host} (req : request) : kvstore → response * kvstore :=
  handle "Server error fetching profile: " (
    authenticated req (λ userId,
      userData <- kv_get (user_key (VStr userId));;
      ret (json 200 [("success", VBool true);
                     ("userId", VStr userId);
                     ("email", VStr userId);
                     ("userData", or_else userData (VObj ∅))]))).

(** POST /update-profile (lines 296-352) *)
Definition update_profile `{Host} (req : request) : kvstore → response * kvstore :=
  handle "Server error updating profile: " (
    authenticated req (λ userId,
      updates <- req_json req;;
      stored <- kv_get (user_key (VStr userId));;
      let existingData := or_else stored (VObj ∅) in
      let updatedData :=
        VObj (with_fields (spread updates ∪ spread existingData)
                          [("updatedAt", iso_now req)]) in
      kv_set (user_key (VStr userId)) updatedData;;;
      verifyData <- kv_get (user_key (VStr userId));;
      ret (json 200 [("success", VBool true);
                     ("message", VText "Profile updated successfully");
                     ("userData", updatedData)]))).

(** The value served when a user has no missions entry. *)
Definition no_missions `{Host} (req : request) : value :=
  VObj (obj [("missions", VArr []); ("completedToday", VInt 0); ("lastReset", iso_now req)]).

(** GET /missions (lines 355-380) *)
Definition get_missions `{Host} (req : request) : kvstore → response * kvstore :=
  handle "Server error fetching missions: " (
    authenticated req (λ userId,
      stored <- kv_get (missions_key userId);;
      let missionsData := or_else stored (no_missions req) in
      ret (json 200 [("success", VBool true); ("data", missionsData)]))).

(** POST /missions (lines 383-414) *)
Definition post_missions `{Host} (req : request) : kvstore → response * kvstore :=
  handle "Server error saving missions: " (
    authenticated req (λ userId,
      body <- req_json req;;
      missions <- lift (prop body "missions");;
      kv_set (missions_key userId)
        (VObj (obj [("missions", or_else missions (VArr []));
                    ("completedToday", VInt 0);
                    ("lastReset", iso_now req)]));;;
      ret (json 200 [("success", VBool true);
                     ("message", VText "Missions saved successfully")]))).

(** *** Helpers on [result] and on arrays *)

Definition rbind {A B} (r : result A) (f : A → result B) : result B :=
  match r with Ok a => f a | Throw e => Throw e end.

Notation "x <~ r ;; k" := (rbind r (λ x, k))
  (at level 100, r at next level, right associativity).

(** [try { r } catch (e) { h e }] *)
Definition rcatch {A} (r : result A) (h : exn → result A) : result A :=
  match r with Ok a => Ok a | Throw e => h e end.

Fixpoint rmap {A B} (f : A → result B) (l : list A) : result (list B) :=
  match l with
  | [] => Ok []
  | x :: t => y <~ f x;; ys <~ rmap f t;; Ok (y :: ys)
  end.

Fixpoint rfilter {A} (p : A → result bool) (l : list A) : result (list A) :=
  match l with
  | [] => Ok []
  | x :: t => b <~ p x;; ys <~ rfilter p t;; Ok (if b then x :: ys else ys)
  end.

(** The receiver of an array method: anything else has no such method
    and the call throws. *)
Definition as_array (v : value) : result (list value) :=
  match v with VArr l => Ok l | _ => Throw (Engine TypeError) end.

(** [l.findIndex(p)]; [None] is -1. *)
Fixpoint findIndex (p : value → result bool) (l : list value) : result (option nat) :=
  match l with
  | [] => Ok None
  | x :: t =>
      b <~ p x;;
      if b then Ok (Some 0%nat)
      else i <~ findIndex p t;; Ok (S <$> i)
  end.

(** [v.includes(x)]: arrays and strings have the method. *)
Definition includes (v x : value) : result bool :=
  match v with
  | VArr l => Ok (existsb (same_value_zero x) l)
  | VStr s => Ok (str_includes s (to_string x))
  | _ => Throw (Engine TypeError)
  end.

(** [v.push(x)], giving the array after the call. *)
Definition push (v x : value) : result (list value) :=
  l <~ as_array v;; Ok (l ++ [x]).

(** [m.completed = true] in strict mode: a property of an array is not
    one of its elements, a primitive takes no property. *)
Definition assign_completed (m : value) : result value :=
  match m with
  | VObj o => Ok (VObj (<[js "completed" := VBool true]> o))
  | VArr l => Ok (VArr l)
  | _ => Throw (Engine TypeError)
  end.

Definition positive (n : num) : bool :=
  match n with Fin z => (0 <? z)%Z | NaN => false end.

(** [l.sort(cmp)].  The sort is stable and an element moves behind
    another only when the comparator is positive on them; with a
    consistent comparator this fixes the result, which is computed here
    by insertion.  Where the comparator gives NaN the language leaves
    the order to the engine: the result is then a permutation of the
    list, and nothing below relies on more. *)
Fixpoint sort_insert (cmp : value → value → num) (x : value) (l : list value) : list value :=
  match l with
  | [] => [x]
  | y :: t => if positive (cmp x y) then y :: sort_insert cmp x t else x :: y :: t
  end.

Definition js_sort (cmp : value → value → num) (l : list value) : list value :=
  foldr (sort_insert cmp) [] l.

(** [Math.floor((user.xpLevel || 0) / 100)] *)
Definition level_of `{Host} (user : value) : value :=
  VNum (floor_div (to_number (or_else (get user "xpLevel") (VInt 0))) 100).

(** POST /missions/complete (lines 417-478) *)
Definition complete_mission `{Host} (req : request) : kvstore → response * kvstore :=
  handle "Server error completing mission: " (
    authenticated req (λ userId,
      body <- req_json req;;
      missionId <- lift (prop body "missionId");;
      xpEarned <- lift (prop body "xpEarned");;
      stored <- kv_get (missions_key userId);;
      let missionsData := or_else stored (no_missions req) in
      let updatedMissions := or_else (get missionsData "missions") (VArr []) in
      items <- lift (as_array updatedMissions);;
      missionIndex <- lift (findIndex (λ m, id <~ prop m "id";; Ok (strict_eq id missionId)) items);;
      updated <- lift (match missionIndex with
                       | Some i =>
                           m <~ assign_completed (default VUndef (items !! i));;
                           Ok (<[i := m]> items)
                       | None =>
                           Ok (items ++ [VObj (obj [("id", missionId);
                                                   ("completed", VBool true);
                                                   ("completedAt", iso_now req)])])
                       end);;
      lift (ToPrimitive (or_else (get missionsData "completedToday") (VInt 0)));;;
      let updatedMissionsData :=
        VObj (with_fields (spread missionsData)
                [("missions", VArr updated);
                 ("completedToday",
                  js_add (or_else (get missionsData "completedToday") (VInt 0)) (VInt 1))]) in
      kv_set (missions_key userId) updatedMissionsData;;;
      storedUser <- kv_get (user_key (VStr userId));;
      let userData := or_else storedUser (VObj ∅) in
      let currentXP := or_else (get userData "xpLevel") (VInt 0) in
      lift (ToPrimitive currentXP);;;
      lift (ToPrimitive xpEarned);;;
      let updatedUserData :=
        VObj (with_fields (spread userData)
                [("xpLevel", js_add currentXP xpEarned);
                 ("lastMissionDate", iso_now req)]) in
      kv_set (user_key (VStr userId)) updatedUserData;;;
      ret (json 200 [("success", VBool true);
                     ("message", VText "Mission completed successfully");
                     ("xpEarned", xpEarned);
                     ("newXP", js_add currentXP xpEarned)]))).

(** POST /financial-data (lines 481-511) *)
Definition post_financial_data `{Host} (req : request) : kvstore → response * kvstore :=
  handle "Server error saving financial data: " (
    authenticated req (λ userId,
      financialData <- req_json req;;
      kv_set (financial_key userId)
        (VObj (with_fields (spread financialData) [("updatedAt", iso_now req)]));;;
      ret (json 200 [("success", VBool true);
                     ("message", VText "Financial data saved successfully")]))).

(** GET /financial-data (lines 514-538) *)
Definition get_financial_data `{Host} (req : request) : kvstore → response * kvstore :=
  handle "Server error fetching financial data: " (
    authenticated req (λ userId,
      stored <- kv_get (financial_key userId);;
      ret (json 200 [("success", VBool true); ("data", or_else stored VNull)]))).

Definition is_record (v : value) : bool :=
  truthy v && bool_decide (typeof v = js "object").

(** [a?.createdAt ? new Date(a.createdAt).getTime() : 0] *)
Definition post_time `{Host} (a : value) : num :=
  if truthy (get_opt a "createdAt") then Date_getTime (get a "createdAt") else Fin 0.

(** GET /community/posts (lines 541-575) *)
Definition get_posts `{Host} (req : request) : kvstore → response * kvstore :=
  handle "Server error fetching posts: " (
    authenticated req (λ userId,
      allPosts <- kv_getByPrefix (js "post:");;
      let sortedPosts :=
        js_sort (λ a b, num_sub (post_time b) (post_time a)) (filter (λ p, is_record p = true) allPosts) in
      ret (json 200 [("success", VBool true); ("posts", VArr sortedPosts)]))).

(** POST /community/posts (lines 578-623) *)
Definition create_post `{Host} (req : request) : kvstore → response * kvstore :=
  handle "Server error creating post: " (
    authenticated req (λ userId,
      body <- req_json req;;
      content <- lift (prop body "content");;
      type <- lift (prop body "type");;
      match content with
      | VStr text =>
          if negb (truthy content) || bool_decide (trim text = [])
          then ret (json 400 [("error", VText "Content is required")])
          else
            stored <- kv_get (user_key (VStr userId));;
            let userData := or_else stored (VObj ∅) in
            let postId := js "post_" ++ to_string (VInt (now req)) ++ js "_" ++ userId in
            let post :=
              VObj (obj [("id", VStr postId);
                         ("userId", VStr userId);
                         ("userName", or_else (get_opt userData "name") (VText "Agent"));
                         ("content", VStr (trim text));
                         ("type", or_else type (VText "achievement"));
                         ("likes", VInt 0);
                         ("comments", VInt 0);
                         ("createdAt", iso_now req)]) in
            kv_set (js "post:" ++ postId) post;;;
            ret (json 200 [("success", VBool true);
                           ("message", VText "Post created successfully");
                           ("post", post)])
      | _ => ret (json 400 [("error", VText "Content is required")])
      end)).

(** The filter of the leaderboard:
    [user && typeof user === 'object' && user.isOnboarded && user.email] *)
Definition listed (user : value) : bool :=
  is_record user && truthy (get user "isOnboarded") && truthy (get user "email").

(** The comparator of the leaderboard:
    [(b.xpLevel || 0) - (a.xpLevel || 0)] *)
Definition by_xp `{Host} (a b : value) : num :=
  js_sub (or_else (get b "xpLevel") (VInt 0)) (or_else (get a "xpLevel") (VInt 0)).

Definition leaderboard_entry `{Host} (userId : jsstring) (index : nat) (user : value) : value :=
  VObj (obj [("name", or_else (get user "name") (VText "Unknown"));
             ("email", or_else (get user "email") (VStr []));
             ("xp", or_else (get user "xpLevel") (VInt 0));
             ("level", level_of user);
             ("streak", or_else (get user "streak") (VInt 0));
             ("rank", VInt (Z.of_nat index + 1));
             ("isCurrentUser", VBool (strict_eq (get user "email") (VStr userId)))]).

(** The list served by GET /leaderboard for the values under [user:]. *)
Definition leaderboard `{Host} (userId : jsstring) (allUsers : list value) : list value :=
  imap (leaderboard_entry userId)
       (take 50 (js_sort by_xp (filter (λ u, listed u = true) allUsers))).

(** The conversions of the comparator and of the level.  The sort of
    two users or more compares each of them at least once, and a single
    user is the first of the list: every user that passes the filter has
    [xpLevel || 0] converted to a number. *)
Definition xp_converts (user : value) : bool :=
  converts (or_else (get user "xpLevel") (VInt 0)).

Fixpoint converted_xp (users : list value) : result () :=
  match users with
  | [] => Ok ()
  | user :: rest =>
      _ <~ ToPrimitive (or_else (get user "xpLevel") (VInt 0));;
      converted_xp rest
  end.

(** GET /leaderboard (lines 626-666) *)
Definition get_leaderboard `{Host} (req : request) : kvstore → response * kvstore :=
  handle "Server error fetching leaderboard: " (
    authenticated req (λ userId,
      allUsers <- kv_getByPrefix (js "user:");;
      lift (converted_xp (filter (λ u, listed u = true) allUsers));;;
      let sortedUsers := leaderboard userId allUsers in
      ret (json 200 [("success", VBool true); ("leaderboard", VArr sortedUsers)]))).

(** *** Mission generation (lines 66-107 and 669-922) *)

Definition nl : jsstring := [10%N].
Definition quoted (s : string) : jsstring := [34%N] ++ js s ++ [34%N].

(** Literals of the source file that are not ASCII, by code unit as
    the file spells them. *)
Definition rupee : jsstring := [226; 8218; 185]%N.
Definition icon_save : jsstring := [240; 376; 8217; 176]%N.
Definition icon_learn : jsstring := [240; 376; 8220; 732]%N.
Definition icon_earn : jsstring := [240; 376; 8217; 188]%N.
Definition icon_network : jsstring := [240; 376; 164]%N.
Definition icon_analysis : jsstring := [240; 376; 8220; 352]%N.
Definition icon_target : jsstring := [240; 376; 381; 175]%N.

(** [userData?.interests?.[0] || 'wealth freedom'] *)
Definition goal_of (userData : value) : value :=
  or_else (at_index (get_opt userData "interests") 0) (VText "wealth freedom").

Definition mission (id title description : jsstring) (icon : jsstring) (xp : Z)
    (category timeEstimate priority classification whyItMatters : string)
    (tips : list string) : value :=
  VObj (obj [("id", VStr id);
             ("title", VStr title);
             ("description", VStr description);
             ("icon", VStr icon);
             ("xp", VInt xp);
             ("category", VText category);
             ("timeEstimate", VText timeEstimate);
             ("priority", VText priority);
             ("classification", VText classification);
             ("whyItMatters", VText whyItMatters);
             ("tips", VArr (VText <$> tips))]).

Definition mission_id (n : Z) (now : Z) : jsstring :=
  js "mission_" ++ to_string (VInt n) ++ js "_" ++ to_string (VInt now).

(** [getDefaultMissions()] (lines 692-763) *)
Definition getDefaultMissions `{Host} (req : request) (userData : value) : list value :=
  let monthlyIncome := or_else (get_opt userData "monthlyIncome") (VInt 50000) in
  let goal := goal_of userData in
  let business := strict_eq goal (VText "business") in
  [ mission (mission_id 1 (now req)) (js "Execute savings protocol")
      (js "Allocate " ++ rupee
         ++ to_string (VNum (Math_max (Fin 200) (floor_5_percent (to_number monthlyIncome))))
         ++ js " to emergency buffer")
      icon_save 20 "SAVE" "2_MIN" "HIGH" "ALPHA"
      "Emergency fund protocols create financial stability barriers against unexpected system failures. Critical for wealth preservation."
      ["Implement automatic transfer protocols"; "Round-up transaction algorithms";
       "Deploy micro-savings accumulation systems"];
    mission (mission_id 2 (now req)) (js "Knowledge acquisition module")
      (js (if business then "Research 2 startup ideas"
           else "Complete investment strategy learning protocol"))
      icon_learn 15 "LEARN" "5_MIN" "HIGH" "BETA"
      "Financial intelligence upgrades optimize decision-making algorithms and prevent costly system errors."
      ["Active note-taking during data acquisition";
       "Apply learned algorithms to portfolio systems"; "Share intelligence with network nodes"];
    mission (mission_id 3 (now req)) (js "Revenue stream expansion")
      (js (if business then "Create business plan outline" else "Submit 2 freelance proposals"))
      icon_earn 30 "EARN" "30_MIN" "HIGH" "ALPHA"
      "Multiple revenue streams accelerate wealth accumulation velocity and provide system redundancy."
      ["Customize each proposal for target client systems"; "Highlight relevant skill matrices";
       "Deploy competitive pricing algorithms"];
    mission (mission_id 4 (now req)) (js "Network expansion protocol")
      (js "Establish 2 professional node connections")
      icon_network 25 "NETWORK" "15_MIN" "MEDIUM" "GAMMA"
      "Network node expansion increases opportunity discovery rates and collaborative wealth generation potential."
      ["Deploy personalized connection requests"; "Reference mutual network nodes";
       "Share valuable data insights"];
    mission (mission_id 5 (now req)) (js "Investment analysis protocol")
      (js "Research 3 investment opportunity matrices")
      icon_analysis 25 "LEARN" "20_MIN" "HIGH" "BETA"
      "Investment analysis protocols optimize return algorithms and minimize risk exposure vectors."
      ["Analyze expense ratio metrics"; "Review fund management intelligence";
       "Compare benchmark performance data"] ].

(** The prompt sent to the model (lines 771-796). *)
Definition prompt `{Host} (userData : value) : jsstring :=
  js "You are an AI financial advisor for a wealth-building app targeting young Indians (18-30). Generate 5 personalized daily missions for this user:"
  ++ nl ++ nl
  ++ js "User Profile:" ++ nl
  ++ js "- Goal: " ++ to_string (goal_of userData) ++ nl
  ++ js "- Target Age: " ++ to_string (or_else (get_opt userData "targetAge") (VInt 35)) ++ nl
  ++ js "- Monthly Income: " ++ rupee
  ++ to_string (or_else (get_opt userData "monthlyIncome") (VInt 50000)) ++ nl
  ++ js "- Current Level: " ++ to_string (level_of userData) ++ nl ++ nl
  ++ js "Generate 5 missions in this EXACT JSON format (must be valid JSON, no markdown, no code blocks):"
  ++ nl ++ js "[" ++ nl ++ js "  {" ++ nl
  ++ js "    " ++ quoted "id" ++ js ": " ++ quoted "mission_1" ++ js "," ++ nl
  ++ js "    " ++ quoted "title" ++ js ": " ++ quoted "Mission title" ++ js "," ++ nl
  ++ js "    " ++ quoted "description" ++ js ": " ++ quoted "Short description" ++ js "," ++ nl
  ++ js "    " ++ quoted "icon" ++ js ": " ++ quoted "emoji" ++ js "," ++ nl
  ++ js "    " ++ quoted "xp" ++ js ": 20," ++ nl
  ++ js "    " ++ quoted "category" ++ js ": " ++ quoted "SAVE" ++ js "," ++ nl
  ++ js "    " ++ quoted "timeEstimate" ++ js ": " ++ quoted "5_MIN" ++ js "," ++ nl
  ++ js "    " ++ quoted "priority" ++ js ": " ++ quoted "HIGH" ++ js "," ++ nl
  ++ js "    " ++ quoted "classification" ++ js ": " ++ quoted "ALPHA" ++ js "," ++ nl
  ++ js "    " ++ quoted "whyItMatters" ++ js ": " ++ quoted "Explanation" ++ js "," ++ nl
  ++ js "    " ++ quoted "tips" ++ js ": [" ++ quoted "tip1" ++ js ", " ++ quoted "tip2"
  ++ js ", " ++ quoted "tip3" ++ js "]" ++ nl
  ++ js "  }" ++ nl ++ js "]" ++ nl ++ nl
  ++ js "Return ONLY the JSON array, nothing else. Make missions specific, actionable, and relevant to Indian context. Use tactical/gaming language like "
  ++ quoted "Execute protocol" ++ js ", " ++ quoted "Deploy strategy" ++ js ", etc.".

(** [callGeminiAPI(prompt)] (lines 66-107): the text of the first
    candidate, or a throw. *)
Definition callGeminiAPI `{Host} (req : request) (prompt : jsstring) : result value :=
  if negb (nonempty GEMINI_API_KEY)
  then Throw (Error (VText "GEMINI_API_KEY not configured"))
  else
    match fetch_gemini req prompt with
    | None => Throw (Engine NetworkError)
    | Some response =>
        match fetch_json response with
        | None => Throw (Engine SyntaxError)
        | Some data =>
            if negb (fetch_ok response)
            then
              error <~ prop data "error";;
              Throw (Error (or_else (get_opt error "message")
                                    (VText "Failed to generate AI content")))
            else
              candidates <~ prop data "candidates";;
              if negb (truthy candidates)
                 || negb (truthy (at_index candidates 0))
                 || negb (truthy (get (at_index candidates 0) "content"))
              then Throw (Error (VText "Invalid response from Gemini API"))
              else
                parts <~ prop (get (at_index candidates 0) "content") "parts";;
                first_part <~ (if is_nullish parts then Throw (Engine TypeError)
                               else Ok (at_index parts 0));;
                text <~ prop first_part "text";;
                Ok text
        end
    end.

(** [s.replace(/FENCE\n?/g, '')]: every occurrence of the fence, with
    the line feed that follows it if there is one, is removed. *)
Fixpoint remove_fence (fence : jsstring) (skip : nat) (s : jsstring) : jsstring :=
  match s with
  | [] => []
  | c :: t =>
      match skip with
      | S n => remove_fence fence n t
      | O =>
          if starts_with fence s
          then remove_fence fence
                 (length fence - 1 + (if bool_decide (s !! length fence = Some 10%N) then 1 else 0))
                 t
          else c :: remove_fence fence 0 t
      end
  end.

Definition left_bracket : N := 91%N.
Definition right_bracket : N := 93%N.

Fixpoint drop_until (c : N) (s : jsstring) : jsstring :=
  match s with
  | [] => []
  | x :: t => if (x =? c)%N then s else drop_until c t
  end.

(** [s.match(/\[[\s\S]*\]/)]: from the first [[] to the last []] after
    it; [None] when there is no such pair. *)
Definition match_array (s : jsstring) : option jsstring :=
  match drop_until left_bracket s with
  | [] => None
  | open :: rest =>
      match drop_until right_bracket (reverse rest) with
      | [] => None
      | closing => Some (open :: reverse closing)
      end
  end.

(** The element built from an element [m] of the model's array
    (lines 812-824). *)
Definition mission_of_reply (req : request) (index : nat) (m : value) : result value :=
  id <~ prop m "id";;
  Ok (VObj (obj
    [("id", or_else id (VStr (mission_id (Z.of_nat index + 1) (now req))));
     ("title", or_else (get m "title") (VText "Mission"));
     ("description", or_else (get m "description") (VStr []));
     ("icon", or_else (get m "icon") (VStr icon_target));
     ("xp", or_else (get m "xp") (VInt 20));
     ("category", or_else (get m "category") (VText "LEARN"));
     ("timeEstimate", or_else (get m "timeEstimate") (VText "10_MIN"));
     ("priority", or_else (get m "priority") (VText "MEDIUM"));
     ("classification", or_else (get m "classification") (VText "BETA"));
     ("whyItMatters", or_else (get m "whyItMatters")
        (VText "This mission helps you progress towards your financial goals."));
     ("tips", if Array_isArray (get m "tips") then get m "tips"
              else VArr [VText "Complete this mission to earn XP"])])).

(** [aiResponse.replace(/```json\n?/g, '').replace(/```\n?/g, '').trim()] *)
Definition strip_fences (text : jsstring) : jsstring :=
  trim (remove_fence (js "```") 0 (remove_fence (js "```json") 0 text)).

(** The inner [try] (lines 802-827): the missions read from the reply,
    [current] when the reply holds no non-empty array. *)
Definition parse_reply `{Host} (req : request) (aiResponse : value) (current : list value)
  : result (list value) :=
  match aiResponse with
  | VStr text =>
      let cleanedResponse := strip_fences text in
      match match_array cleanedResponse with
      | Some jsonMatch =>
          match JSON_parse jsonMatch with
          | None => Throw (Engine SyntaxError)
          | Some (VArr (m :: parsed)) =>
              rmap (λ im, mission_of_reply req im.1 im.2) (imap pair (m :: parsed))
          | Some _ => Ok current
          end
      | None => Ok current
      end
  | _ => Throw (Engine TypeError)
  end.

(** [aiResponse?.substring(0, 500)] in the handler of the inner catch. *)
Definition log_substring (aiResponse : value) : result () :=
  match aiResponse with
  | VUndef | VNull | VStr _ => Ok ()
  | _ => Throw (Engine TypeError)
  end.

(** The choice of the missions (lines 766-846). *)
Definition choose_missions `{Host} (req : request) (userData : value) : list value :=
  let missions := getDefaultMissions req userData in
  let missions :=
    if nonempty GEMINI_API_KEY
    then
      match
        (aiResponse <~ callGeminiAPI req (prompt userData);;
         rcatch (parse_reply req aiResponse missions)
                (λ parseError, _ <~ log_substring aiResponse;;
                               Ok (getDefaultMissions req userData)))
      with
      | Ok missions => missions
      | Throw geminiError => getDefaultMissions req userData
      end
    else getDefaultMissions req userData in
  match missions with
  | [] => getDefaultMissions req userData
  | _ => missions
  end.

(** [{ ...m, completed: false }] *)
Definition not_completed (m : value) : value :=
  VObj (with_fields (spread m) [("completed", VBool false)]).

(** Whether the template of the prompt (lines 771-796) can be filled:
    the goal, the target age and the XP are converted there. *)
Definition prompt_converts (userData : value) : bool :=
  converts (goal_of userData)
  && converts (or_else (get_opt userData "targetAge") (VInt 35))
  && converts (or_else (get_opt userData "xpLevel") (VInt 0)).

(** Whether [monthlyIncome * 0.05] of [getDefaultMissions()] can be
    computed. *)
Definition income_converts (userData : value) : bool :=
  converts (or_else (get_opt userData "monthlyIncome") (VInt 50000)).

(** The [try] block.  [getDefaultMissions()] multiplies the monthly
    income (line 766, outside the inner [try]); a prompt that cannot be
    built throws inside it and leaves the default missions. *)
Definition generate_missions_body `{Host} (req : request) : M response :=
  authenticated req (λ userId,
    stored <- kv_get (user_key (VStr userId));;
    let userData := or_else stored (VObj ∅) in
    lift (ToPrimitive (or_else (get_opt userData "monthlyIncome") (VInt 50000)));;;
    let missions :=
      if prompt_converts userData then choose_missions req userData
      else getDefaultMissions req userData in
    let missionsToSave := not_completed <$> missions in
    kv_set (missions_key userId)
      (VObj (obj [("missions", VArr missionsToSave);
                  ("completedToday", VInt 0);
                  ("lastReset", iso_now req)]));;;
    ret (json 200 [("success", VBool true); ("missions", VArr missionsToSave)])).

(** The two missions served from the catch block (lines 876-903). *)
Definition fallback_missions (req : request) : list value :=
  [ mission (mission_id 1 (now req)) (js "Execute savings protocol")
      (js "Allocate " ++ rupee ++ js "200 to emergency buffer")
      icon_save 20 "SAVE" "2_MIN" "HIGH" "ALPHA"
      "Emergency fund protocols create financial stability."
      ["Implement automatic transfers"];
    mission (mission_id 2 (now req)) (js "Knowledge acquisition")
      (js "Complete financial literacy module")
      icon_learn 15 "LEARN" "5_MIN" "HIGH" "BETA"
      "Financial intelligence optimizes decisions."
      ["Take notes"; "Apply learnings"] ].

(** The [try] inside the catch block (lines 871-918); [None] when it
    falls through to the 500 response. *)
Definition generate_missions_fallback `{Host} (req : request) : M (option response) :=
  let userId := verifyToken (default [] (access_token req)) in
  if nonempty userId
  then
    stored <- kv_get (user_key (VStr (default [] userId)));;
    let defaultMissions := fallback_missions req in
    kv_set (missions_key (default [] userId))
      (VObj (obj [("missions", VArr (not_completed <$> defaultMissions));
                  ("completedToday", VInt 0);
                  ("lastReset", iso_now req)]));;;
    ret (Some (json 200 [("success", VBool true); ("missions", VArr defaultMissions)]))
  else ret None.

(** POST /missions/generate (lines 669-922) *)
Definition generate_missions `{Host} (req : request) (kv : kvstore) : response * kvstore :=
  match generate_missions_body req kv with
  | (Ok r, kv') => (r, kv')
  | (Throw error, kv') =>
      let server_error :=
        json 500 [("error", VStr (js "Server error generating missions: "
                                   ++ to_string (message_of error)))] in
      match generate_missions_fallback req kv' with
      | (Ok (Some r), kv'') => (r, kv'')
      | (_, kv'') => (server_error, kv'')
      end
  end.

(** The public view of a friend (lines 976-981). *)
Definition friend_view `{Host} (friendData email : value) : list (string * value) :=
  [("name", get friendData "name");
   ("email", email);
   ("xp", or_else (get friendData "xpLevel") (VInt 0));
   ("level", level_of friendData)].

(** POST /friends/add (lines 925-988) *)
Definition add_friend `{Host} (req : request) : kvstore → response * kvstore :=
  handle "Server error adding friend: " (
    authenticated req (λ userId,
      body <- req_json req;;
      friendEmail <- lift (prop body "friendEmail");;
      lift (ToPrimitive friendEmail);;;
      friendData <- kv_get (user_key friendEmail);;
      if negb (truthy friendData)
      then ret (json 404 [("error", VText "User not found")])
      else
        stored <- kv_get (user_key (VStr userId));;
        let userData := or_else stored (VObj ∅) in
        let friends := or_else (get userData "friends") (VArr []) in
        already <- lift (includes friends friendEmail);;
        if already
        then ret (json 400 [("error", VText "Already friends with this user")])
        else
          friends <- lift (push friends friendEmail);;
          kv_set (user_key (VStr userId))
            (VObj (with_fields (spread userData) [("friends", VArr friends)]));;;
          storedFriend <- kv_get (user_key friendEmail);;
          let friendUserData := or_else storedFriend (VObj ∅) in
          let friendFriends := or_else (get friendUserData "friends") (VArr []) in
          known <- lift (includes friendFriends (VStr userId));;
          (if negb known
           then
             friendFriends <- lift (push friendFriends (VStr userId));;
             kv_set (user_key friendEmail)
               (VObj (with_fields (spread friendUserData) [("friends", VArr friendFriends)]))
           else ret ());;;
          lift (ToPrimitive (or_else (get friendData "xpLevel") (VInt 0)));;;
          ret (json 200 [("success", VBool true);
                         ("message", VText "Friend added successfully");
                         ("friend", VObj (obj (friend_view friendData friendEmail)))]))).

(** The code points of a string: a high surrogate followed by a low
    one is one of them. *)
Fixpoint code_points (s : jsstring) : list jsstring :=
  match s with
  | [] => []
  | a :: rest =>
      match rest with
      | b :: t =>
          if ((55296 <=? a) && (a <=? 56319) && (56320 <=? b) && (b <=? 57343))%N
          then [a; b] :: code_points t
          else [a] :: code_points rest
      | [] => [[a]]
      end
  end.

(** The values a [for ... of] loop visits: the elements of an array,
    the code points of a string. *)
Definition iterate (v : value) : result (list value) :=
  match v with
  | VArr l => Ok l
  | VStr s => Ok (VStr <$> code_points s)
  | _ => Throw (Engine TypeError)
  end.

(** The loop of GET /friends (lines 1008-1020). *)
Fixpoint friend_details `{Host} (friendEmails : list value) : M (list value) :=
  match friendEmails with
  | [] => ret []
  | email :: rest =>
      lift (ToPrimitive email);;;
      friendData <- kv_get (user_key email);;
      lift (if truthy friendData
            then ToPrimitive (or_else (get friendData "xpLevel") (VInt 0))
            else Ok ());;;
      friends <- friend_details rest;;
      ret (if truthy friendData
           then VObj (obj (friend_view friendData email
                             ++ [("streak", or_else (get friendData "streak") (VInt 0))]))
                :: friends
           else friends)
  end.

(** GET /friends (lines 991-1031) *)
Definition get_friends `{Host} (req : request) : kvstore → response * kvstore :=
  handle "Server error fetching friends: " (
    authenticated req (λ userId,
      stored <- kv_get (user_key (VStr userId));;
      let userData := or_else stored (VObj ∅) in
      let friendEmails := or_else (get userData "friends") (VArr []) in
      emails <- lift (iterate friendEmails);;
      friends <- friend_details emails;;
      ret (json 200 [("success", VBool true); ("friends", VArr friends)]))).

(** [v.toLowerCase().includes(query.toLowerCase())] *)
Definition lower_includes `{Host} (v : value) (query : jsstring) : result bool :=
  match v with
  | VStr s => Ok (str_includes (toLowerCase s) (toLowerCase query))
  | _ => Throw (Engine TypeError)
  end.

(** The filter of the search (lines 1058-1066). *)
Definition search_hit `{Host} (userId query : jsstring) (user : value) : result bool :=
  if listed user && negb (strict_eq (get user "email") (VStr userId))
  then
    by_name <~ (if is_nullish (get user "name") then Ok false
                else lower_includes (get user "name") query);;
    if by_name then Ok true else lower_includes (get user "email") query
  else Ok false.

Definition search_entry `{Host} (user : value) : value :=
  VObj (obj [("name", or_else (get user "name") (VText "Unknown"));
             ("email", or_else (get user "email") (VStr []));
             ("xp", or_else (get user "xpLevel") (VInt 0));
             ("level", level_of user)]).

(** GET /users/search (lines 1034-1084) *)
Definition search_users `{Host} (req : request) : kvstore → response * kvstore :=
  handle "Server error searching users: " (
    authenticated req (λ userId,
      let query := default [] (query_q req) in
      if (length query <? 2)%nat
      then ret (json 200 [("success", VBool true); ("users", VArr [])])
      else
        allUsers <- kv_getByPrefix (js "user:");;
        hits <- lift (rfilter (search_hit userId query) allUsers);;
        lift (converted_xp (take 20 hits));;;
        let filteredUsers := search_entry <$> take 20 hits in
        ret (json 200 [("success", VBool true); ("users", VArr filteredUsers)]))).

Definition transaction_types : list value :=
  [VText "income"; VText "expense"; VText "saving"; VText "investment"].

(** [Number(x) || 0] *)
Definition number_or_zero `{Host} (x : value) : num :=
  match to_number x with
  | Fin z => Fin z
  | NaN => Fin 0
  end.

(** [x <= 0] on a number. *)
Definition not_positive (n : num) : bool :=
  match n with Fin z => (z <=? 0)%Z | NaN => false end.

(** The totals after a transaction (lines 1137-1149). *)
Definition apply_transaction (type : value) (amount currentSavings currentNetWorth : num)
  : num * num :=
  if strict_eq type (VText "saving")
  then (num_add currentSavings amount, num_add currentNetWorth amount)
  else if strict_eq type (VText "investment")
  then (currentSavings, num_add currentNetWorth amount)
  else if strict_eq type (VText "income")
  then (currentSavings, num_add currentNetWorth amount)
  else if strict_eq type (VText "expense")
  then (currentSavings, num_sub currentNetWorth amount)
  else (currentSavings, currentNetWorth).

(** POST /transactions (lines 1087-1168) *)
Definition add_transaction `{Host} (req : request) : kvstore → response * kvstore :=
  handle "Server error adding transaction: " (
    authenticated req (λ userId,
      transaction <- req_json req;;
      type <- lift (prop transaction "type");;
      if negb (truthy type) || negb (existsb (same_value_zero type) transaction_types)
      then ret (json 400 [("error", VText "Invalid transaction type. Must be: income, expense, saving, or investment")])
      else
        let amount := get transaction "amount" in
        if negb (truthy amount)
           || negb (bool_decide (typeof amount = js "number"))
           || not_positive (to_number amount)
        then ret (json 400 [("error", VText "Invalid amount. Must be a positive number")])
        else
          existingTransactions <- kv_get (transactions_key userId);;
          let transactions :=
            match existingTransactions with VArr l => l | _ => [] end in
          let newTransaction :=
            VObj (obj [("type", type);
                       ("amount", VNum (to_number amount));
                       ("description", or_else (get transaction "description") (VStr []));
                       ("category", or_else (get transaction "category") (VStr []));
                       ("id", VStr (js "txn_" ++ to_string (VInt (now req)) ++ js "_"
                                      ++ random_tail req));
                       ("date", iso_now req)]) in
          kv_set (transactions_key userId) (VArr (transactions ++ [newTransaction]));;;
          stored <- kv_get (user_key (VStr userId));;
          let userData := or_else stored (VObj ∅) in
          lift (ToPrimitive (get userData "currentSavings"));;;
          lift (ToPrimitive (get userData "currentNetWorth"));;;
          let currentSavings := number_or_zero (get userData "currentSavings") in
          let currentNetWorth := number_or_zero (get userData "currentNetWorth") in
          let totals :=
            apply_transaction type (to_number amount) currentSavings currentNetWorth in
          kv_set (user_key (VStr userId))
            (VObj (with_fields (spread userData)
                     [("currentSavings", VNum (Math_max (Fin 0) totals.1));
                      ("currentNetWorth", VNum (Math_max (Fin 0) totals.2))]));;;
          ret (json 200 [("success", VBool true);
                         ("transaction", newTransaction);
                         ("newSavings", VNum (Math_max (Fin 0) totals.1));
                         ("newNetWorth", VNum (Math_max (Fin 0) totals.2))]))).

(** GET /transactions (lines 1171-1196) *)
Definition get_transactions `{Host} (req : request) : kvstore → response * kvstore :=
  handle "Server error fetching transactions: " (
    authenticated req (λ userId,
      transactionsData <- kv_get (transactions_key userId);;
      let transactions := if Array_isArray transactionsData then transactionsData else VArr [] in
      ret (json 200 [("success", VBool true); ("transactions", transactions)]))).

(** GET /health (lines 149-151) *)
Definition health `{Host} (req : request) (kv : kvstore) : response * kvstore :=
  (json 200 [("status", VText "ok"); ("timestamp", iso_now req)], kv).

(** ** The application: its routes *)

Inductive route :=
| Health | Signup | Login | GetProfile | UpdateProfile
| GetMissions | PostMissions | CompleteMission
| PostFinancialData | GetFinancialData
| GetPosts | CreatePost | GetLeaderboard | GenerateMissions
| AddFriend | GetFriends | SearchUsers | AddTransaction | GetTransactions.

Definition serve `{Host} (r : route) : request → kvstore → response * kvstore :=
  match r with
  | Health => health
  | Signup => signup
  | Login => login
  | GetProfile => get_profile
  | UpdateProfile => update_profile
  | GetMissions => get_missions
  | PostMissions => post_missions
  | CompleteMission => complete_mission
  | PostFinancialData => post_financial_data
  | GetFinancialData => get_financial_data
  | GetPosts => get_posts
  | CreatePost => create_post
  | GetLeaderboard => get_leaderboard
  | GenerateMissions => generate_missions
  | AddFriend => add_friend
  | GetFriends => get_friends
  | SearchUsers => search_users
  | AddTransaction => add_transaction
  | GetTransactions => get_transactions
  end.


(** ** What the handlers see of the store *)

(** The profile a handler works on: [kv.get(`user:${userId}`) || {}]. *)
Definition profile_of (kv : kvstore) (userId : jsstring) : value :=
  or_else (default VUndef (kv !! user_key (VStr userId))) (VObj ∅).


(** The XP of a user as POST /missions/complete reads it:
    [userData.xpLevel || 0]. *)
Definition xp_of (kv : kvstore) (userId : jsstring) : value :=
  or_else (get (profile_of kv userId) "xpLevel") (VInt 0).

(** ** A sample runtime and sample requests *)

Definition digit_value (c : N) : option Z :=
  if ((48 <=? c) && (c <=? 57))%N then Some (Z.of_N c - 48)%Z else None.

(** Decimal numerals; the empty string is 0 and any other text NaN. *)
Definition sample_StringToNumber (s : jsstring) : num :=
  match mapM digit_value s with
  | Some ds => Fin (foldl (λ acc d, 10 * acc + d)%Z 0%Z ds)
  | None => NaN
  end.

(** The only text it parses is the array of one empty object. *)
Definition sample_JSON_parse (s : jsstring) : option value :=
  if bool_decide (s = js "[{}]") then Some (VArr [VObj ∅]) else None.

Definition sample_host : Host := {|
  StringToNumber := sample_StringToNumber;
  JSON_parse := sample_JSON_parse;
  SHA256 := λ _, replicate 32 0%N;
  SHA256_bytes := λ _, eq_refl;
  toISOString := λ ms, js "ms:" ++ js (pretty ms);
  Date_getTime := λ _, NaN;
  toLowerCase := id;
  engine_message := λ _, js "runtime error";
  GEMINI_API_KEY := Some (js "sample-key")
|}.

(** [generateToken("asha@example.com")] at time 1700000000000. *)
Definition asha : jsstring := js "asha@example.com".
Definition ravi : jsstring := js "ravi@example.com".
Definition asha_token : jsstring := js "YXNoYUBleGFtcGxlLmNvbToxNzAwMDAwMDAwMDAw".

Definition sample_request (token : jsstring) (body : value) : request := {|
  authorization := Some (js "Bearer " ++ token);
  json_body := Some body;
  query_q := None;
  now := 1700000000000;
  random_tail := js "k3x9q2m1z";
  fetch_gemini := λ _, None
|}.

Definition asha_profile : value :=
  VObj (obj [("email", VStr asha); ("name", VText "Asha"); ("isOnboarded", VBool true);
             ("xpLevel", VInt 120); ("currentSavings", VInt 25000);
             ("currentNetWorth", VInt 125000)]).

Definition ravi_profile : value :=
  VObj (obj [("email", VStr ravi); ("name", VText "Ravi"); ("isOnboarded", VBool true);
             ("xpLevel", VInt 80); ("currentSavings", VInt (-5));
             ("currentNetWorth", VInt 100)]).

Definition sample_store : kvstore :=
  <[user_key (VStr asha) := asha_profile]> (<[user_key (VStr ravi) := ravi_profile]> ∅).

(** The validation of POST /transactions in the words of the
    specification: the type is one of the four and the amount is a
    positive number, which in the model is an integer; the amounts
    with a fraction that the code accepts as well are outside it. *)
Definition passes_validation (transaction : value) : bool :=
  existsb (strict_eq (get transaction "type")) transaction_types
  && match get transaction "amount" with
     | VNum (Fin a) => (0 <? a)%Z
     | _ => false
     end.

(** An integer small enough for the sums and differences of two such
    integers to be doubles: on them the arithmetic of the code is the
    arithmetic of the integers. *)
Definition exact (z : Z) : Prop := (Z.abs z ≤ 2 ^ 52)%Z.


(** A request without credentials, as /signup and /login take them. *)
Definition public_request (body : value) : request := {|
  authorization := None;
  json_body := Some body;
  query_q := None;
  now := 1700000000000;
  random_tail := js "k3x9q2m1z";
  fetch_gemini := λ _, None
|}.

Definition signup_body (email : jsstring) (password name : string) : value :=
  VObj (obj [("email", VStr email); ("password", VText password); ("name", VText name)]).

(** The friends of a user as the handlers read them:
    [userData.friends || []]. *)
Definition friends_of (kv : kvstore) (userId : jsstring) : value :=
  or_else (get (profile_of kv userId) "friends") (VArr []).

(** The XP of a stored user as a number, for users whose XP is one. *)
Definition xp_number (user : value) : Z :=
  match or_else (get user "xpLevel") (VInt 0) with
  | VNum (Fin n) => n
  | _ => 0
  end.

Definition numeric_xp (user : value) : Prop :=
  or_else (get user "xpLevel") (VInt 0) = VInt (xp_number user).

(** [a] comes before [b] in a ranking by XP. *)
Definition more_xp (a b : value) : Prop := (xp_number b ≤ xp_number a)%Z.

(** The entries of a leaderboard that are marked as the requester's. *)
Definition flagged (board : list value) : list value :=
  filter (λ entry, strict_eq (get entry "isCurrentUser") (VBool true) = true) board.

(** A stored user whose email is the requester's, in the sense of
    [user.email === userId]. *)
Definition is_requester (userId : jsstring) (user : value) : Prop :=
  strict_eq (get user "email") (VStr userId) = true.

#[global] Instance is_requester_dec (userId : jsstring) (user : value) :
  Decision (is_requester userId user) :=
  decide (strict_eq (get user "email") (VStr userId) = true).

(** Fifty onboarded users with more XP than the two of [sample_store]. *)
Definition rival (i : nat) : value :=
  VObj (obj [("email", VStr (js "rival" ++ js (pretty i) ++ js "@example.com"));
             ("name", VText "Rival"); ("isOnboarded", VBool true);
             ("xpLevel", VInt (1000 + Z.of_nat i))]).

Definition crowded_store : kvstore :=
  foldr (λ i kv, <[user_key (get (rival i) "email") := rival i]> kv) sample_store (seq 0 50).

(** The fields every mission must carry. *)
Definition required_fields : list string :=
  ["id"; "title"; "description"; "icon"; "xp"; "category"; "timeEstimate";
   "priority"; "classification"; "whyItMatters"; "tips"].

(** A mission object in which every required field is present. *)
Definition well_formed (m : value) : Prop :=
  ∃ o, m = VObj o ∧ Forall (λ k, ∃ v, o !! js k = Some v ∧ v ≠ VUndef) required_fields.

(** A reply of the model whose first candidate holds [text]. *)
Definition gemini_reply (text : string) : fetch_response := {|
  fetch_ok := true;
  fetch_json :=
    Some (VObj (obj [("candidates",
                      VArr [VObj (obj [("content",
                                        VObj (obj [("parts",
                                                    VArr [VObj (obj [("text", VText text)])])]))])])]))
|}.

Definition generate_request (reply : option fetch_response) : request := {|
  authorization := Some (js "Bearer " ++ asha_token);
  json_body := None;
  query_q := None;
  now := 1700000000000;
  random_tail := js "k3x9q2m1z";
  fetch_gemini := λ _, reply
|}.



(** ** The client helpers (lines 1-53) *)

(** [getServerUrl(path)]; [projectId] is imported from [./info]. *)
Definition getServerUrl (projectId path : jsstring) : jsstring :=
  js "https://" ++ projectId ++ js ".supabase.co/functions/v1/make-server-b509981e" ++ path.

(** The second argument of [fetch] in [testBackendConnection]. *)
Definition health_check_init : object :=
  obj [("method", VText "GET");
       ("headers", VObj (obj [("Content-Type", VText "application/json")]))].

(** [testBackendConnection()] (lines 9-34); [fetch] gives [None] for a
    promise that rejects. *)
Definition testBackendConnection (fetch : jsstring → object → option fetch_response)
    (projectId : jsstring) : bool :=
  match fetch (getServerUrl projectId (js "/health")) health_check_init with
  | None => false
  | Some response =>
      if negb (fetch_ok response) then false
      else
        match fetch_json response with
        | None => false
        | Some data =>
            match prop data "status" with
            | Ok status => strict_eq status (VText "ok")
            | Throw _ => false
            end
        end
  end.

(** [authFetch(path, options)] (lines 37-53); [token] is what
    [localStorage.getItem] gives, a string or null, and the result is the
    promise of [fetch] or a rejection. *)
Definition authFetch {A} (fetch : jsstring → object → A) (token : value)
    (projectId path : jsstring) (options : value) : result A :=
  let options := match options with VUndef => VObj ∅ | _ => options end in
  if negb (truthy token)
  then Throw (Error (VText "No authentication token found"))
  else
    headers <~ prop options "headers";;
    Ok (fetch (getServerUrl projectId path)
          (with_fields (spread options)
             [("headers",
               VObj (spread headers
                     ∪ obj [("Content-Type", VText "application/json");
                            ("Authorization", VStr (js "Bearer " ++ to_string token))]))])).

(** ** The routes by method and by what they ask of a request *)

Inductive method := GET | POST.

(** [app.get] and [app.post]. *)
Definition method_of (r : route) : method :=
  match r with
  | Health | GetProfile | GetMissions | GetFinancialData | GetPosts | GetLeaderboard
  | GetFriends | SearchUsers | GetTransactions => GET
  | _ => POST
  end.

(** The routes whose handler does not begin with the token check. *)
Definition is_public (r : route) : bool :=
  match r with Health | Signup | Login => true | _ => false end.

(** The routes whose handler calls [c.req.json()]. *)
Definition reads_body (r : route) : bool :=
  match r with
  | Signup | Login | UpdateProfile | PostMissions | CompleteMission | PostFinancialData
  | CreatePost | AddFriend | AddTransaction => true
  | _ => false
  end.

(** The answer of the token check to a request it refuses: the first
    message when no token can be read from the header, the second when
    the token names nobody. *)
Definition rejection (req : request) : response :=
  json 401 [("error", VText (if nonempty (access_token req)
                             then "Unauthorized - invalid or expired token"
                             else "No authorization token provided"))].

(** ** What the handlers write *)

(** The entry POST /missions writes for a body (lines 399-403). *)
Definition saved_missions `{Host} (req : request) (body : value) : value :=
  VObj (obj [("missions", or_else (get body "missions") (VArr []));
             ("completedToday", VInt 0);
             ("lastReset", iso_now req)]).

(** The entry POST /financial-data writes for a body (lines 497-500). *)
Definition saved_financial_data `{Host} (req : request) (body : value) : value :=
  VObj (with_fields (spread body) [("updatedAt", iso_now req)]).

(** The transactions of a user as the handlers read them:
    [Array.isArray(stored) ? stored : []]. *)
Definition transactions_of (kv : kvstore) (userId : jsstring) : list value :=
  match kv !! transactions_key userId with
  | Some (VArr l) => l
  | _ => []
  end.

(** The missions of a user as POST /missions/complete reads them:
    [missionsData.missions || []], an absent entry counting as the
    empty one. *)
Definition missions_of (kv : kvstore) (userId : jsstring) : value :=
  or_else (get (default VUndef (kv !! missions_key userId)) "missions") (VArr []).

(** [missionsData.completedToday || 0] *)
Definition completed_today (kv : kvstore) (userId : jsstring) : value :=
  or_else (get (default VUndef (kv !! missions_key userId)) "completedToday") (VInt 0).

(** A mission on which [m.id === missionId] is evaluated and false. *)
Definition other_mission (missionId m : value) : Prop :=
  is_nullish m = false ∧ strict_eq (get m "id") missionId = false.

(** The entry appended for a mission the list does not hold
    (line 441). *)
Definition completed_stub `{Host} (req : request) (missionId : value) : value :=
  VObj (obj [("id", missionId); ("completed", VBool true); ("completedAt", iso_now req)]).

(** [!content || typeof content !== 'string' || content.trim().length === 0] *)
Definition blank_content (content : value) : bool :=
  match content with
  | VStr text => bool_decide (trim text = [])
  | _ => true
  end.





(** The entry GET /friends serves for one email of the list, if the
    email has a profile (lines 1010-1021). *)
Definition friend_entry `{Host} (kv : kvstore) (email : value) : option value :=
  let friendData := default VUndef (kv !! user_key email) in
  if truthy friendData
  then Some (VObj (obj [("name", get friendData "name");
                        ("email", email);
                        ("xp", or_else (get friendData "xpLevel") (VInt 0));
                        ("level", level_of friendData);
                        ("streak", or_else (get friendData "streak") (VInt 0))]))
  else None.

(** Whether the loop of GET /friends gets past one email of the list:
    the email is converted in the key (line 1010) and the XP of its
    profile, if it has one, in the level (line 1016). *)
Definition friend_converts (kv : kvstore) (email : value) : bool :=
  converts email
  && (if truthy (default VUndef (kv !! user_key email))
      then converts (or_else (get (default VUndef (kv !! user_key email)) "xpLevel") (VInt 0))
      else true).

(** The entry POST /transactions appends to the list of the caller
    (lines 1115-1122). *)
Definition new_transaction `{Host} (req : request) (transaction : value) : value :=
  VObj (obj [("type", get transaction "type");
             ("amount", VNum (to_number (get transaction "amount")));
             ("description", or_else (get transaction "description") (VStr []));
             ("category", or_else (get transaction "category") (VStr []));
             ("id", VStr (js "txn_" ++ to_string (VInt (now req)) ++ js "_"
                            ++ random_tail req));
             ("date", iso_now req)]).

(** The list POST /missions/generate stores and serves. *)
Definition generated_missions `{Host} (req : request) (kv : kvstore) (userId : jsstring)
  : list value :=
  not_completed <$>
    (if prompt_converts (profile_of kv userId)
     then choose_missions req (profile_of kv userId)
     else getDefaultMissions req (profile_of kv userId)).

(** An object that cannot be converted to a string or a number. *)
Definition unconvertible : value := VObj (obj [("toString", VInt 1)]).

(** A result of [callGeminiAPI] from which no mission list is read: a
    throw, a reply that is not a string, a string without a bracketed
    part, a bracketed part that does not parse, or that parses to
    anything but a non-empty array, or an array with an element whose
    [id] cannot be read. *)
Definition unusable_reply `{Host} (req : request) (reply : result value) : bool :=
  match reply with
  | Throw _ => true
  | Ok (VStr text) =>
      match match_array (strip_fences text) with
      | None => true
      | Some jsonMatch =>
          match JSON_parse jsonMatch with
          | Some (VArr (m :: parsed)) =>
              match rmap (λ im, mission_of_reply req im.1 im.2) (imap pair (m :: parsed)) with
              | Ok _ => false
              | Throw _ => true
              end
          | _ => true
          end
      end
  | Ok _ => true
  end.

(** The fields of a mission that are taken from the reply when the
    reply gives them a truthy value. *)
Definition copied_fields : list string :=
  ["id"; "title"; "description"; "icon"; "xp"; "category"; "timeEstimate";
   "priority"; "classification"; "whyItMatters"].

(** ** More sample data *)

Definition asha_request (body : value) : request := sample_request asha_token body.

Definition asha_signup : request := public_request (signup_body asha "s3cret" "Asha").

(** The store after Asha has signed up on an empty one. *)
Definition signed_up : kvstore := (@signup sample_host asha_signup ∅).2.

Definition two_missions : list value :=
  [VObj (obj [("id", VText "m1"); ("title", VText "Save")]);
   VObj (obj [("id", VText "m2"); ("title", VText "Learn")])].

Definition missions_store : kvstore :=
  <[missions_key asha :=
      VObj (obj [("missions", VArr two_missions); ("completedToday", VInt 0)])]> sample_store.

Definition complete_body (missionId : string) : value :=
  VObj (obj [("missionId", VText missionId); ("xpEarned", VInt 15)]).

Definition search_request (q : string) : request := {|
  authorization := Some (js "Bearer " ++ asha_token);
  json_body := None;
  query_q := Some (js q);
  now := 1700000000000;
  random_tail := js "k3x9q2m1z";
  fetch_gemini := λ _, None
|}.

(** A health endpoint answered by the handler of the server. *)
Definition sample_fetch (url : jsstring) (init : object) : option fetch_response :=
  Some {| fetch_ok := true;
          fetch_json := Some (VObj (payload (@health sample_host (asha_request VNull) ∅).1)) |}.




(** * Properties *)

#[local] Ltac Zify.zify_post_hook ::= Z.to_euclidean_division_equations.

(** ** Base64 *)

Lemma list_ind3 {A} (P : list A → Prop) :
  P [] → (∀ a, P [a]) → (∀ a b, P [a; b]) →
  (∀ a b c l, P l → P (a :: b :: c :: l)) →
  ∀ l, P l.
Proof.
  intros H0 H1 H2 H3. fix IH 1.
  intros [|a [|b [|c l]]]; [apply H0 | apply H1 | apply H2 | apply H3, IH].
Qed.

Lemma base64_char_spec (n : N) :
  (n < 64)%N →
  base64_index (base64_char n) = Some n
  ∧ base64_char n ≠ equals_sign
  ∧ is_ascii_whitespace (base64_char n) = false.
Proof.
  intros Hn. rewrite <- (N2Nat.id n).
  assert (Hk : (N.to_nat n < 64)%nat) by lia.
  revert Hk. generalize (N.to_nat n). clear n Hn. intros k Hk.
  do 64 (destruct k as [|k]; [vm_compute; by repeat split|]). lia.
Qed.

Ltac split_latin1 :=
  repeat match goal with
         | H : is_latin1 (_ :: _) = true |- _ => simpl in H
         | H : _ && _ = true |- _ => apply andb_prop in H as [? ?]
         | H : (_ <=? _)%N = true |- _ => apply N.leb_le in H
         end.

Lemma sextets_bound (bytes : list N) :
  is_latin1 bytes = true → Forall (λ s, s < 64)%N (sextets bytes).
Proof.
  induction bytes as [|a|a b|a b c l IH] using list_ind3; intros Hb;
    split_latin1; simpl; repeat (apply Forall_cons; split); try apply Forall_nil; try lia.
  by apply IH.
Qed.

Lemma bytes_of_sextets_sextets (bytes : list N) :
  is_latin1 bytes = true → bytes_of_sextets (sextets bytes) = bytes.
Proof.
  induction bytes as [|a|a b|a b c l IH] using list_ind3; intros Hb;
    split_latin1; simpl; [done | repeat f_equal; lia .. | ].
  rewrite IH by done. repeat f_equal; lia.
Qed.

Lemma sextets_length (bytes : list N) :
  (length (sextets bytes) + length (padding bytes)) mod 4 = 0
  ∧ length (sextets bytes) mod 4 ≠ 1
  ∧ length (padding bytes) ≤ 2.
Proof.
  unfold padding. rewrite length_replicate.
  induction bytes as [|a|a b|a b c l IH] using list_ind3;
    try (vm_compute; by repeat split; try lia).
  change (length (sextets (a :: b :: c :: l))) with (4 + length (sextets l)).
  change (length (a :: b :: c :: l)) with (3 + length l).
  replace (3 + length l) with (length l + 1 * 3) by lia.
  rewrite Nat.Div0.mod_add.
  replace (4 + length (sextets l) + (3 - length l mod 3) mod 3)
    with (length (sextets l) + (3 - length l mod 3) mod 3 + 1 * 4) by lia.
  replace (4 + length (sextets l)) with (length (sextets l) + 1 * 4) by lia.
  by rewrite !Nat.Div0.mod_add.
Qed.

Lemma strip_padding_encoded (m : jsstring) (k : nat) :
  Forall (λ c, c ≠ equals_sign) m → k ≤ 2 →
  strip_padding (m ++ replicate k equals_sign) = m.
Proof.
  intros Hm Hk. unfold strip_padding.
  rewrite reverse_app, reverse_replicate.
  assert (Hlast : ∀ e r, reverse m = e :: r → (e =? equals_sign)%N = false).
  { intros e r Hr. apply N.eqb_neq. eapply (Forall_forall (λ c, c ≠ equals_sign)); [done|].
    apply elem_of_reverse. rewrite Hr. left. }
  destruct k as [|[|[|k]]]; [| | |lia]; simpl.
  - rewrite app_nil_r. destruct (reverse m) as [|e1 [|e2 r]] eqn:Hr; try done.
    + by rewrite (Hlast e1 []).
    + by rewrite (Hlast e1 (e2 :: r)).
  - destruct (reverse m) as [|e2 r] eqn:Hr.
    + by apply (f_equal reverse) in Hr; rewrite reverse_involutive in Hr.
    + rewrite (Hlast e2 r) by done. by rewrite <- Hr, reverse_involutive.
  - by rewrite reverse_involutive.
Qed.

Lemma base64_index_chars (sx : list N) :
  Forall (λ s, s < 64)%N sx → mapM base64_index (base64_char <$> sx) = Some sx.
Proof.
  induction 1 as [|s sx Hs _ IH]; [done|].
  rewrite fmap_cons. apply mapM_Some_2. constructor.
  - by apply base64_char_spec.
  - by apply mapM_Some_1 in IH.
Qed.

Lemma filter_all {A} (P : A → Prop) `{∀ x, Decision (P x)} (l : list A) :
  Forall P l → filter P l = l.
Proof.
  induction 1 as [|x l Hx _ IH]; [done|]. by rewrite filter_cons_True, IH.
Qed.

(** Decoding undoes encoding. *)
Lemma atob_base64_encode (bytes : list N) :
  is_latin1 bytes = true → atob (base64_encode bytes) = Ok bytes.
Proof.
  intros Hb. pose proof (sextets_bound bytes Hb) as Hsx.
  destruct (sextets_length bytes) as (Hlen & Hmod & Hpad).
  assert (Hchars : Forall (λ c, c ≠ equals_sign ∧ is_ascii_whitespace c = false)
                          (base64_char <$> sextets bytes)).
  { apply Forall_fmap. eapply Forall_impl; [exact Hsx|].
    intros s Hs. by apply base64_char_spec. }
  unfold atob, base64_encode.
  rewrite filter_all; last first.
  { apply Forall_app. split.
    - eapply Forall_impl; [exact Hchars|]. by intros ? [].
    - unfold padding. apply Forall_replicate. done. }
  destruct (decide (length (_ ++ _) mod 4 = 0)) as [_|Hn];
    [|by rewrite length_app, length_fmap in Hn].
  unfold padding. rewrite strip_padding_encoded; last first.
  { pose proof (length_replicate ((3 - length bytes mod 3) mod 3) equals_sign) as E.
    unfold padding in Hpad. by rewrite E in Hpad. }
  { eapply Forall_impl; [exact Hchars|]. by intros ? []. }
  rewrite decide_False by (by rewrite length_fmap).
  rewrite base64_index_chars by done.
  by rewrite bytes_of_sextets_sextets.
Qed.

(** ** Tokens *)

Lemma js_latin1 (s : string) : is_latin1 (js s) = true.
Proof.
  unfold js, is_latin1. apply forallb_forall. intros c Hc.
  apply in_map_iff in Hc as (a & <- & _).
  pose proof (Ascii.N_ascii_bounded a). apply N.leb_le. lia.
Qed.

Lemma is_latin1_app (s t : jsstring) :
  is_latin1 (s ++ t) = is_latin1 s && is_latin1 t.
Proof. apply forallb_app. Qed.

Lemma split_on_nonempty (sep : N) (s : jsstring) : split_on sep s ≠ [].
Proof.
  destruct s as [|c t]; simpl; [done|].
  destruct (c =? sep)%N; [done|]. by destruct (split_on sep t).
Qed.

(** The first piece of a split is the text before the first separator. *)
Lemma head_split_on (sep : N) (s : jsstring) :
  ∃ first rest,
    head (split_on sep s) = Some first ∧ s = first ++ rest ∧ (sep ∉ first)
    ∧ (rest = [] ∨ ∃ r, rest = sep :: r).
Proof.
  induction s as [|c t IH]; simpl.
  - exists [], []. repeat split; [apply not_elem_of_nil | by left].
  - destruct (c =? sep)%N eqn:Hc.
    + apply N.eqb_eq in Hc as ->. exists [], (sep :: t).
      repeat split; [apply not_elem_of_nil | right; by eexists].
    + apply N.eqb_neq in Hc. destruct IH as (first & rest & Hhd & -> & Hno & Hrest).
      destruct (split_on sep (first ++ rest)) as [|h r]; [done|].
      injection Hhd as ->. exists (c :: first), rest.
      repeat split; [|done]. rewrite not_elem_of_cons. split; [congruence | done].
Qed.

Lemma prefix_before_separator (sep : N) (a b c d : jsstring) :
  a ++ b = c ++ d → sep ∉ a → sep ∉ c →
  (b = [] ∨ ∃ r, b = sep :: r) → (d = [] ∨ ∃ r, d = sep :: r) → a = c.
Proof.
  revert c. induction a as [|x a IH]; intros [|y c] Heq Ha Hc Hb Hd; simpl in *.
  - done.
  - exfalso. destruct Hb as [->|[r ->]]; [done|].
    injection Heq as -> _. apply Hc. left.
  - exfalso. destruct Hd as [->|[r ->]]; [done|].
    injection Heq as -> _. apply Ha. left.
  - injection Heq as -> Heq. f_equal.
    apply not_elem_of_cons in Ha as [_ Ha]. apply not_elem_of_cons in Hc as [_ Hc].
    by apply IH.
Qed.

Lemma verifyToken_decoded (token decoded first rest : jsstring) :
  atob token = Ok decoded → decoded = first ++ rest → colon ∉ first →
  (rest = [] ∨ ∃ r, rest = colon :: r) →
  verifyToken token = Some first.
Proof.
  intros Hdec -> Hno Hrest. unfold verifyToken. rewrite Hdec.
  destruct (head_split_on colon (first ++ rest)) as (f & r & -> & Heq & Hf & Hr).
  f_equal. symmetry. by eapply prefix_before_separator.
Qed.

(** C5, as amended: for every email without [:] whose characters are
    all at most U+00FF, and every timestamp, issuance returns a token
    and verifying that token returns exactly the email; verification
    involves no clock. *)
Theorem verifyToken_generateToken (email : jsstring) (issued_at : Z) :
  is_latin1 email = true → colon ∉ email →
  ∃ token, generateToken (VStr email) issued_at = Ok token
           ∧ verifyToken token = Some email.
Proof.
  intros Hlatin Hcolon. unfold generateToken, btoa. simpl to_string.
  assert (Hall : is_latin1 (email ++ [colon] ++ js (pretty issued_at)) = true).
  { rewrite !is_latin1_app, Hlatin, js_latin1. done. }
  rewrite Hall. eexists. split; [done|].
  eapply verifyToken_decoded; [by apply atob_base64_encode | done | done |].
  right. by eexists.
Qed.

Lemma verifyToken_generateToken_witness :
  ∃ token, generateToken (VText "asha@example.com") 1700000000000 = Ok token
           ∧ verifyToken token = Some (js "asha@example.com").
Proof.
  apply (verifyToken_generateToken (js "asha@example.com") 1700000000000).
  - reflexivity.
  - by apply (bool_decide_unpack _); vm_compute.
Defined.

(** C9, as amended: verification gives no identity exactly when the
    decoding throws; when the token decodes, the identity is the decoded
    text up to its first [:], all of it when it has none; nothing else
    is checked, so for every [E] without [:] whose characters are at
    most U+00FF, [btoa(E)] alone is a token for [E]. *)
Theorem verifyToken_accepts :
  (∀ token, verifyToken token = None ↔ ∃ e, atob token = Throw e)
  ∧ (∀ token decoded, atob token = Ok decoded →
       ∃ userId rest,
         verifyToken token = Some userId ∧ decoded = userId ++ rest
         ∧ (colon ∉ userId) ∧ (rest = [] ∨ ∃ r, rest = colon :: r))
  ∧ (∀ token decoded, atob token = Ok decoded → colon ∉ decoded →
       verifyToken token = Some decoded)
  ∧ (∀ E, is_latin1 E = true → colon ∉ E →
       ∃ token, btoa E = Ok token ∧ verifyToken token = Some E).
Proof.
  repeat split.
  - unfold verifyToken. destruct (atob token) as [decoded|e]; [|by eauto].
    intros Hnone. pose proof (split_on_nonempty colon decoded).
    by destruct (split_on colon decoded).
  - intros [e He]. unfold verifyToken. by rewrite He.
  - intros token decoded Hdec.
    destruct (head_split_on colon decoded) as (first & rest & Hhd & Heq & Hno & Hrest).
    exists first, rest. repeat split; try done.
    unfold verifyToken. by rewrite Hdec.
  - intros token decoded Hdec Hno.
    eapply verifyToken_decoded; [done | by rewrite app_nil_r | done | by left].
  - intros E Hlatin Hno. unfold btoa. rewrite Hlatin. eexists. split; [done|].
    eapply verifyToken_decoded;
      [by apply atob_base64_encode | by rewrite app_nil_r | done | by left].
Qed.

Lemma verifyToken_accepts_witness :
  ∃ token, btoa asha = Ok token ∧ verifyToken token = Some asha.
Proof.
  destruct verifyToken_accepts as (_ & _ & _ & Hbare).
  apply (Hbare asha).
  - reflexivity.
  - by apply (bool_decide_unpack _); vm_compute.
Defined.

(** C9 as stated fails for an email with a colon: the token made of the
    bare email authenticates the text before the colon. *)
Lemma bare_token_of_email_with_colon :
  btoa (js "a:b@x.io") = Ok (js "YTpiQHguaW8=")
  ∧ verifyToken (js "YTpiQHguaW8=") = Some (js "a")
  ∧ js "a" ≠ js "a:b@x.io".
Proof. by vm_compute. Qed.

(** C5 as stated fails for an email with a character above U+00FF:
    issuance throws, and there is no token to verify. *)
Lemma generateToken_beyond_latin1 :
  generateToken (VStr [26085%N]) 1700000000000 = Throw (Engine InvalidCharacterError)
  ∧ (colon ∉ [26085%N]).
Proof.
  split; [reflexivity|]. by apply (bool_decide_unpack _); vm_compute.
Qed.

(** ** Running a handler *)

Lemma authenticated_caller (req : request) (userId : jsstring) (k : jsstring → M response) :
  caller req = Some userId → authenticated req k = k userId.
Proof.
  unfold caller, authenticated.
  destruct (access_token req) as [[|c tok]|]; [discriminate | | discriminate].
  cbv beta iota zeta delta [nonempty negb default from_option Datatypes.id].
  destruct (verifyToken (c :: tok)) as [[|u id]|]; [discriminate | | discriminate].
  by intros [= <-].
Qed.

Lemma caller_verifies (req : request) (userId : jsstring) :
  caller req = Some userId →
  ∃ u id, userId = u :: id ∧ verifyToken (default [] (access_token req)) = Some (u :: id).
Proof.
  unfold caller.
  destruct (access_token req) as [[|c tok]|]; [discriminate | | discriminate].
  cbn [default from_option Datatypes.id].
  destruct (verifyToken (c :: tok)) as [[|u id]|]; [discriminate | | discriminate].
  intros [= <-]. by exists u, id.
Qed.

Lemma unauthenticated (req : request) (k : jsstring → M response) (kv : kvstore) :
  caller req = None → ∃ r, authenticated req k kv = (Ok r, kv) ∧ status r = 401%Z.
Proof.
  unfold caller, authenticated.
  destruct (access_token req) as [[|c tok]|];
    cbv beta iota zeta delta [nonempty negb default from_option Datatypes.id];
    [by eexists | | by eexists].
  destruct (verifyToken (c :: tok)) as [[|u id]|];
    [by eexists | discriminate | by eexists].
Qed.

Lemma lookup_with_fields (base : object) (fields : list (string * value)) (k : jsstring) :
  with_fields base fields !! k =
  match obj fields !! k with Some v => Some v | None => base !! k end.
Proof.
  unfold with_fields. rewrite lookup_union.
  destruct (obj fields !! k), (base !! k); done.
Qed.

Lemma js_inj (a b : string) : js a = js b → a = b.
Proof.
  unfold js. intros Heq.
  rewrite <- (String.string_of_list_ascii_of_string a),
          <- (String.string_of_list_ascii_of_string b).
  f_equal. revert Heq. generalize (String.list_ascii_of_string b).
  induction (String.list_ascii_of_string a) as [|x l IH]; intros [|y l']; try done.
  rewrite !fmap_cons. intros [= Hxy Hl]. f_equal; [|by apply IH].
  by rewrite <- (Ascii.ascii_N_embedding x), <- (Ascii.ascii_N_embedding y), Hxy.
Qed.

Lemma lookup_obj_nil (k : jsstring) : obj [] !! k = None.
Proof. apply lookup_empty. Qed.

Lemma lookup_obj_cons (k k' : string) (v : value) (fields : list (string * value)) :
  obj ((k, v) :: fields) !! js k' = if String.eqb k k' then Some v else obj fields !! js k'.
Proof.
  unfold obj. rewrite fmap_cons. simpl. rewrite lookup_insert.
  destruct (String.eqb_spec k k') as [->|Hne].
  - by rewrite decide_True.
  - rewrite decide_False; [done|]. intros Heq. by apply js_inj in Heq.
Qed.

Lemma profile_of_insert (kv : kvstore) (userId : jsstring) (o : object) :
  profile_of (<[user_key (VStr userId) := VObj o]> kv) userId = VObj o.
Proof. unfold profile_of. by rewrite lookup_insert_eq. Qed.

Lemma get_with_fields (base : object) (fields : list (string * value)) (k : string) :
  get (VObj (with_fields base fields)) k =
  match obj fields !! js k with Some v => v | None => default VUndef (base !! js k) end.
Proof. simpl. rewrite lookup_with_fields. by destruct (obj fields !! js k). Qed.

(** Lookups in object literals with literal names. *)
Ltac lookup_fields :=
  rewrite ?get_with_fields, ?lookup_with_fields, ?lookup_obj_cons, ?lookup_obj_nil;
  cbn [String.eqb Ascii.eqb Bool.eqb andb].

(** To describe the outcome of a handler it is enough to describe its
    two components. *)
Lemma outcome {A B} (x : A * B) (P : A → B → Prop) :
  P x.1 x.2 → ∃ a b, x = (a, b) ∧ P a b.
Proof. destruct x as [a b]. by exists a, b. Qed.

(** Reduction of the monad's plumbing, and of nothing else. *)
Ltac run_handler :=
  cbv beta iota delta [handle bind req_json lift kv_get kv_set kv_getByPrefix ret
                       prop is_nullish rbind].

Lemma ToPrimitive_converts (v : value) : converts v = true → ToPrimitive v = Ok ().
Proof. unfold ToPrimitive. by intros ->. Qed.

Lemma ToPrimitive_throws (v : value) :
  converts v = false → ToPrimitive v = Throw (Engine TypeError).
Proof. unfold ToPrimitive. by intros ->. Qed.

Lemma ToPrimitive_str (s : jsstring) : ToPrimitive (VStr s) = Ok ().
Proof. done. Qed.

Lemma ToPrimitive_int (z : Z) : ToPrimitive (VInt z) = Ok ().
Proof. done. Qed.

(** ** Profile update *)

(** C8, as amended: the stored profile maps every field named in the
    body, other than [updatedAt], to the body's value, every other field
    of the existing profile to its old value, and [updatedAt] to the
    fresh stamp. *)
Theorem update_profile_merge `{Host} (req : request) (kv : kvstore)
    (userId : jsstring) (U : value) :
  caller req = Some userId → json_body req = Some U →
  ∃ r stored,
    update_profile req kv = (r, <[user_key (VStr userId) := VObj stored]> kv)
    ∧ status r = 200%Z
    ∧ payload r !! js "userData" = Some (VObj stored)
    ∧ stored !! js "updatedAt" = Some (VStr (toISOString (now req)))
    ∧ ∀ k, k ≠ js "updatedAt" →
        stored !! k = match spread U !! k with
                      | Some v => Some v
                      | None => spread (profile_of kv userId) !! k
                      end.
Proof.
  intros Hcaller Hbody. unfold update_profile.
  rewrite (authenticated_caller _ _ _ Hcaller). run_handler. rewrite Hbody.
  eexists _, _. split; [reflexivity|]. split; [done|]. split; [done|]. split.
  - by rewrite lookup_with_fields.
  - intros k Hk. rewrite lookup_with_fields.
    unfold obj. simpl. rewrite lookup_insert_ne by done.
    rewrite lookup_empty, lookup_union. unfold profile_of.
    by destruct (spread U !! k), (spread _ !! k).
Qed.

Lemma update_profile_merge_witness :
  ∃ r stored,
    @update_profile sample_host
      (sample_request asha_token (VObj (obj [("targetAge", VInt 35)]))) sample_store
    = (r, <[user_key (VStr asha) := VObj stored]> sample_store)
    ∧ status r = 200%Z
    ∧ payload r !! js "userData" = Some (VObj stored)
    ∧ stored !! js "updatedAt" = Some (VStr (@toISOString sample_host 1700000000000))
    ∧ ∀ k, k ≠ js "updatedAt" →
        stored !! k = match obj [("targetAge", VInt 35)] !! k with
                      | Some v => Some v
                      | None => spread (profile_of sample_store asha) !! k
                      end.
Proof.
  apply (@update_profile_merge sample_host
           (sample_request asha_token (VObj (obj [("targetAge", VInt 35)])))
           sample_store asha (VObj (obj [("targetAge", VInt 35)]))); reflexivity.
Defined.

(** C8 as stated fails for a body that names [updatedAt]: the stored
    field is the stamp, not the body's value. *)
Lemma update_profile_overrides_updatedAt :
  let U := VObj (obj [("updatedAt", VInt 1)]) in
  let kv' := (@update_profile sample_host (sample_request asha_token U) sample_store).2 in
  get U "updatedAt" = VInt 1
  ∧ get (profile_of kv' asha) "updatedAt" = VStr (js "ms:1700000000000").
Proof. by vm_compute. Qed.

(** ** Transactions *)

Lemma strict_eq_text (v : value) (s : string) : strict_eq v (VText s) = true → v = VText s.
Proof.
  destruct v; try done. simpl. intros Heq.
  apply bool_decide_eq_true in Heq. by subst.
Qed.

Lemma passes_validation_inv (transaction : value) :
  passes_validation transaction = true →
  ∃ fields type a,
    transaction = VObj fields ∧ get transaction "type" = VText type
    ∧ type ∈ ["income"; "expense"; "saving"; "investment"]
    ∧ get transaction "amount" = VInt a ∧ (0 < a)%Z.
Proof.
  unfold passes_validation. intros Hv. apply andb_prop in Hv as [Htype Hamount].
  destruct (get transaction "amount") as [| | |[|a]| | |] eqn:Ha; try done.
  destruct transaction as [| | | | | |fields]; try done.
  exists fields. simpl in Htype. rewrite !orb_true_iff in Htype.
  destruct Htype as [Ht|[Ht|[Ht|[Ht|?]]]]; [..|done];
    apply strict_eq_text in Ht; eexists _, a; (split; [done|]); (split; [exact Ht|]);
    (split; [|split; [done | lia]]); set_solver.
Qed.



(** The same call on totals that do not convert: the transaction is
    appended to the list, the conversion throws, the answer is 500 and
    the profile is left as it was. *)
Lemma add_transaction_throws `{Host} (req : request) (kv : kvstore) (userId : jsstring)
    (transaction : value) :
  caller req = Some userId → json_body req = Some transaction →
  passes_validation transaction = true →
  converts (get (profile_of kv userId) "currentSavings")
  && converts (get (profile_of kv userId) "currentNetWorth") = false →
  status (add_transaction req kv).1 = 500%Z
  ∧ (add_transaction req kv).2 !! user_key (VStr userId) = kv !! user_key (VStr userId).
Proof.
  intros Hcaller Hbody Hvalid Hthrows.
  destruct (passes_validation_inv _ Hvalid) as (fields & type & a & -> & Htype & Hin & Hamount & Ha).
  unfold add_transaction. rewrite (authenticated_caller _ _ _ Hcaller).
  run_handler. rewrite Hbody. run_handler. rewrite Htype, Hamount.
  assert (Hcheck : negb (truthy (VText type))
             || negb (existsb (same_value_zero (VText type)) transaction_types) = false).
  { set_unfold in Hin. destruct Hin as [->|[->|[->|[->|[]]]]]; by vm_compute. }
  assert (Hcheck' : negb (truthy (VInt a))
             || negb (bool_decide (typeof (VInt a) = js "number"))
             || not_positive (to_number (VInt a)) = false).
  { unfold VInt. simpl.
    assert ((a =? 0)%Z = false) as -> by lia. assert ((a <=? 0)%Z = false) as -> by lia. done. }
  rewrite Hcheck, Hcheck'. run_handler.
  rewrite lookup_insert_ne by (unfold transactions_key, user_key; by vm_compute).
  fold (profile_of kv userId). unfold ToPrimitive.
  destruct (converts (get (profile_of kv userId) "currentSavings")); cbv beta iota;
    [destruct (converts (get (profile_of kv userId) "currentNetWorth")); [done|]|];
    cbv beta iota; cbn [fst snd]; (split; [done|]);
    by rewrite lookup_insert_ne by (unfold transactions_key, user_key; by vm_compute).
Qed.




Lemma rejected_by_handler (transaction : value) :
  passes_validation transaction = false →
  negb (truthy (get transaction "type"))
  || negb (existsb (same_value_zero (get transaction "type")) transaction_types) = true
  ∨ ∀ `{Host},
      negb (truthy (get transaction "amount"))
      || negb (bool_decide (typeof (get transaction "amount") = js "number"))
      || not_positive (to_number (get transaction "amount")) = true.
Proof.
  unfold passes_validation. intros Hv. apply andb_false_iff in Hv as [Htype|Hamount].
  - left. apply orb_true_iff. right. apply negb_true_iff.
    etrans; [|exact Htype].
    by destruct (get transaction "type") as [| | |[|?]| | |].
  - right. intros ?. destruct (get transaction "amount") as [| | |[|a]| | |];
      simpl; try done; try (by rewrite orb_true_r).
    apply Z.ltb_ge in Hamount.
    destruct (a =? 0)%Z eqn:E; [done|]. simpl. apply Z.leb_le. lia.
Qed.

(** C10, as amended: a body that fails validation is answered with 400
    (with 500 when the body is null, whose fields cannot be read) and
    nothing is written: the store after the call is the store before
    it. *)
Theorem add_transaction_rejected `{Host} (req : request) (kv : kvstore) (userId : jsstring)
    (transaction : value) :
  caller req = Some userId → json_body req = Some transaction →
  passes_validation transaction = false →
  ∃ r, add_transaction req kv = (r, kv)
       ∧ status r = (if is_nullish transaction then 500 else 400)%Z.
Proof.
  intros Hcaller Hbody Hvalid.
  unfold add_transaction. rewrite (authenticated_caller _ _ _ Hcaller).
  run_handler. rewrite Hbody.
  destruct (rejected_by_handler _ Hvalid) as [Htype|Hamount].
  - destruct transaction; run_handler; try (by eexists); rewrite Htype; by eexists.
  - specialize (Hamount _).
    destruct transaction; run_handler; try (by eexists);
      destruct (_ || negb (existsb _ _)); try (by eexists); rewrite Hamount; by eexists.
Qed.

Lemma add_transaction_rejected_witness :
  ∃ r, @add_transaction sample_host
         (sample_request asha_token (VObj (obj [("type", VText "gift"); ("amount", VInt 5)])))
         sample_store = (r, sample_store)
       ∧ status r = 400%Z.
Proof.
  apply (@add_transaction_rejected sample_host
           (sample_request asha_token (VObj (obj [("type", VText "gift"); ("amount", VInt 5)])))
           sample_store asha
           (VObj (obj [("type", VText "gift"); ("amount", VInt 5)]))); reflexivity.
Defined.

(** C10 as stated fails for the body [null]: the answer is 500. *)
Lemma add_transaction_null_body :
  @passes_validation VNull = false
  ∧ status (@add_transaction sample_host (sample_request asha_token VNull) sample_store).1
    = 500%Z.
Proof. by vm_compute. Qed.

(** ** Sign-up *)

Lemma hashPassword_ok `{Host} (password : value) :
  hashPassword password = Ok (base64_encode (SHA256 (to_string password))).
Proof. unfold hashPassword, btoa, is_latin1. by rewrite SHA256_bytes. Qed.





(** ** Friends *)

Lemma existsb_same_value_zero (b : jsstring) (l : list value) :
  existsb (same_value_zero (VStr b)) l = true ↔ VStr b ∈ l.
Proof.
  rewrite existsb_exists. split.
  - intros (x & Hx & Heq). apply list_elem_of_In in Hx.
    destruct x; try done. simpl in Heq. apply bool_decide_eq_true in Heq. by subst.
  - intros Hin. exists (VStr b). split; [by apply list_elem_of_In|].
    simpl. by apply bool_decide_eq_true.
Qed.

Lemma user_key_inj (a b : jsstring) : user_key (VStr a) = user_key (VStr b) → a = b.
Proof. unfold user_key. cbn [to_string]. apply app_inv_head. Qed.

(** C7, as amended: the caller [A] adds [B].  When [B] has no profile
    the answer is 404 and the store is unchanged.  When [B] has one and
    both stored friends fields are lists (or absent), [B] already in the
    list of [A] is answered 400 with the store unchanged; otherwise [B] is
    appended to the list of [A] and [A] is in the list of [B], each list
    being the old one with at most the missing email appended, and the
    answer is 200, or 500 when the XP of [B] does not convert to a number
    for the level of the answer. *)
Theorem add_friend_symmetric `{Host} (req : request) (kv : kvstore) (A B : jsstring)
    (body : value) :
  caller req = Some A → json_body req = Some body → get body "friendEmail" = VStr B →
  ∃ r kv',
    add_friend req kv = (r, kv')
    ∧ (truthy (default VUndef (kv !! user_key (VStr B))) = false →
         status r = 404%Z ∧ kv' = kv)
    ∧ ∀ fa fb,
        truthy (default VUndef (kv !! user_key (VStr B))) = true →
        friends_of kv A = VArr fa → friends_of kv B = VArr fb →
        (VStr B ∈ fa → status r = 400%Z ∧ kv' = kv)
        ∧ (VStr B ∉ fa →
             status r = (if xp_converts (default VUndef (kv !! user_key (VStr B)))
                         then 200 else 500)%Z
             ∧ friends_of kv' A = VArr (fa ++ [VStr B])
             ∧ VStr B ∈ fa ++ [VStr B]
             ∧ ∃ fb', friends_of kv' B = VArr fb' ∧ VStr A ∈ fb'
                      ∧ (fb' = fb ∨ (fb' = fb ++ [VStr A] ∧ VStr A ∉ fb))).
Proof.
  intros Hcaller Hbody Hfriend.
  destruct body as [| | | | | |fields]; try done.
  apply outcome.
  unfold add_friend. rewrite (authenticated_caller _ _ _ Hcaller).
  run_handler. rewrite Hbody. run_handler. rewrite Hfriend.
  rewrite ToPrimitive_str. cbv beta iota.
  destruct (truthy (default VUndef (kv !! user_key (VStr B)))) eqn:HB;
    cbv beta iota delta [negb].
  2:{ split; [done|]. by intros fa fb. }
  split; [done|].
  intros fa fb _ HfA HfB.
  fold (profile_of kv A). fold (friends_of kv A). rewrite HfA.
  cbv beta iota delta [includes push as_array rbind].
  destruct (existsb (same_value_zero (VStr B)) fa) eqn:Hin.
  { split; [done|]. intros Hnot. exfalso. apply Hnot. by apply existsb_same_value_zero. }
  split.
  { intros Hin'. apply existsb_same_value_zero in Hin'. congruence. }
  intros HnotB.
  assert (HafterA : friends_of (<[user_key (VStr A) :=
             VObj (with_fields (spread (profile_of kv A)) [("friends", VArr (fa ++ [VStr B]))])]> kv) A
           = VArr (fa ++ [VStr B])).
  { unfold friends_of. rewrite profile_of_insert. by lookup_fields. }
  unfold ToPrimitive, xp_converts.
  destruct (decide (A = B)) as [<-|Hne].
  - rewrite lookup_insert_eq.
    cbv beta iota delta [default from_option Datatypes.id].
    change (or_else (VObj ?o) (VObj ∅)) with (VObj o).
    rewrite get_with_fields. lookup_fields.
    change (or_else (VArr ?l) (VArr [])) with (VArr l). cbv beta iota.
    assert (existsb (same_value_zero (VStr A)) (fa ++ [VStr A]) = true) as ->.
    { apply existsb_same_value_zero. set_solver. }
    cbv beta iota delta [negb].
    assert (fb = fa) as -> by congruence.
    destruct (converts _); cbv beta iota delta [fst snd];
      (split; [done|]; split; [exact HafterA|]; split; [set_solver|];
       exists (fa ++ [VStr A]); split; [exact HafterA|]; split; [set_solver|];
       by right).
  - assert (Hkeys : user_key (VStr A) ≠ user_key (VStr B)).
    { intros Heq. by apply user_key_inj in Heq. }
    rewrite lookup_insert_ne by done.
    fold (profile_of kv B). fold (friends_of kv B). rewrite HfB. cbv beta iota.
    destruct (existsb (same_value_zero (VStr A)) fb) eqn:HinA; cbv beta iota delta [negb].
    + destruct (converts _); cbv beta iota delta [fst snd];
        (split; [done|]; split; [exact HafterA|]; split; [set_solver|];
         exists fb; split;
         [unfold friends_of, profile_of; rewrite lookup_insert_ne by done; exact HfB|];
         split; [by apply existsb_same_value_zero | by left]).
    + destruct (converts _); cbv beta iota delta [fst snd];
        (split; [done|]; split;
         [unfold friends_of, profile_of; rewrite lookup_insert_ne by done; exact HafterA|];
         split; [set_solver|];
         exists (fb ++ [VStr A]); split;
         [unfold friends_of; rewrite profile_of_insert; by lookup_fields|];
         split; [set_solver|]; right; split; [done|];
         intros HA; apply existsb_same_value_zero in HA; congruence).
Qed.

Lemma add_friend_symmetric_witness :
  ∃ r kv',
    @add_friend sample_host
      (sample_request asha_token (VObj (obj [("friendEmail", VStr ravi)]))) sample_store
    = (r, kv')
    ∧ status r = 200%Z
    ∧ friends_of kv' asha = VArr [VStr ravi]
    ∧ friends_of kv' ravi = VArr [VStr asha].
Proof.
  destruct (@add_friend_symmetric sample_host
              (sample_request asha_token (VObj (obj [("friendEmail", VStr ravi)])))
              sample_store asha ravi (VObj (obj [("friendEmail", VStr ravi)]))
              eq_refl eq_refl eq_refl)
    as (r & kv' & Hrun & _ & Hadd).
  destruct (Hadd [] [] eq_refl eq_refl eq_refl) as [_ Hok].
  destruct (Hok (not_elem_of_nil _)) as (Hstatus & HA & _ & fb' & HB & Hin & Hcases).
  exists r, kv'. split; [exact Hrun|]. split; [exact Hstatus|]. split; [exact HA|].
  destruct Hcases as [-> | [-> _]]; [by apply elem_of_nil in Hin | exact HB].
Defined.

(** C7 as stated fails when the stored friends field of [B] is not a
    list: for a string in which the email of [A] occurs, the call is
    answered 200 and the field of [B] is left as it was, a string that
    names someone else. *)
Lemma add_friend_string_field :
  let kv := <[user_key (VStr ravi) :=
                VObj (obj [("email", VStr ravi); ("friends", VText "natasha@example.com")])]>
              sample_store in
  let req := sample_request asha_token (VObj (obj [("friendEmail", VStr ravi)])) in
  status (@add_friend sample_host req kv).1 = 200%Z
  ∧ friends_of (@add_friend sample_host req kv).2 asha = VArr [VStr ravi]
  ∧ friends_of kv ravi = VText "natasha@example.com"
  ∧ friends_of (@add_friend sample_host req kv).2 ravi = VText "natasha@example.com".
Proof. by vm_compute. Qed.

(** ** Leaderboard *)

Lemma sort_insert_perm (cmp : value → value → num) (x : value) (l : list value) :
  sort_insert cmp x l ≡ₚ x :: l.
Proof.
  induction l as [|y t IH]; simpl; [done|].
  destruct (positive (cmp x y)); [|done].
  rewrite IH. apply Permutation_swap.
Qed.

Lemma js_sort_perm (cmp : value → value → num) (l : list value) : js_sort cmp l ≡ₚ l.
Proof.
  induction l as [|x l IH]; simpl; [done|].
  by rewrite sort_insert_perm, IH.
Qed.

Lemma positive_by_xp `{Host} (x y : value) :
  numeric_xp x → numeric_xp y →
  positive (by_xp x y) = bool_decide (xp_number x < xp_number y)%Z.
Proof.
  unfold numeric_xp, by_xp, js_sub. intros -> ->. simpl.
  case_bool_decide; [apply Z.ltb_lt | apply Z.ltb_ge]; lia.
Qed.

Lemma sort_insert_sorted `{Host} (x : value) (l : list value) :
  numeric_xp x → Forall numeric_xp l →
  StronglySorted more_xp l → StronglySorted more_xp (sort_insert by_xp x l).
Proof.
  intros Hx Hl Hsorted. induction Hsorted as [|y t Ht IH Hy]; simpl.
  - repeat constructor.
  - apply Forall_cons in Hl as [Hny Hnt].
    rewrite positive_by_xp by done. case_bool_decide as Hlt.
    + constructor; [by apply IH|].
      rewrite sort_insert_perm. constructor; [unfold more_xp; lia | done].
    + constructor; [by constructor|].
      constructor; [unfold more_xp; lia|].
      eapply Forall_impl; [exact Hy|]. unfold more_xp. intros z ?. lia.
Qed.

Lemma js_sort_sorted `{Host} (l : list value) :
  Forall numeric_xp l → StronglySorted more_xp (js_sort by_xp l).
Proof.
  induction 1 as [|x l Hx Hl IH]; simpl; [constructor|].
  apply sort_insert_sorted; [done | by rewrite js_sort_perm | done].
Qed.

Lemma strict_eq_str (v : value) (s : jsstring) : strict_eq v (VStr s) = true ↔ v = VStr s.
Proof.
  split.
  - destruct v; try done. simpl. intros Heq. apply bool_decide_eq_true in Heq. by subst.
  - intros ->. simpl. by apply bool_decide_eq_true.
Qed.

Lemma leaderboard_entry_fields `{Host} (userId : jsstring) (index : nat) (user : value) :
  get (leaderboard_entry userId index user) "isCurrentUser"
  = VBool (strict_eq (get user "email") (VStr userId))
  ∧ get (leaderboard_entry userId index user) "xp" = or_else (get user "xpLevel") (VInt 0)
  ∧ get (leaderboard_entry userId index user) "email" = or_else (get user "email") (VStr []).
Proof. unfold leaderboard_entry, get. by lookup_fields. Qed.

Lemma flagged_entries `{Host} (userId : jsstring) (rank : nat → nat) (users : list value) :
  length (flagged (imap (λ i, leaderboard_entry userId (rank i)) users))
  = length (filter (is_requester userId) users).
Proof.
  revert rank. induction users as [|u users IH]; intros rank; [done|].
  rewrite imap_cons. unfold flagged in *.
  destruct (leaderboard_entry_fields userId (rank 0) u) as (Hflag & _ & _).
  destruct (decide (is_requester userId u)) as [Hreq|Hreq].
  - rewrite (filter_cons_True (is_requester userId)) by done.
    rewrite filter_cons_True by (by rewrite Hflag, Hreq).
    simpl. f_equal. apply (IH (rank ∘ S)).
  - rewrite (filter_cons_False (is_requester userId)) by done.
    rewrite filter_cons_False; [apply (IH (rank ∘ S))|].
    rewrite Hflag. intros Hb. apply Hreq. unfold is_requester.
    by destruct (strict_eq (get u "email") (VStr userId)).
Qed.

Lemma filter_none {A} (P : A → Prop) `{∀ x, Decision (P x)} (l : list A) :
  (∀ x, x ∈ l → ¬ P x) → filter P l = [].
Proof.
  induction l as [|x l IH]; intros Hl; [done|].
  rewrite filter_cons_False by (apply Hl; left).
  apply IH. intros y Hy. apply Hl. by right.
Qed.

Lemma at_most_one_requester (userId : jsstring) (users : list value) :
  NoDup ((λ u, get u "email") <$> users) →
  length (filter (is_requester userId) users) ≤ 1.
Proof.
  induction users as [|u users IH]; [simpl; lia|].
  rewrite fmap_cons, NoDup_cons. intros [Hu Hnodup].
  rewrite filter_cons. case_decide as Hreq; [|by apply IH].
  rewrite filter_none; [simpl; lia|].
  intros v Hv Hreq'. apply Hu.
  apply strict_eq_str in Hreq. apply strict_eq_str in Hreq'.
  apply list_elem_of_fmap. exists v. split; [congruence | done].
Qed.

Lemma some_requester (userId : jsstring) (users : list value) (u : value) :
  u ∈ users → get u "email" = VStr userId →
  1 ≤ length (filter (is_requester userId) users).
Proof.
  intros Hin Hemail.
  assert (Hu : u ∈ filter (is_requester userId) users).
  { apply list_elem_of_filter. split; [|done]. by apply strict_eq_str. }
  destruct (filter (is_requester userId) users); [by apply elem_of_nil in Hu | simpl; lia].
Qed.

Lemma top_users `{Host} (allUsers : list value) (u : value) :
  u ∈ take 50 (js_sort by_xp (filter (λ u, listed u = true) allUsers)) →
  u ∈ filter (λ u, listed u = true) allUsers.
Proof.
  intros Hu. apply subseteq_take in Hu. by rewrite js_sort_perm in Hu.
Qed.

Lemma top_emails `{Host} (allUsers : list value) :
  NoDup ((λ u, get u "email") <$> filter (λ u, listed u = true) allUsers) →
  NoDup ((λ u, get u "email")
           <$> take 50 (js_sort by_xp (filter (λ u, listed u = true) allUsers))).
Proof.
  intros Hnodup. rewrite fmap_take.
  eapply sublist_NoDup; [|apply sublist_take].
  by rewrite js_sort_perm.
Qed.

Lemma converted_xp_ok (users : list value) :
  forallb xp_converts users = true → converted_xp users = Ok ().
Proof.
  induction users as [|u users IH]; [done|].
  cbn [forallb converted_xp]. intros [Hu Hrest]%andb_prop.
  unfold xp_converts in Hu. rewrite (ToPrimitive_converts _ Hu). cbn [rbind]. by apply IH.
Qed.

Lemma converted_xp_throws (users : list value) :
  forallb xp_converts users = false → converted_xp users = Throw (Engine TypeError).
Proof.
  induction users as [|u users IH]; [done|].
  cbn [forallb converted_xp]. unfold xp_converts at 1, ToPrimitive.
  destruct (converts _); [|done]. cbn [andb rbind]. apply IH.
Qed.

Lemma get_leaderboard_run `{Host} (req : request) (kv : kvstore) (userId : jsstring) :
  caller req = Some userId →
  forallb xp_converts (filter (λ u, listed u = true) (values_under (js "user:") kv)) = true →
  get_leaderboard req kv
  = (json 200 [("success", VBool true);
               ("leaderboard", VArr (leaderboard userId (values_under (js "user:") kv)))],
     kv).
Proof.
  intros Hcaller Hconverts. unfold get_leaderboard.
  rewrite (authenticated_caller _ _ _ Hcaller). run_handler.
  by rewrite (converted_xp_ok _ Hconverts).
Qed.

Lemma get_leaderboard_throws `{Host} (req : request) (kv : kvstore) (userId : jsstring) :
  caller req = Some userId →
  forallb xp_converts (filter (λ u, listed u = true) (values_under (js "user:") kv)) = false →
  ∃ r, get_leaderboard req kv = (r, kv) ∧ status r = 500%Z.
Proof.
  intros Hcaller Hthrows. unfold get_leaderboard.
  rewrite (authenticated_caller _ _ _ Hcaller). run_handler.
  rewrite (converted_xp_throws _ Hthrows). by eexists.
Qed.

(** C2, as amended: when the XP of an onboarded user does not convert
    to a number the answer is 500.  Otherwise the answer is 200 and the
    list has at most 50 entries; it is in descending order of xp when the
    XP of every onboarded user is a number; an entry is marked
    [isCurrentUser] exactly when its email is the requester's, so that
    with pairwise distinct stored emails at most one entry is marked:
    none when no onboarded user has the requester's email, exactly one
    when an onboarded user has it and at most 50 users are onboarded.
    Nothing is written. *)
Theorem leaderboard_ranking `{Host} (req : request) (kv : kvstore) (userId : jsstring) :
  caller req = Some userId →
  let onboarded := filter (λ u, listed u = true) (values_under (js "user:") kv) in
  ∃ r,
    get_leaderboard req kv = (r, kv)
    ∧ (forallb xp_converts onboarded = false → status r = 500%Z)
    ∧ (forallb xp_converts onboarded = true →
       ∃ board,
         status r = 200%Z
         ∧ payload r !! js "leaderboard" = Some (VArr board)
         ∧ length board ≤ 50
         ∧ (Forall numeric_xp onboarded →
            ∃ xs, (λ e, get e "xp") <$> board = VInt <$> xs
                  ∧ StronglySorted (λ a b, (b ≤ a)%Z) xs)
         ∧ (∀ e, e ∈ board →
              get e "isCurrentUser" = VBool true ↔ get e "email" = VStr userId)
         ∧ (NoDup ((λ u, get u "email") <$> onboarded) → length (flagged board) ≤ 1)
         ∧ ((∀ u, u ∈ onboarded → get u "email" ≠ VStr userId) → flagged board = [])
         ∧ (NoDup ((λ u, get u "email") <$> onboarded) → length onboarded ≤ 50 →
            (∃ u, u ∈ onboarded ∧ get u "email" = VStr userId) →
            length (flagged board) = 1)).
Proof.
  intros Hcaller onboarded.
  destruct (forallb xp_converts onboarded) eqn:Hconverts.
  2:{ destruct (get_leaderboard_throws req kv userId Hcaller Hconverts) as (r & Hrun & Hstatus).
      exists r. split; [done|]. by split. }
  exists (json 200 [("success", VBool true);
                    ("leaderboard", VArr (leaderboard userId (values_under (js "user:") kv)))]).
  split; [by apply get_leaderboard_run|].
  split; [done|]. intros _.
  exists (leaderboard userId (values_under (js "user:") kv)).
  split; [done|]. split; [by lookup_fields|].
  unfold leaderboard. fold onboarded.
  set (top := take 50 (js_sort by_xp onboarded)).
  assert (Hcount : length (flagged (imap (leaderboard_entry userId) top))
                   = length (filter (is_requester userId) top)).
  { apply (flagged_entries userId (λ i, i)). }
  split; [|split; [|split; [|split; [|split]]]].
  - rewrite length_imap. unfold top. rewrite length_take. lia.
  - intros Hnum. exists (xp_number <$> top). split.
    + rewrite fmap_imap. rewrite <- list_fmap_compose.
      assert (Htop : Forall numeric_xp top).
      { apply Forall_forall. intros u Hu.
        eapply (Forall_forall numeric_xp); [exact Hnum|]. by apply top_users. }
      clear Hcount. generalize (λ i : nat, i). induction Htop as [|u l Hu _ IH]; intros rank.
      * done.
      * rewrite imap_cons, fmap_cons. f_equal; [|apply (IH (S ∘ rank))].
        simpl. destruct (leaderboard_entry_fields userId 0 u) as (_ & Hxp & _).
        etrans; [exact Hxp | exact Hu].
    + eapply StronglySorted_fmap with (R1 := more_xp); [by intros a b|].
      unfold top. eapply StronglySorted_app_1_l.
      rewrite take_drop. by apply js_sort_sorted.
  - intros e He. apply elem_of_lookup_imap in He as (i & u & -> & Hu).
    apply list_elem_of_lookup_2, top_users, list_elem_of_filter in Hu as [Hlisted _].
    destruct (leaderboard_entry_fields userId i u) as (-> & _ & ->).
    unfold listed in Hlisted. apply andb_prop in Hlisted as [_ Hemail].
    unfold or_else. rewrite Hemail. rewrite <- strict_eq_str.
    split; [by intros [= ->] | by intros ->].
  - intros Hnodup. rewrite Hcount. by apply at_most_one_requester, top_emails.
  - intros Hnone. apply length_zero_iff_nil. rewrite Hcount.
    rewrite filter_none; [done|].
    intros u Hu Hreq. apply (Hnone u); [by apply top_users|]. by apply strict_eq_str.
  - intros Hnodup Hfew (u & Hu & Hemail). rewrite Hcount.
    pose proof (at_most_one_requester userId top (top_emails _ Hnodup)) as Hle.
    assert (Hge : 1 ≤ length (filter (is_requester userId) top)); [|lia].
    apply (some_requester userId top u); [|done].
    unfold top. rewrite take_ge; [by rewrite js_sort_perm|].
    by rewrite js_sort_perm.
Qed.

Lemma leaderboard_ranking_witness :
  ∃ r board xs,
    @get_leaderboard sample_host (sample_request asha_token VNull) sample_store
    = (r, sample_store)
    ∧ status r = 200%Z
    ∧ payload r !! js "leaderboard" = Some (VArr board)
    ∧ length board ≤ 50
    ∧ (λ e, get e "xp") <$> board = VInt <$> xs
    ∧ StronglySorted (λ a b, (b ≤ a)%Z) xs
    ∧ length (flagged board) = 1.
Proof.
  destruct (@leaderboard_ranking sample_host (sample_request asha_token VNull)
              sample_store asha eq_refl)
    as (r & Hrun & _ & Hserved).
  destruct (Hserved eq_refl)
    as (board & Hstatus & Hboard & Hlength & Hsorted & _ & _ & _ & Hone).
  destruct Hsorted as (xs & Hxs & Hdesc).
  { by vm_compute; repeat constructor. }
  exists r, board, xs. do 6 (split; [done|]).
  apply Hone.
  - vm_compute. repeat (apply NoDup_cons_2 || apply NoDup_nil_2);
      intros Hin; repeat (apply elem_of_cons in Hin as [Hin|Hin]; [discriminate|]);
      by apply elem_of_nil in Hin.
  - by vm_compute; lia.
  - exists asha_profile. split; [|done].
    apply list_elem_of_filter. split; [done|].
    unfold values_under. apply list_elem_of_bind. exists (user_key (VStr asha), asha_profile).
    split; [by vm_compute; left|]. by apply elem_of_map_to_list.
Defined.

(** C2 as stated fails when more than 50 users are onboarded: the
    requester, onboarded but ranked 51st, is on no entry of the list. *)
Lemma leaderboard_omits_requester :
  let board := @leaderboard sample_host asha (values_under (js "user:") crowded_store) in
  payload (@get_leaderboard sample_host (sample_request asha_token VNull) crowded_store).1
    !! js "leaderboard" = Some (VArr board)
  ∧ crowded_store !! user_key (VStr asha) = Some asha_profile
  ∧ listed asha_profile = true
  ∧ length board = 50
  ∧ flagged board = [].
Proof.
  split.
  - rewrite (@get_leaderboard_run sample_host _ _ asha) by reflexivity. by lookup_fields.
  - by vm_compute.
Qed.

(** ** Mission generation *)

Lemma or_else_defined (v d : value) : d ≠ VUndef → or_else v d ≠ VUndef.
Proof. unfold or_else. by destruct v as [| |[]|[|?]| | |]; simpl; try case_match. Qed.

Lemma mission_well_formed (id title description icon : jsstring) (xp : Z)
    (category timeEstimate priority classification whyItMatters : string) (tips : list string) :
  well_formed (mission id title description icon xp category timeEstimate priority
                 classification whyItMatters tips).
Proof.
  eexists. split; [reflexivity|].
  unfold required_fields. repeat (apply Forall_cons; split); [..|apply Forall_nil];
    eexists; (split; [by lookup_fields | done]).
Qed.

Lemma getDefaultMissions_well_formed `{Host} (req : request) (userData : value) :
  length (getDefaultMissions req userData) = 5
  ∧ Forall well_formed (getDefaultMissions req userData).
Proof.
  split; [done|]. unfold getDefaultMissions.
  repeat (constructor; [apply mission_well_formed|]). constructor.
Qed.

Lemma mission_of_reply_well_formed (req : request) (index : nat) (m v : value) :
  mission_of_reply req index m = Ok v → well_formed v.
Proof.
  unfold mission_of_reply, prop. destruct (is_nullish m); [done|].
  cbv beta iota delta [rbind]. intros [= <-].
  eexists. split; [reflexivity|].
  unfold required_fields. repeat (apply Forall_cons; split); [..|apply Forall_nil];
    eexists; (split; [by lookup_fields|]); try (by apply or_else_defined).
  destruct (get m "tips"); done.
Qed.

Lemma rmap_ok {A B} (f : A → result B) (l : list A) (l' : list B) :
  rmap f l = Ok l' → Forall2 (λ x y, f x = Ok y) l l'.
Proof.
  revert l'. induction l as [|x l IH]; intros l'; simpl.
  - intros [= <-]. constructor.
  - destruct (f x) as [y|] eqn:Hy; [|done]. simpl.
    destruct (rmap f l) as [ys|]; [|done]. simpl. intros [= <-].
    constructor; [done | by apply IH].
Qed.

(** The missions chosen are the five defaults, unless the reply of the
    model holds a non-empty array, which then gives one mission per
    element. *)
Lemma choose_missions_spec `{Host} (req : request) (userData : value) :
  let missions := choose_missions req userData in
  missions ≠ [] ∧ Forall well_formed missions
  ∧ (missions = getDefaultMissions req userData
     ∨ ∃ text jsonMatch parsed,
         nonempty GEMINI_API_KEY = true
         ∧ callGeminiAPI req (prompt userData) = Ok (VStr text)
         ∧ match_array (strip_fences text) = Some jsonMatch
         ∧ JSON_parse jsonMatch = Some (VArr parsed)
         ∧ length missions = length parsed).
Proof.
  destruct (getDefaultMissions_well_formed req userData) as [Hlen Hwf].
  assert (Hdefault : ∀ D, D = getDefaultMissions req userData →
            match D with [] => getDefaultMissions req userData | _ => D end
            = getDefaultMissions req userData).
  { intros D ->. by destruct (getDefaultMissions req userData). }
  assert (Hne : getDefaultMissions req userData ≠ []).
  { intros Hnil. by rewrite Hnil in Hlen. }
  unfold choose_missions. cbv zeta.
  destruct (nonempty GEMINI_API_KEY) eqn:Hkey; [|by rewrite Hdefault; auto].
  destruct (callGeminiAPI req (prompt userData)) as [aiResponse|e] eqn:Hcall;
    cbv beta iota delta [rbind]; [|by rewrite Hdefault; auto].
  unfold parse_reply.
  destruct aiResponse as [| | | |text| |];
    try (cbv beta iota delta [rcatch log_substring rbind]; by rewrite Hdefault; auto).
  destruct (match_array (strip_fences text)) as [jsonMatch|] eqn:Hmatch;
    cbv beta iota zeta delta [rcatch]; [|by rewrite Hdefault; auto].
  destruct (JSON_parse jsonMatch) as [parsed|] eqn:Hparse;
    [|cbv beta iota delta [rcatch log_substring rbind]; by rewrite Hdefault; auto].
  destruct parsed as [| | | | |[|m parsed]|];
    try (cbv beta iota delta [rcatch]; by rewrite Hdefault; auto).
  destruct (rmap _ _) as [missions|e] eqn:Hmap;
    [|cbv beta iota delta [rcatch log_substring rbind]; by rewrite Hdefault; auto].
  apply rmap_ok in Hmap. pose proof (Forall2_length _ _ _ Hmap) as Hlength.
  rewrite length_imap in Hlength.
  destruct missions as [|m' missions]; [done|].
  split; [done|]. split.
  - apply Forall_forall. intros v Hv.
    destruct (proj1 (list_elem_of_lookup _ _) Hv) as [i Hi].
    destruct (Forall2_lookup_r _ _ _ _ _ Hmap Hi) as ([index x] & _ & Hx).
    by eapply mission_of_reply_well_formed.
  - right. exists text, jsonMatch, (m :: parsed). by rewrite Hlength.
Qed.

Lemma not_completed_well_formed (m : value) : well_formed m → well_formed (not_completed m).
Proof.
  intros (o & -> & Hall). eexists. split; [reflexivity|].
  apply Forall_forall. intros k Hk.
  destruct (proj1 (Forall_forall _ _) Hall k Hk) as (v & Hv & Hdef).
  exists v. split; [|done]. cbn [spread]. rewrite lookup_with_fields, lookup_obj_cons.
  assert (String.eqb "completed" k = false) as ->.
  { unfold required_fields in Hk.
    repeat (apply elem_of_cons in Hk as [->|Hk]; [reflexivity|]). by apply elem_of_nil in Hk. }
  by rewrite lookup_obj_nil.
Qed.

Lemma fallback_missions_well_formed (req : request) :
  Forall well_formed (fallback_missions req).
Proof.
  unfold fallback_missions. repeat (constructor; [apply mission_well_formed|]). constructor.
Qed.

(** The run of the handler when the default missions can be built. *)
Lemma generate_missions_served `{Host} (req : request) (kv : kvstore) (userId : jsstring) :
  caller req = Some userId →
  income_converts (profile_of kv userId) = true →
  generate_missions req kv
  = (json 200 [("success", VBool true);
               ("missions", VArr (generated_missions req kv userId))],
     <[missions_key userId :=
         VObj (obj [("missions", VArr (generated_missions req kv userId));
                    ("completedToday", VInt 0);
                    ("lastReset", iso_now req)])]> kv).
Proof.
  intros Hcaller Hincome.
  unfold generate_missions, generate_missions_body.
  rewrite (authenticated_caller _ _ _ Hcaller). run_handler.
  fold (profile_of kv userId). unfold income_converts in Hincome.
  by rewrite (ToPrimitive_converts _ Hincome).
Qed.

(** The run of the handler when they cannot: the catch block stores the
    two missions with [completed] set and serves them without. *)
Lemma generate_missions_caught `{Host} (req : request) (kv : kvstore) (userId : jsstring) :
  caller req = Some userId →
  income_converts (profile_of kv userId) = false →
  generate_missions req kv
  = (json 200 [("success", VBool true); ("missions", VArr (fallback_missions req))],
     <[missions_key userId :=
         VObj (obj [("missions", VArr (not_completed <$> fallback_missions req));
                    ("completedToday", VInt 0);
                    ("lastReset", iso_now req)])]> kv).
Proof.
  intros Hcaller Hincome.
  unfold generate_missions, generate_missions_body.
  rewrite (authenticated_caller _ _ _ Hcaller). run_handler.
  fold (profile_of kv userId). unfold income_converts in Hincome.
  rewrite (ToPrimitive_throws _ Hincome).
  unfold generate_missions_fallback.
  destruct (caller_verifies _ _ Hcaller) as (u & id & -> & ->).
  by run_handler.
Qed.

(** C1, as amended: whatever the model does, an authenticated call is
    answered with success and a non-empty list of missions in which
    every required field is present.  When the stored monthly income
    cannot be converted to a number the list is the two missions of the
    catch block.  Otherwise it is the five default missions, marked not
    completed, when no key is configured, when the prompt cannot be
    built, when the call to the model throws and when its reply holds
    no bracketed part or one that does not parse; and in every case it
    is these five or has one entry per element of the array in the
    reply. *)
Theorem generate_missions_well_formed `{Host} (req : request) (kv : kvstore)
    (userId : jsstring) :
  caller req = Some userId →
  let userData := profile_of kv userId in
  let defaults := not_completed <$> getDefaultMissions req userData in
  ∃ r kv' missions,
    generate_missions req kv = (r, kv') ∧ status r = 200%Z
    ∧ payload r !! js "success" = Some (VBool true)
    ∧ payload r !! js "missions" = Some (VArr missions)
    ∧ missions ≠ [] ∧ Forall well_formed missions
    ∧ (income_converts userData = false → missions = fallback_missions req)
    ∧ (income_converts userData = true →
       (nonempty GEMINI_API_KEY = false → missions = defaults)
       ∧ (prompt_converts userData = false → missions = defaults)
       ∧ (∀ e, callGeminiAPI req (prompt userData) = Throw e → missions = defaults)
       ∧ (∀ text,
            callGeminiAPI req (prompt userData) = Ok (VStr text) →
            match_array (strip_fences text) = None → missions = defaults)
       ∧ (∀ text jsonMatch,
            callGeminiAPI req (prompt userData) = Ok (VStr text) →
            match_array (strip_fences text) = Some jsonMatch →
            JSON_parse jsonMatch = None → missions = defaults)
       ∧ (missions = defaults
          ∨ ∃ text jsonMatch parsed,
              nonempty GEMINI_API_KEY = true
              ∧ prompt_converts userData = true
              ∧ callGeminiAPI req (prompt userData) = Ok (VStr text)
              ∧ match_array (strip_fences text) = Some jsonMatch
              ∧ JSON_parse jsonMatch = Some (VArr parsed)
              ∧ length missions = length parsed)).
Proof.
  intros Hcaller userData defaults.
  destruct (income_converts userData) eqn:Hincome.
  2:{ eexists _, _, (fallback_missions req).
      split; [by apply generate_missions_caught|].
      split; [done|]. do 2 (split; [by lookup_fields|]).
      split; [done|]. split; [apply fallback_missions_well_formed|]. by split. }
  destruct (choose_missions_spec req userData) as (Hne & Hwf & Hcases).
  destruct (getDefaultMissions_well_formed req userData) as [Hfive Hdefaults].
  eexists _, _, (generated_missions req kv userId).
  split; [by apply generate_missions_served|].
  split; [done|]. do 2 (split; [by lookup_fields|]).
  unfold generated_missions. fold userData.
  destruct (prompt_converts userData) eqn:Hprompt.
  2:{ fold defaults. split.
      { intros Hnil. apply fmap_nil_inv in Hnil. by rewrite Hnil in Hfive. }
      split. { apply Forall_fmap. eapply Forall_impl; [exact Hdefaults|].
               apply not_completed_well_formed. }
      split; [done|]. intros _. repeat split; auto. }
  split. { intros Hnil. by apply fmap_nil_inv in Hnil. }
  split. { apply Forall_fmap. eapply Forall_impl; [exact Hwf|]. apply not_completed_well_formed. }
  split; [done|]. intros _.
  destruct Hcases as [-> | (text & jsonMatch & parsed & Hkey & Hcall & Hmatch & Hparse & Hlen)].
  { fold defaults. repeat split; auto. }
  split; [by rewrite Hkey|]. split; [done|]. split; [by rewrite Hcall|].
  split; [|split].
  - intros text' Hcall' Hmatch'. congruence.
  - intros text' jsonMatch' Hcall' Hmatch' Hparse'. congruence.
  - right. exists text, jsonMatch, parsed. by rewrite length_fmap.
Qed.

Lemma generate_missions_well_formed_witness :
  ∃ r kv' missions,
    @generate_missions sample_host (generate_request None) sample_store = (r, kv')
    ∧ status r = 200%Z
    ∧ payload r !! js "missions" = Some (VArr missions)
    ∧ Forall well_formed missions
    ∧ missions
      = not_completed <$> @getDefaultMissions sample_host (generate_request None) asha_profile.
Proof.
  destruct (@generate_missions_well_formed sample_host (generate_request None)
              sample_store asha eq_refl)
    as (r & kv' & missions & Hrun & Hstatus & _ & Hmissions & _ & Hwf & _ & Hserved).
  destruct (Hserved eq_refl) as (_ & _ & Hthrow & _).
  exists r, kv', missions. repeat split; try done.
  by apply (Hthrow (Engine NetworkError)).
Defined.

(** C1 as stated fails when the reply of the model is an array of
    another length: for the reply [[{}]] the list has one mission.  It
    also fails when the stored monthly income cannot be converted: the
    list is then the two missions of the catch block. *)
Lemma generate_missions_follows_reply :
  let kv :=
    <[user_key (VStr asha) := VObj (obj [("email", VStr asha); ("monthlyIncome", unconvertible)])]>
      sample_store in
  (∃ m,
     payload (@generate_missions sample_host (generate_request (Some (gemini_reply "[{}]")))
                sample_store).1 !! js "missions" = Some (VArr [m])
     ∧ status (@generate_missions sample_host (generate_request (Some (gemini_reply "[{}]")))
                 sample_store).1 = 200%Z)
  ∧ (∃ m1 m2,
       payload (@generate_missions sample_host (generate_request None) kv).1
         !! js "missions" = Some (VArr [m1; m2])
       ∧ status (@generate_missions sample_host (generate_request None) kv).1 = 200%Z).
Proof. split; [eexists | eexists _, _]; split; by vm_compute. Qed.

(** ** XP *)





Lemma handle_store `{Host} (prefix : string) (body : M response) (kv : kvstore) :
  (handle prefix body kv).2 = (body kv).2.
Proof. unfold handle. by destruct (body kv) as [[r|e] kv']. Qed.

Lemma key_ne (p q : string) (x y : jsstring) :
  head (js p) ≠ head (js q) → head (js p) ≠ None → head (js q) ≠ None →
  js p ++ x ≠ js q ++ y.
Proof. destruct (js p), (js q); simpl; congruence. Qed.





(** Case analysis along a run, and the XP at its ends. *)
Ltac split_run :=
  repeat (match goal with
          | |- context [(if ?b then _ else _) _] => destruct b eqn:?
          | |- context [match match ?x with _ => _ end with _ => _ end] =>
              destruct x eqn:?
          | |- context [match ?x with _ => _ end] => destruct x eqn:?
          end; cbv beta iota).


Lemma unauthenticated_store (req : request) (k : jsstring → M response) (kv : kvstore) :
  caller req = None → (authenticated req k kv).2 = kv.
Proof. intros Hcaller. by destruct (unauthenticated req k kv Hcaller) as (r & -> & _). Qed.




Lemma friend_details_store `{Host} (friendEmails : list value) (kv : kvstore) :
  (friend_details friendEmails kv).2 = kv.
Proof.
  induction friendEmails as [|email rest IH]; [done|].
  simpl. run_handler.
  destruct (ToPrimitive email); [|done].
  destruct (if truthy _ then _ else _); [|done].
  destruct (friend_details rest kv) as [[friends|e] kv']; simpl in IH; by subst.
Qed.










(** * Further properties of the handlers *)

(** ** Access control *)

Ltac unfold_route :=
  unfold health, signup, login, get_profile, update_profile, get_missions, post_missions,
    complete_mission, post_financial_data, get_financial_data, get_posts, create_post,
    get_leaderboard, generate_missions, generate_missions_body, add_friend, get_friends,
    search_users, add_transaction, get_transactions.

Lemma unauthenticated_response (req : request) (k : jsstring → M response) (kv : kvstore) :
  caller req = None → authenticated req k kv = (Ok (rejection req), kv).
Proof.
  unfold caller, authenticated, rejection.
  destruct (access_token req) as [[|c tok]|];
    cbv beta iota zeta delta [nonempty negb default from_option Datatypes.id];
    [done | | done].
  by destruct (verifyToken (c :: tok)) as [[|u id]|].
Qed.

(** X1: every route other than /health, /signup and /login answers a
    request that authenticates nobody with 401, with one of the two
    messages of the token check, and leaves the store as it is. *)
Theorem protected_routes_reject `{Host} (r : route) (req : request) (kv : kvstore) :
  is_public r = false → caller req = None →
  serve r req kv = (rejection req, kv).
Proof.
  intros Hr Hcaller.
  destruct r; try discriminate Hr; cbn [serve];
    unfold_route; unfold handle; by rewrite unauthenticated_response.
Qed.

Lemma protected_routes_reject_witness :
  @serve sample_host UpdateProfile (public_request (VObj (obj [("xpLevel", VInt 9000)])))
    sample_store
  = (json 401 [("error", VText "No authorization token provided")], sample_store).
Proof.
  apply (@protected_routes_reject sample_host UpdateProfile
           (public_request (VObj (obj [("xpLevel", VInt 9000)]))) sample_store);
    reflexivity.
Defined.

(** X2: no GET route writes to the store, whatever the request. *)
Theorem get_routes_keep_store `{Host} (r : route) (req : request) (kv : kvstore) :
  method_of r = GET → (serve r req kv).2 = kv.
Proof.
  intros Hr.
  destruct r; try discriminate Hr; cbn [serve]; [done|..];
    unfold_route; rewrite handle_store;
    (destruct (caller req) as [userId|] eqn:Hcaller;
     [rewrite (authenticated_caller _ _ _ Hcaller) | by rewrite unauthenticated_store]);
    run_handler; try done.
  - by split_run.
  - destruct (iterate _) as [emails|e]; [|done].
    pose proof (friend_details_store emails kv) as Hstore.
    destruct (friend_details emails kv) as [[friends|e] kv']; simpl in Hstore; by subst.
  - by split_run.
Qed.

Lemma get_routes_keep_store_witness :
  (@serve sample_host GetFriends (asha_request VNull) sample_store).2 = sample_store.
Proof.
  apply (@get_routes_keep_store sample_host GetFriends (asha_request VNull) sample_store).
  reflexivity.
Defined.

(** X3: a body that cannot be parsed is answered 500 by every route
    that reads one, once the caller is known where one is asked for, and
    nothing is written. *)
Theorem unreadable_body `{Host} (r : route) (req : request) (kv : kvstore) :
  reads_body r = true → json_body req = None →
  is_public r = true ∨ (∃ userId, caller req = Some userId) →
  status (serve r req kv).1 = 500%Z ∧ (serve r req kv).2 = kv.
Proof.
  intros Hr Hbody Hauth.
  destruct r; try discriminate Hr; cbn [serve]; unfold_route.
  1,2: by (run_handler; rewrite Hbody).
  all: destruct Hauth as [?|[userId Hcaller]]; [done|].
  all: rewrite (authenticated_caller _ _ _ Hcaller).
  all: run_handler; by rewrite Hbody.
Qed.

Lemma unreadable_body_witness :
  status (@serve sample_host AddFriend (search_request "as") sample_store).1 = 500%Z
  ∧ (@serve sample_host AddFriend (search_request "as") sample_store).2 = sample_store.
Proof.
  apply (@unreadable_body sample_host AddFriend (search_request "as") sample_store).
  - reflexivity.
  - reflexivity.
  - right. exists asha. reflexivity.
Defined.

(** X4: a caller of whom the store holds nothing is not refused: the
    profile served is the empty object, the missions the empty entry
    stamped with the time of the request, the financial data null, the
    transactions and the friends the empty list. *)
Theorem fresh_caller_defaults `{Host} (req : request) (kv : kvstore) (userId : jsstring) :
  caller req = Some userId →
  kv !! user_key (VStr userId) = None → kv !! missions_key userId = None →
  kv !! financial_key userId = None → kv !! transactions_key userId = None →
  get_profile req kv
  = (json 200 [("success", VBool true); ("userId", VStr userId); ("email", VStr userId);
               ("userData", VObj ∅)], kv)
  ∧ get_missions req kv
    = (json 200 [("success", VBool true);
                 ("data", VObj (obj [("missions", VArr []); ("completedToday", VInt 0);
                                     ("lastReset", iso_now req)]))], kv)
  ∧ get_financial_data req kv = (json 200 [("success", VBool true); ("data", VNull)], kv)
  ∧ get_transactions req kv
    = (json 200 [("success", VBool true); ("transactions", VArr [])], kv)
  ∧ get_friends req kv = (json 200 [("success", VBool true); ("friends", VArr [])], kv).
Proof.
  intros Hcaller Huser Hmissions Hfinancial Htransactions.
  unfold get_profile, get_missions, get_financial_data, get_transactions, get_friends.
  rewrite !(authenticated_caller _ _ _ Hcaller). run_handler.
  by rewrite Huser, Hmissions, Hfinancial, Htransactions.
Qed.

Lemma fresh_caller_defaults_witness :
  @get_profile sample_host (asha_request VNull) ∅
  = (json 200 [("success", VBool true); ("userId", VStr asha); ("email", VStr asha);
               ("userData", VObj ∅)], ∅)
  ∧ @get_missions sample_host (asha_request VNull) ∅
    = (json 200 [("success", VBool true);
                 ("data", VObj (obj [("missions", VArr []); ("completedToday", VInt 0);
                                     ("lastReset", @iso_now sample_host (asha_request VNull))]))],
       ∅)
  ∧ @get_financial_data sample_host (asha_request VNull) ∅
    = (json 200 [("success", VBool true); ("data", VNull)], ∅)
  ∧ @get_transactions sample_host (asha_request VNull) ∅
    = (json 200 [("success", VBool true); ("transactions", VArr [])], ∅)
  ∧ @get_friends sample_host (asha_request VNull) ∅
    = (json 200 [("success", VBool true); ("friends", VArr [])], ∅).
Proof.
  apply (@fresh_caller_defaults sample_host (asha_request VNull) ∅ asha); reflexivity.
Defined.

(** ** The client helpers *)

(** X5: the backend check of the client succeeds whenever the fetch of
    the health URL resolves with an ok response whose body is what the
    server's health handler answers. *)
Theorem testBackendConnection_health `{Host}
    (fetch : jsstring → object → option fetch_response) (projectId : jsstring)
    (response : fetch_response) (req : request) (kv : kvstore) :
  fetch (getServerUrl projectId (js "/health")) health_check_init = Some response →
  fetch_ok response = true →
  fetch_json response = Some (VObj (payload (health req kv).1)) →
  testBackendConnection fetch projectId = true.
Proof.
  intros Hfetch Hok Hjson. unfold testBackendConnection.
  rewrite Hfetch, Hok, Hjson. cbn [negb prop is_nullish health fst payload json].
  cbn [get]. lookup_fields. by apply bool_decide_eq_true.
Qed.

Lemma testBackendConnection_health_witness :
  testBackendConnection sample_fetch (js "sqczriljcayzpseshzku") = true.
Proof.
  apply (@testBackendConnection_health sample_host sample_fetch (js "sqczriljcayzpseshzku")
           {| fetch_ok := true;
              fetch_json :=
                Some (VObj (payload (@health sample_host (asha_request VNull) ∅).1)) |}
           (asha_request VNull) ∅); reflexivity.
Defined.

Lemma split_on_whole (sep : N) (s : jsstring) : sep ∉ s → split_on sep s = [s].
Proof.
  induction s as [|c t IH]; [done|].
  intros [Hc Ht]%not_elem_of_cons. simpl.
  destruct (N.eqb_spec c sep) as [->|_]; [done|]. by rewrite IH.
Qed.

Lemma split_on_app (sep : N) (a b : jsstring) :
  sep ∉ a → split_on sep (a ++ sep :: b) = a :: split_on sep b.
Proof.
  induction a as [|c t IH]; simpl.
  - by rewrite N.eqb_refl.
  - intros [Hc Ht]%not_elem_of_cons.
    destruct (N.eqb_spec c sep) as [->|_]; [done|]. by rewrite IH.
Qed.

(** The token of a header made of one word, a space and the token. *)
Lemma access_token_scheme (req : request) (scheme token : jsstring) :
  space ∉ scheme → space ∉ token →
  authorization req = Some (scheme ++ [space] ++ token) →
  access_token req = Some token.
Proof.
  intros Hscheme Htoken Hauth. unfold access_token. rewrite Hauth. cbn [mbind option_bind].
  change (scheme ++ [space] ++ token) with (scheme ++ space :: token).
  by rewrite split_on_app, split_on_whole.
Qed.

(** X6: without a stored token [authFetch] rejects and sends nothing;
    with one, and no Authorization header among the options, the
    Authorization header of the request sent is [Bearer <token>] and the
    options other than the headers are passed on; from that header the
    server reads the token back when the token holds no space. *)
Theorem authFetch_sends_token {A} (fetch : jsstring → object → A) (token : jsstring)
    (projectId path : jsstring) (options : object) :
  (∀ stored, truthy stored = false →
     authFetch fetch stored projectId path (VObj options)
     = Throw (Error (VText "No authentication token found")))
  ∧ (token ≠ [] →
     spread (get (VObj options) "headers") !! js "Authorization" = None →
     ∃ init,
       authFetch fetch (VStr token) projectId path (VObj options)
       = Ok (fetch (getServerUrl projectId path) init)
       ∧ get (get (VObj init) "headers") "Authorization" = VStr (js "Bearer " ++ token)
       ∧ ∀ k, k ≠ js "headers" → init !! k = options !! k)
  ∧ (space ∉ token →
     ∀ req, authorization req = Some (js "Bearer " ++ token) →
            access_token req = Some token).
Proof.
  split; [|split].
  - intros stored Hstored. unfold authFetch. by rewrite Hstored.
  - intros Hne Hnone. unfold authFetch.
    assert (Htruthy : truthy (VStr token) = true).
    { simpl. by rewrite bool_decide_eq_false_2. }
    rewrite Htruthy. cbn [negb prop is_nullish rbind to_string].
    eexists. split; [reflexivity|]. split.
    { rewrite get_with_fields. lookup_fields. cbn [get].
      cbn [get] in Hnone. rewrite lookup_union, Hnone. by lookup_fields. }
    intros k Hk. rewrite lookup_with_fields. unfold obj. simpl.
    by rewrite lookup_insert_ne, lookup_empty.
  - intros Hspace req Hauth.
    apply (access_token_scheme req (js "Bearer") token); try done.
    by apply (bool_decide_unpack _); vm_compute.
Qed.

(** ** Tokens in requests *)

Lemma base64_encode_no_space (bytes : list N) :
  is_latin1 bytes = true → space ∉ base64_encode bytes.
Proof.
  intros Hb. unfold base64_encode. rewrite not_elem_of_app. split.
  - intros (s & Hs & Hin)%list_elem_of_fmap.
    pose proof (sextets_bound bytes Hb) as Hsx.
    rewrite Forall_forall in Hsx. apply Hsx in Hin.
    apply base64_char_spec in Hin as (_ & _ & Hws). by rewrite <- Hs in Hws.
  - unfold padding. by intros [? _]%elem_of_replicate.
Qed.

Lemma base64_encode_nonempty (bytes : list N) : bytes ≠ [] → base64_encode bytes ≠ [].
Proof. by destruct bytes as [|a [|b [|c l]]]. Qed.

Lemma generateToken_inv (email : jsstring) (issued_at : Z) (token : jsstring) :
  generateToken (VStr email) issued_at = Ok token →
  is_latin1 email = true
  ∧ token = base64_encode (email ++ colon :: js (pretty issued_at)).
Proof.
  unfold generateToken, btoa. simpl to_string.
  rewrite !is_latin1_app, js_latin1.
  destruct (is_latin1 email); [|done]. by intros [= <-].
Qed.

Lemma issued_token_no_space (email token : jsstring) (issued_at : Z) :
  generateToken (VStr email) issued_at = Ok token → space ∉ token.
Proof.
  intros [Hlatin ->]%generateToken_inv. apply base64_encode_no_space.
  change (colon :: ?t) with ([colon] ++ t).
  by rewrite !is_latin1_app, Hlatin, js_latin1.
Qed.

(** The caller of a request whose token was issued for an email. *)
Lemma caller_of_issued (req : request) (email token : jsstring) (issued_at : Z) :
  email ≠ [] → colon ∉ email →
  generateToken (VStr email) issued_at = Ok token →
  access_token req = Some token →
  caller req = Some email.
Proof.
  intros Hne Hcolon [Hlatin ->]%generateToken_inv Haccess.
  pose (text := email ++ colon :: js (pretty issued_at)).
  assert (Htext : is_latin1 text = true).
  { unfold text. change (colon :: ?t) with ([colon] ++ t).
    by rewrite !is_latin1_app, Hlatin, js_latin1. }
  unfold caller. rewrite Haccess. fold text.
  destruct (base64_encode text) as [|c tok] eqn:Henc.
  { exfalso. revert Henc. apply base64_encode_nonempty. unfold text. by destruct email. }
  rewrite <- Henc.
  rewrite (verifyToken_decoded _ text email (colon :: js (pretty issued_at)));
    [ by destruct email | by apply atob_base64_encode | done | done | right; by eexists ].
Qed.

(** X7: a request whose Authorization header is one word, a space and a
    token issued for a non-empty email without [:] authenticates that
    email; the word need not be [Bearer]. *)
Theorem issued_token_authenticates (req : request) (scheme email token : jsstring)
    (issued_at : Z) :
  email ≠ [] → colon ∉ email → space ∉ scheme →
  generateToken (VStr email) issued_at = Ok token →
  authorization req = Some (scheme ++ [space] ++ token) →
  caller req = Some email.
Proof.
  intros Hne Hcolon Hscheme Htoken Hauth.
  apply (caller_of_issued req email token issued_at); try done.
  apply (access_token_scheme req scheme token); try done.
  by apply issued_token_no_space in Htoken.
Qed.

Lemma issued_token_authenticates_witness :
  caller (asha_request VNull) = Some asha.
Proof.
  apply (issued_token_authenticates (asha_request VNull)
           (js "Bearer") asha asha_token 1700000000000).
  - done.
  - by apply (bool_decide_unpack _); vm_compute.
  - by apply (bool_decide_unpack _); vm_compute.
  - reflexivity.
  - reflexivity.
Defined.

(** ** Sign-up and login *)

Lemma generateToken_time (userId : value) (t t' : Z) (token : jsstring) :
  generateToken userId t = Ok token → ∃ token', generateToken userId t' = Ok token'.
Proof.
  unfold generateToken, btoa. simpl to_string.
  rewrite !is_latin1_app, !js_latin1, !andb_true_r.
  destruct (is_latin1 (to_string userId)); [by eauto | done].
Qed.

(** What a successful sign-up has checked and stored. *)
Lemma signup_accepted `{Host} (req : request) (kv : kvstore) :
  status (signup req kv).1 = 200%Z →
  ∃ body token,
    json_body req = Some body
    ∧ truthy (get body "email") = true ∧ truthy (get body "password") = true
    ∧ truthy (get body "name") = true
    ∧ truthy (default VUndef (kv !! user_key (get body "email"))) = false
    ∧ generateToken (get body "email") (now req) = Ok token
    ∧ signup req kv
      = (json 200 [("success", VBool true);
                   ("userId", get body "email");
                   ("accessToken", VStr token);
                   ("message", VText "Account created successfully")],
         <[user_key (get body "email") :=
             VObj (obj [("email", get body "email");
                        ("name", get body "name");
                        ("createdAt", iso_now req);
                        ("isOnboarded", VBool false);
                        ("password",
                         VStr (base64_encode (SHA256 (to_string (get body "password")))))])]>
           kv).
Proof.
  unfold signup. run_handler.
  destruct (json_body req) as [body|]; [|discriminate].
  destruct body as [| | | | | |fields]; try discriminate.
  cbv beta iota.
  destruct (truthy (get (VObj fields) "email")) eqn:Hemail; [|discriminate].
  destruct (truthy (get (VObj fields) "password")) eqn:Hpw; [|discriminate].
  destruct (truthy (get (VObj fields) "name")) eqn:Hname; [|discriminate].
  cbv beta iota delta [negb orb].
  destruct (truthy (default VUndef (kv !! user_key (get (VObj fields) "email")))) eqn:Hold;
    [discriminate|].
  cbv beta iota delta [negb orb].
  rewrite hashPassword_ok. cbv beta iota.
  destruct (generateToken _ _) as [token|e] eqn:Htoken; [|discriminate].
  intros _. by exists (VObj fields), token.
Qed.

(** X8: after a POST /signup that is answered 200, a POST /login with
    the same email and password is answered 200 with a token for that
    email, at whatever time, and writes nothing. *)
Theorem login_after_signup `{Host} (first second : request) (kv : kvstore)
    (body body' : value) :
  json_body first = Some body → json_body second = Some body' →
  status (signup first kv).1 = 200%Z →
  get body' "email" = get body "email" → get body' "password" = get body "password" →
  ∃ r token,
    login second (signup first kv).2 = (r, (signup first kv).2)
    ∧ status r = 200%Z
    ∧ payload r !! js "userId" = Some (get body "email")
    ∧ payload r !! js "accessToken" = Some (VStr token)
    ∧ generateToken (get body "email") (now second) = Ok token.
Proof.
  intros Hfirst Hsecond Hok Hemail Hpw.
  destruct (signup_accepted first kv Hok)
    as (b & token & Hb & Htemail & Htpw & _ & _ & Htoken & ->).
  rewrite Hfirst in Hb. injection Hb as <-.
  destruct (generateToken_time _ _ (now second) _ Htoken) as [token' Htoken'].
  destruct body' as [| | | | | |fields'];
    try (rewrite <- Hemail in Htemail; discriminate Htemail).
  unfold login. run_handler. rewrite Hsecond. cbv beta iota. cbn [fst snd].
  rewrite Hemail, Hpw, Htemail, Htpw. cbv beta iota delta [negb orb].
  rewrite lookup_insert_eq. cbv beta iota delta [default from_option Datatypes.id truthy negb].
  rewrite hashPassword_ok. cbv beta iota.
  assert (Hhash : ∀ h, strict_eq (get (VObj (obj [("email", get body "email");
                        ("name", get body "name");
                        ("createdAt", iso_now first);
                        ("isOnboarded", VBool false);
                        ("password", VStr h)])) "password") (VStr h) = true).
  { intros h. cbn [get]. lookup_fields. simpl. by apply bool_decide_eq_true. }
  rewrite Hhash. cbv beta iota delta [negb]. rewrite Htoken'. cbv beta iota.
  exists (json 200 [("success", VBool true); ("accessToken", VStr token');
                    ("userId", get body "email");
                    ("userData", or_else (VObj (obj [("email", get body "email");
                        ("name", get body "name");
                        ("createdAt", iso_now first);
                        ("isOnboarded", VBool false);
                        ("password",
                         VStr (base64_encode (SHA256 (to_string (get body "password")))))]))
                        (VObj ∅))]), token'.
  split; [reflexivity|]. split; [done|]. split; [by lookup_fields|].
  split; [by lookup_fields | done].
Qed.

Lemma login_after_signup_witness :
  ∃ r token,
    @login sample_host asha_signup (@signup sample_host asha_signup ∅).2
    = (r, (@signup sample_host asha_signup ∅).2)
    ∧ status r = 200%Z
    ∧ payload r !! js "userId" = Some (VStr asha)
    ∧ payload r !! js "accessToken" = Some (VStr token)
    ∧ generateToken (VStr asha) 1700000000000 = Ok token.
Proof.
  apply (@login_after_signup sample_host asha_signup asha_signup ∅
           (signup_body asha "s3cret" "Asha") (signup_body asha "s3cret" "Asha"));
    reflexivity.
Defined.

(** X9: POST /login answers 200 only to a body whose password hashes to
    the hash stored for the user its email names; the answer carries a
    token for that email and the stored record as it is, password hash
    included; the store is not written. *)
Theorem login_checks_password `{Host} (req : request) (kv : kvstore) :
  status (login req kv).1 = 200%Z →
  ∃ body stored hash token,
    json_body req = Some body
    ∧ truthy (get body "email") = true ∧ truthy (get body "password") = true
    ∧ kv !! user_key (get body "email") = Some stored
    ∧ hashPassword (get body "password") = Ok hash
    ∧ get stored "password" = VStr hash
    ∧ generateToken (get body "email") (now req) = Ok token
    ∧ payload (login req kv).1 !! js "accessToken" = Some (VStr token)
    ∧ payload (login req kv).1 !! js "userData" = Some stored
    ∧ (login req kv).2 = kv.
Proof.
  unfold login. run_handler.
  destruct (json_body req) as [body|]; [|discriminate].
  destruct body as [| | | | | |fields]; try discriminate.
  cbv beta iota.
  destruct (truthy (get (VObj fields) "email")) eqn:Hemail; [|discriminate].
  destruct (truthy (get (VObj fields) "password")) eqn:Hpw; [|discriminate].
  cbv beta iota delta [negb orb].
  destruct (kv !! user_key (get (VObj fields) "email")) as [stored|] eqn:Hstored;
    [|discriminate].
  cbv beta iota delta [default from_option Datatypes.id].
  destruct (truthy stored) eqn:Htruthy; [|discriminate].
  cbv beta iota delta [negb]. rewrite hashPassword_ok. cbv beta iota.
  destruct (strict_eq (get stored "password") _) eqn:Hhash; [|discriminate].
  apply strict_eq_str in Hhash.
  cbv beta iota delta [negb].
  destruct (generateToken _ _) as [token|e] eqn:Htoken; [|discriminate].
  intros _.
  exists (VObj fields), stored,
    (base64_encode (SHA256 (to_string (get (VObj fields) "password")))), token.
  split; [done|]. split; [done|]. split; [done|]. split; [done|].
  split; [apply hashPassword_ok|]. split; [done|]. split; [done|].
  split; [by lookup_fields|]. split; [|done].
  lookup_fields. unfold or_else. by rewrite Htruthy.
Qed.

Lemma login_checks_password_witness :
  ∃ body stored hash token,
    json_body asha_signup = Some body
    ∧ truthy (get body "email") = true ∧ truthy (get body "password") = true
    ∧ signed_up !! user_key (get body "email") = Some stored
    ∧ @hashPassword sample_host (get body "password") = Ok hash
    ∧ get stored "password" = VStr hash
    ∧ generateToken (get body "email") (now asha_signup) = Ok token
    ∧ payload (@login sample_host asha_signup signed_up).1 !! js "accessToken"
      = Some (VStr token)
    ∧ payload (@login sample_host asha_signup signed_up).1 !! js "userData" = Some stored
    ∧ (@login sample_host asha_signup signed_up).2 = signed_up.
Proof.
  apply (@login_checks_password sample_host asha_signup signed_up). reflexivity.
Defined.

(** X10: POST /signup never changes an entry of the store that holds a
    truthy value, whether it accepts or refuses the request. *)
Theorem signup_keeps_existing `{Host} (req : request) (kv : kvstore) (k : jsstring)
    (v : value) :
  kv !! k = Some v → truthy v = true → (signup req kv).2 !! k = Some v.
Proof.
  intros Hk Hv. unfold signup. rewrite handle_store. run_handler. unfold user_key.
  split_run; cbn [snd]; try done.
  all: rewrite lookup_insert_ne; [done|]; intros <-.
  all: match goal with
       | Hfresh : truthy (default VUndef (_ !! _)) = false, Hstored : _ !! _ = Some _ |- _ =>
           rewrite Hstored in Hfresh; simpl in Hfresh; congruence
       end.
Qed.

Lemma signup_keeps_existing_witness :
  (@signup sample_host (public_request (signup_body ravi "pw" "Ravi")) signed_up).2
    !! user_key (VStr asha)
  = signed_up !! user_key (VStr asha).
Proof.
  rewrite (@signup_keeps_existing sample_host
             (public_request (signup_body ravi "pw" "Ravi")) signed_up
             (user_key (VStr asha))
             (default VUndef (signed_up !! user_key (VStr asha))));
    reflexivity.
Defined.

(** X11: the token POST /signup answers with opens the new profile: for
    an email without [:], a GET /profile that carries the token as
    [Bearer <token>] is served the record just stored, which is not yet
    onboarded. *)
Theorem get_profile_after_signup `{Host} (first read : request) (kv : kvstore)
    (body : value) (email : jsstring) :
  json_body first = Some body → get body "email" = VStr email → colon ∉ email →
  status (signup first kv).1 = 200%Z →
  ∃ token stored,
    payload (signup first kv).1 !! js "accessToken" = Some (VStr token)
    ∧ (signup first kv).2 !! user_key (VStr email) = Some stored
    ∧ get stored "isOnboarded" = VBool false
    ∧ (authorization read = Some (js "Bearer " ++ token) →
       get_profile read (signup first kv).2
       = (json 200 [("success", VBool true); ("userId", VStr email); ("email", VStr email);
                    ("userData", stored)], (signup first kv).2)).
Proof.
  intros Hbody Hemail Hcolon Hok.
  destruct (signup_accepted first kv Hok)
    as (b & token & Hb & Htemail & _ & _ & _ & Htoken & ->).
  rewrite Hbody in Hb. injection Hb as <-. rewrite Hemail in *.
  assert (Hne : email ≠ []).
  { intros ->. by vm_compute in Htemail. }
  eexists token, _. split; [by lookup_fields|]. cbn [snd].
  split; [apply lookup_insert_eq|]. split; [by lookup_fields|].
  intros Hauth.
  assert (Hcaller : caller read = Some email).
  { apply (caller_of_issued read email token (now first)); try done.
    apply (access_token_scheme read (js "Bearer") token); try done.
    - by apply (bool_decide_unpack _); vm_compute.
    - by apply issued_token_no_space in Htoken. }
  unfold get_profile. rewrite (authenticated_caller _ _ _ Hcaller). run_handler.
  by rewrite lookup_insert_eq.
Qed.

Lemma get_profile_after_signup_witness :
  ∃ token stored,
    payload (@signup sample_host asha_signup ∅).1 !! js "accessToken" = Some (VStr token)
    ∧ (@signup sample_host asha_signup ∅).2 !! user_key (VStr asha) = Some stored
    ∧ get stored "isOnboarded" = VBool false
    ∧ (authorization (asha_request VNull) = Some (js "Bearer " ++ token) →
       @get_profile sample_host (asha_request VNull) (@signup sample_host asha_signup ∅).2
       = (json 200 [("success", VBool true); ("userId", VStr asha); ("email", VStr asha);
                    ("userData", stored)], (@signup sample_host asha_signup ∅).2)).
Proof.
  apply (@get_profile_after_signup sample_host asha_signup (asha_request VNull) ∅
           (signup_body asha "s3cret" "Asha") asha).
  - reflexivity.
  - reflexivity.
  - by apply (bool_decide_unpack _); vm_compute.
  - reflexivity.
Defined.

(** X12: after a POST /update-profile, GET /profile of the same caller
    serves the merged record the update answered with. *)
Theorem get_profile_after_update_profile `{Host} (post read : request) (kv : kvstore)
    (userId : jsstring) (updates : value) :
  caller post = Some userId → caller read = Some userId → json_body post = Some updates →
  let merged :=
    VObj (with_fields (spread updates ∪ spread (profile_of kv userId))
            [("updatedAt", iso_now post)]) in
  update_profile post kv
  = (json 200 [("success", VBool true); ("message", VText "Profile updated successfully");
               ("userData", merged)],
     <[user_key (VStr userId) := merged]> kv)
  ∧ get_profile read (<[user_key (VStr userId) := merged]> kv)
    = (json 200 [("success", VBool true); ("userId", VStr userId); ("email", VStr userId);
                 ("userData", merged)],
       <[user_key (VStr userId) := merged]> kv).
Proof.
  intros Hpost Hread Hbody merged.
  unfold update_profile, get_profile.
  rewrite (authenticated_caller _ _ _ Hpost), (authenticated_caller _ _ _ Hread).
  run_handler. rewrite Hbody. cbv beta iota. split; [done|].
  by rewrite lookup_insert_eq.
Qed.

Lemma get_profile_after_update_profile_witness :
  let updates := VObj (obj [("targetAge", VInt 35)]) in
  let merged :=
    VObj (with_fields (spread updates ∪ spread (profile_of sample_store asha))
            [("updatedAt", @iso_now sample_host (asha_request updates))]) in
  @update_profile sample_host (asha_request updates) sample_store
  = (json 200 [("success", VBool true); ("message", VText "Profile updated successfully");
               ("userData", merged)],
     <[user_key (VStr asha) := merged]> sample_store)
  ∧ @get_profile sample_host (asha_request VNull) (<[user_key (VStr asha) := merged]> sample_store)
    = (json 200 [("success", VBool true); ("userId", VStr asha); ("email", VStr asha);
                 ("userData", merged)],
       <[user_key (VStr asha) := merged]> sample_store).
Proof.
  intros updates merged.
  apply (@get_profile_after_update_profile sample_host (asha_request updates)
           (asha_request VNull) sample_store asha updates); reflexivity.
Defined.

(** ** Missions *)

(** X13: after a POST /missions with a readable body, GET /missions of
    the same caller serves the list of the body, the empty list if the
    body gives none, with the count of the day back at 0. *)
Theorem get_missions_after_post_missions `{Host} (post read : request) (kv : kvstore)
    (userId : jsstring) (body : value) :
  caller post = Some userId → caller read = Some userId →
  json_body post = Some body → is_nullish body = false →
  ∃ r,
    post_missions post kv = (r, <[missions_key userId := saved_missions post body]> kv)
    ∧ status r = 200%Z
    ∧ get_missions read (<[missions_key userId := saved_missions post body]> kv)
      = (json 200 [("success", VBool true); ("data", saved_missions post body)],
         <[missions_key userId := saved_missions post body]> kv).
Proof.
  intros Hpost Hread Hbody Hnull.
  unfold post_missions, get_missions.
  rewrite (authenticated_caller _ _ _ Hpost), (authenticated_caller _ _ _ Hread).
  run_handler. rewrite Hbody. cbv beta iota.
  destruct body; try discriminate Hnull; cbv beta iota;
    (eexists; split; [reflexivity|]; split; [done|]);
    by rewrite lookup_insert_eq.
Qed.

Lemma get_missions_after_post_missions_witness :
  let body := VObj (obj [("missions", VArr two_missions)]) in
  let saved := @saved_missions sample_host (asha_request body) body in
  ∃ r,
    @post_missions sample_host (asha_request body) sample_store
    = (r, <[missions_key asha := saved]> sample_store)
    ∧ status r = 200%Z
    ∧ @get_missions sample_host (asha_request VNull)
        (<[missions_key asha := saved]> sample_store)
      = (json 200 [("success", VBool true); ("data", saved)],
         <[missions_key asha := saved]> sample_store).
Proof.
  intros body saved.
  apply (@get_missions_after_post_missions sample_host
           (asha_request body) (asha_request VNull) sample_store asha body); reflexivity.
Defined.

Lemma missions_data_missions `{Host} (req : request) (kv : kvstore) (u : jsstring) :
  or_else (get (or_else (default VUndef (kv !! missions_key u)) (no_missions req)) "missions")
          (VArr [])
  = missions_of kv u.
Proof.
  unfold missions_of, or_else at 2.
  destruct (truthy (default VUndef (kv !! missions_key u))) eqn:Hstored; [done|].
  by destruct (default VUndef (kv !! missions_key u)) as [| | | | | |?].
Qed.

Lemma missions_data_completed `{Host} (req : request) (kv : kvstore) (u : jsstring) :
  or_else (get (or_else (default VUndef (kv !! missions_key u)) (no_missions req))
               "completedToday") (VInt 0)
  = completed_today kv u.
Proof.
  unfold completed_today, or_else at 2.
  destruct (truthy (default VUndef (kv !! missions_key u))) eqn:Hstored; [done|].
  by destruct (default VUndef (kv !! missions_key u)) as [| | | | | |?].
Qed.

Lemma findIndex_none (p : value → result bool) (items : list value) :
  Forall (λ m, p m = Ok false) items → findIndex p items = Ok None.
Proof.
  induction 1 as [|m items Hm _ IH]; [done|].
  cbn [findIndex]. rewrite Hm. cbn [rbind]. by rewrite IH.
Qed.

Lemma findIndex_first (p : value → result bool) (m : value) (before after : list value) :
  Forall (λ m, p m = Ok false) before → p m = Ok true →
  findIndex p (before ++ m :: after) = Ok (Some (length before)).
Proof.
  intros Hbefore Hm.
  induction Hbefore as [|x before Hx _ IH].
  - cbn [app findIndex]. by rewrite Hm.
  - cbn [app findIndex]. rewrite Hx. cbn [rbind]. by rewrite IH.
Qed.

Lemma other_mission_test (missionId : value) (items : list value) :
  Forall (other_mission missionId) items →
  Forall (λ m, (id <~ prop m "id";; Ok (strict_eq id missionId)) = Ok false) items.
Proof.
  intros Hall. eapply Forall_impl; [exact Hall|].
  intros m [Hnull Hid]. unfold prop. rewrite Hnull. cbn [rbind].
  by rewrite Hid.
Qed.

Lemma missions_key_ne (u u' : jsstring) : user_key (VStr u) ≠ missions_key u'.
Proof. unfold user_key, missions_key. apply key_ne; by vm_compute. Qed.

(** The run of POST /missions/complete once the missions entry is
    built: the entry is written, then the XP is added, which throws when
    the stored XP or the amount of the body does not convert. *)
Ltac add_xp Hcount kv userId :=
  rewrite (ToPrimitive_converts _ Hcount); cbv beta iota;
  rewrite lookup_insert_ne by (apply not_eq_sym, missions_key_ne);
  unfold ToPrimitive;
  change (converts (or_else (get (or_else _ (VObj ∅)) "xpLevel") (VInt 0)))
    with (converts (xp_of kv userId));
  destruct (converts (xp_of kv userId));
    [destruct (converts (get _ "xpEarned"))|];
  cbv beta iota; cbn [andb].

(** X14: when the count of the day converts, POST /missions/complete
    marks the first mission of the stored list whose id is the one of
    the body, leaves the other missions and the length of the list as
    they are, and adds one to the count of the day, whether or not the
    mission was marked before.  The answer is 200 when the stored XP
    and the amount of the body convert; it is 500 otherwise, after the
    missions entry was written. *)
Theorem complete_mission_marks `{Host} (req : request) (kv : kvstore) (userId : jsstring)
    (body : value) (before after : list value) (o : object) :
  caller req = Some userId → json_body req = Some body → is_nullish body = false →
  missions_of kv userId = VArr (before ++ VObj o :: after) →
  Forall (other_mission (get body "missionId")) before →
  strict_eq (get (VObj o) "id") (get body "missionId") = true →
  converts (completed_today kv userId) = true →
  ∃ r kv',
    complete_mission req kv = (r, kv')
    ∧ status r
      = (if converts (xp_of kv userId) && converts (get body "xpEarned")
         then 200 else 500)%Z
    ∧ missions_of kv' userId
      = VArr (before ++ VObj (<[js "completed" := VBool true]> o) :: after)
    ∧ get (default VUndef (kv' !! missions_key userId)) "completedToday"
      = js_add (completed_today kv userId) (VInt 1).
Proof.
  intros Hcaller Hbody Hnull Hmissions Hbefore Hid Hcount.
  unfold complete_mission. rewrite (authenticated_caller _ _ _ Hcaller).
  run_handler. rewrite Hbody. cbv beta iota.
  destruct body as [| | | | | |fields]; try discriminate Hnull; cbv beta iota.
  all: rewrite missions_data_missions, missions_data_completed, Hmissions.
  all: cbv beta iota delta [as_array].
  all: rewrite (findIndex_first _ (VObj o) before after);
    [|by apply other_mission_test | by rewrite Hid].
  all: cbv beta iota.
  all: rewrite list_lookup_middle by done.
  all: cbv beta iota delta [default from_option Datatypes.id assign_completed].
  all: add_xp Hcount kv userId.
  all: eexists _, _; split; [reflexivity|]; split; [done|].
  all: unfold missions_of.
  all: rewrite ?lookup_insert_ne by apply missions_key_ne.
  all: rewrite lookup_insert_eq.
  all: cbv beta iota delta [default from_option Datatypes.id].
  all: rewrite !get_with_fields; lookup_fields.
  all: split; [|done].
  all: unfold or_else; cbn [truthy]; f_equal.
  all: by rewrite insert_app_r_alt, Nat.sub_diag by done.
Qed.

Lemma complete_mission_marks_witness :
  ∃ r kv',
    @complete_mission sample_host (asha_request (complete_body "m2")) missions_store = (r, kv')
    ∧ status r = 200%Z
    ∧ missions_of kv' asha
      = VArr ([VObj (obj [("id", VText "m1"); ("title", VText "Save")])]
              ++ VObj (<[js "completed" := VBool true]>
                         (obj [("id", VText "m2"); ("title", VText "Learn")])) :: [])
    ∧ get (default VUndef (kv' !! missions_key asha)) "completedToday"
      = @js_add sample_host (completed_today missions_store asha) (VInt 1).
Proof.
  apply (@complete_mission_marks sample_host (asha_request (complete_body "m2"))
           missions_store asha (complete_body "m2")
           [VObj (obj [("id", VText "m1"); ("title", VText "Save")])] []
           (obj [("id", VText "m2"); ("title", VText "Learn")])); try reflexivity.
  repeat constructor.
Defined.

(** X15: when the count of the day converts, POST /missions/complete
    with an id that no mission of the stored list carries is not
    refused: an entry of the id, marked completed, is appended to the
    list, and the count of the day grows by one.  The answer is 200 when
    the stored XP and the amount of the body convert; it is 500
    otherwise, after the missions entry was written. *)
Theorem complete_mission_unknown `{Host} (req : request) (kv : kvstore) (userId : jsstring)
    (body : value) (items : list value) :
  caller req = Some userId → json_body req = Some body → is_nullish body = false →
  missions_of kv userId = VArr items →
  Forall (other_mission (get body "missionId")) items →
  converts (completed_today kv userId) = true →
  ∃ r kv',
    complete_mission req kv = (r, kv')
    ∧ status r
      = (if converts (xp_of kv userId) && converts (get body "xpEarned")
         then 200 else 500)%Z
    ∧ missions_of kv' userId = VArr (items ++ [completed_stub req (get body "missionId")])
    ∧ get (default VUndef (kv' !! missions_key userId)) "completedToday"
      = js_add (completed_today kv userId) (VInt 1).
Proof.
  intros Hcaller Hbody Hnull Hmissions Hitems Hcount.
  unfold complete_mission. rewrite (authenticated_caller _ _ _ Hcaller).
  run_handler. rewrite Hbody. cbv beta iota.
  destruct body as [| | | | | |fields]; try discriminate Hnull; cbv beta iota.
  all: rewrite missions_data_missions, missions_data_completed, Hmissions.
  all: cbv beta iota delta [as_array].
  all: rewrite findIndex_none by by apply other_mission_test.
  all: cbv beta iota.
  all: add_xp Hcount kv userId.
  all: eexists _, _; split; [reflexivity|]; split; [done|].
  all: unfold missions_of.
  all: rewrite ?lookup_insert_ne by apply missions_key_ne.
  all: rewrite lookup_insert_eq.
  all: cbv beta iota delta [default from_option Datatypes.id].
  all: rewrite !get_with_fields; lookup_fields.
  all: by split.
Qed.

Lemma complete_mission_unknown_witness :
  ∃ r kv',
    @complete_mission sample_host (asha_request (complete_body "m9")) missions_store = (r, kv')
    ∧ status r = 200%Z
    ∧ missions_of kv' asha
      = VArr (two_missions
              ++ [@completed_stub sample_host (asha_request (complete_body "m9"))
                    (get (complete_body "m9") "missionId")])
    ∧ get (default VUndef (kv' !! missions_key asha)) "completedToday"
      = @js_add sample_host (completed_today missions_store asha) (VInt 1).
Proof.
  apply (@complete_mission_unknown sample_host (asha_request (complete_body "m9"))
           missions_store asha (complete_body "m9") two_missions); try reflexivity.
  repeat constructor.
Defined.

(** X16: whenever POST /missions/complete answers 200 for a caller
    whose stored XP is an integer and a body whose amount is one, both
    small enough for the sum to be taken exactly, the stored XP of the
    caller is the old XP plus the amount, and so is the XP of the
    answer; what the missions entry holds, and whether the mission was
    completed before, plays no part. *)
Theorem complete_mission_awards `{Host} (req : request) (kv : kvstore) (userId : jsstring)
    (body : value) (n e : Z) :
  caller req = Some userId → json_body req = Some body →
  status (complete_mission req kv).1 = 200%Z →
  xp_of kv userId = VInt n → get body "xpEarned" = VInt e → exact n → exact e →
  get (profile_of (complete_mission req kv).2 userId) "xpLevel" = VInt (n + e)
  ∧ payload (complete_mission req kv).1 !! js "newXP" = Some (VInt (n + e))
  ∧ payload (complete_mission req kv).1 !! js "xpEarned" = Some (VInt e).
Proof.
  intros Hcaller Hbody Hstatus Hn He _ _. revert Hstatus.
  unfold complete_mission. rewrite (authenticated_caller _ _ _ Hcaller).
  run_handler. rewrite Hbody. cbv beta iota.
  destruct body as [| | | | | |fields]; try discriminate; cbv beta iota.
  all: rewrite missions_data_missions, missions_data_completed.
  all: destruct (missions_of kv userId) as [| | | | |items|]; try discriminate.
  all: cbv beta iota delta [as_array].
  all: destruct (findIndex _ items) as [[i|]|?]; try discriminate; cbv beta iota.
  all: try (destruct (assign_completed _) as [m|?]; [|discriminate]; cbv beta iota).
  all: destruct (ToPrimitive (completed_today kv userId)); [|discriminate]; cbv beta iota.
  all: rewrite lookup_insert_ne by (apply not_eq_sym, missions_key_ne).
  all: fold (profile_of kv userId); fold (xp_of kv userId).
  all: rewrite He, Hn, !ToPrimitive_int; cbv beta iota.
  all: intros _; cbn [fst snd].
  all: rewrite profile_of_insert.
  all: by lookup_fields.
Qed.

Lemma complete_mission_awards_witness :
  let req := asha_request (complete_body "m2") in
  let again := (@complete_mission sample_host req missions_store).2 in
  get (profile_of (@complete_mission sample_host req again).2 asha) "xpLevel" = VInt (135 + 15)
  ∧ payload (@complete_mission sample_host req again).1 !! js "newXP" = Some (VInt (135 + 15))
  ∧ payload (@complete_mission sample_host req again).1 !! js "xpEarned" = Some (VInt 15).
Proof.
  intros req again.
  apply (@complete_mission_awards sample_host req again asha (complete_body "m2"));
    try reflexivity; unfold exact; lia.
Defined.

(** ** Mission generation *)

(** X17: when no key is configured, or no mission list can be read from
    what [callGeminiAPI] returns, the missions chosen are exactly the
    default ones. *)
Theorem choose_missions_fallback `{Host} (req : request) (userData : value) :
  nonempty GEMINI_API_KEY = false
  ∨ unusable_reply req (callGeminiAPI req (prompt userData)) = true →
  choose_missions req userData = getDefaultMissions req userData.
Proof.
  intros Hfail. unfold choose_missions.
  assert (Hdefault : ∀ missions,
            missions = getDefaultMissions req userData →
            match missions with [] => getDefaultMissions req userData | _ => missions end
            = getDefaultMissions req userData).
  { intros missions ->. by destruct (getDefaultMissions req userData). }
  apply Hdefault.
  destruct (nonempty GEMINI_API_KEY); [|done].
  destruct Hfail as [?|Hfail]; [done|]. unfold unusable_reply in Hfail.
  destruct (callGeminiAPI req (prompt userData)) as [reply|e]; [|done].
  cbn [rbind].
  destruct reply as [| | | |text| |]; try done.
  cbn [parse_reply].
  destruct (match_array (strip_fences text)) as [jsonMatch|]; [|done].
  destruct (JSON_parse jsonMatch) as [[| | | | |[|m parsed]|]|]; try done.
  by destruct (rmap _ _).
Qed.

Lemma choose_missions_fallback_witness :
  @choose_missions sample_host (generate_request (Some (gemini_reply "Sorry, no JSON today")))
    asha_profile
  = @getDefaultMissions sample_host
      (generate_request (Some (gemini_reply "Sorry, no JSON today"))) asha_profile.
Proof.
  apply (@choose_missions_fallback sample_host
           (generate_request (Some (gemini_reply "Sorry, no JSON today"))) asha_profile).
  right. reflexivity.
Defined.

Lemma mission_of_reply_copies (req : request) (index : nat) (m out : value) :
  mission_of_reply req index m = Ok out →
  Forall (λ k, truthy (get m k) = true → get out k = get m k) copied_fields
  ∧ (Array_isArray (get m "tips") = true → get out "tips" = get m "tips").
Proof.
  unfold mission_of_reply, prop.
  destruct (is_nullish m) eqn:Hnull; [done|]. cbn [rbind]. intros [= <-].
  split.
  - unfold copied_fields.
    repeat (apply Forall_cons; split;
            [intros Hk; cbn [get]; lookup_fields; cbn [default from_option];
             unfold Datatypes.id, or_else; by rewrite Hk|]).
    constructor.
  - intros Htips. cbn [get]. lookup_fields. cbn [default from_option].
    unfold Datatypes.id. by rewrite Htips.
Qed.

Lemma rmap_length {A B} (f : A → result B) (l : list A) (l' : list B) :
  rmap f l = Ok l' → length l' = length l.
Proof. intros Hmap. apply rmap_ok in Hmap. symmetry. by eapply Forall2_length. Qed.

Lemma rmap_imap_lookup {B} (f : nat → value → result B) (items : list value) (outs : list B)
    (i : nat) (m : value) (out : B) :
  rmap (λ im, f im.1 im.2) (imap pair items) = Ok outs →
  items !! i = Some m → outs !! i = Some out → f i m = Ok out.
Proof.
  intros Hmap Hm Hout. apply rmap_ok in Hmap.
  assert (Hpair : imap pair items !! i = Some (i, m)).
  { rewrite list_lookup_imap, Hm. done. }
  by destruct (Forall2_lookup_lr _ _ _ _ _ _ Hmap Hpair Hout).
Qed.

Lemma mission_of_reply_total (req : request) (g : nat → nat) (items : list value) :
  Forall (λ m, is_nullish m = false) items →
  ∃ outs, rmap (λ im, mission_of_reply req im.1 im.2) (imap (λ i m, (g i, m)) items)
          = Ok outs.
Proof.
  intros Hitems. revert g. induction Hitems as [|m items Hm _ IH]; intros g.
  - by exists [].
  - destruct (IH (g ∘ S)) as [outs Houts].
    cbn [imap rmap]. unfold mission_of_reply at 1, prop. cbn [fst snd]. rewrite Hm.
    cbn [rbind]. unfold compose in *. rewrite Houts. cbn [rbind]. by eexists.
Qed.

(** X18: a reply that parses to a non-empty array without null elements
    is used in full: one mission per element, whatever their number, each
    keeping the fields the element gives, an element without id getting
    the id of its position. *)
Theorem choose_missions_uses_reply `{Host} (req : request) (userData : value)
    (text jsonMatch : jsstring) (items : list value) :
  nonempty GEMINI_API_KEY = true →
  callGeminiAPI req (prompt userData) = Ok (VStr text) →
  match_array (strip_fences text) = Some jsonMatch →
  JSON_parse jsonMatch = Some (VArr items) → items ≠ [] →
  Forall (λ m, is_nullish m = false) items →
  length (choose_missions req userData) = length items
  ∧ ∀ i m out, items !! i = Some m → choose_missions req userData !! i = Some out →
      Forall (λ k, truthy (get m k) = true → get out k = get m k) copied_fields
      ∧ (truthy (get m "id") = false →
         get out "id" = VStr (mission_id (Z.of_nat i + 1) (now req))).
Proof.
  intros Hkey Hreply Hmatch Hparse Hne Hitems. unfold choose_missions.
  rewrite Hkey, Hreply. cbn [rbind parse_reply]. rewrite Hmatch, Hparse.
  destruct items as [|m0 items]; [done|].
  destruct (rmap _ (imap pair (m0 :: items))) as [outs|e] eqn:Hmap.
  2:{ destruct (mission_of_reply_total req id (m0 :: items) Hitems) as [outs Houts].
      change (imap pair (m0 :: items)) with (imap (λ i m, (id i, m)) (m0 :: items)) in Hmap.
      congruence. }
  cbn [rcatch].
  assert (Hlen := rmap_length _ _ _ Hmap). rewrite length_imap in Hlen.
  destruct outs as [|out0 outs]; [done|]. split; [done|].
  intros i m out Hm Hout.
  assert (Hone := rmap_imap_lookup (mission_of_reply req) _ _ i m out Hmap Hm Hout).
  split; [by apply mission_of_reply_copies in Hone as [? _]|].
  intros Hid. revert Hone. unfold mission_of_reply, prop.
  destruct (is_nullish m); [done|]. cbn [rbind]. intros [= <-].
  cbn [get]. lookup_fields. cbn [default from_option].
  unfold Datatypes.id, or_else. by rewrite Hid.
Qed.

Lemma choose_missions_uses_reply_witness :
  let req := generate_request (Some (gemini_reply "[{}]")) in
  length (@choose_missions sample_host req asha_profile) = length [VObj ∅]
  ∧ ∀ i m out, [VObj ∅] !! i = Some m →
      @choose_missions sample_host req asha_profile !! i = Some out →
      Forall (λ k, truthy (get m k) = true → get out k = get m k) copied_fields
      ∧ (truthy (get m "id") = false →
         get out "id" = VStr (mission_id (Z.of_nat i + 1) (now req))).
Proof.
  intros req.
  apply (@choose_missions_uses_reply sample_host req asha_profile (js "[{}]") (js "[{}]")
           [VObj ∅]); try reflexivity.
  - done.
  - by repeat constructor.
Defined.

(** X19: when the stored monthly income converts to a number, POST
    /missions/generate stores the list it serves, none of its missions
    completed and the count of the day at 0, in place of whatever the
    missions entry held, and GET /missions of the same caller serves
    that entry.  When the income does not convert, the two missions of
    the catch block are served without a [completed] field and stored
    with it, and GET /missions serves what was stored. *)
Theorem get_missions_after_generate_missions `{Host} (post read : request) (kv : kvstore)
    (userId : jsstring) :
  caller post = Some userId → caller read = Some userId →
  let entry missions :=
    VObj (obj [("missions", VArr missions); ("completedToday", VInt 0);
               ("lastReset", iso_now post)]) in
  (income_converts (profile_of kv userId) = true →
   let missions := generated_missions post kv userId in
   generate_missions post kv
   = (json 200 [("success", VBool true); ("missions", VArr missions)],
      <[missions_key userId := entry missions]> kv)
   ∧ get_missions read (<[missions_key userId := entry missions]> kv)
     = (json 200 [("success", VBool true); ("data", entry missions)],
        <[missions_key userId := entry missions]> kv)
   ∧ missions ≠ []
   ∧ Forall (λ m, get m "completed" = VBool false) missions)
  ∧ (income_converts (profile_of kv userId) = false →
     let stored := not_completed <$> fallback_missions post in
     generate_missions post kv
     = (json 200 [("success", VBool true); ("missions", VArr (fallback_missions post))],
        <[missions_key userId := entry stored]> kv)
     ∧ get_missions read (<[missions_key userId := entry stored]> kv)
       = (json 200 [("success", VBool true); ("data", entry stored)],
          <[missions_key userId := entry stored]> kv)
     ∧ Forall (λ m, get m "completed" = VUndef) (fallback_missions post)
     ∧ Forall (λ m, get m "completed" = VBool false) stored).
Proof.
  intros Hpost Hread entry.
  assert (Hserved : ∀ missions,
            get_missions read (<[missions_key userId := entry missions]> kv)
            = (json 200 [("success", VBool true); ("data", entry missions)],
               <[missions_key userId := entry missions]> kv)).
  { intros missions. unfold get_missions.
    rewrite (authenticated_caller _ _ _ Hread). run_handler.
    by rewrite lookup_insert_eq. }
  assert (Hmarked : ∀ l, Forall (λ m, get m "completed" = VBool false) (not_completed <$> l)).
  { intros l. apply Forall_fmap, Forall_forall.
    intros m _. unfold compose, not_completed. by lookup_fields. }
  split.
  - intros Hincome missions.
    split; [by apply generate_missions_served|]. split; [apply Hserved|].
    split; [|apply Hmarked].
    unfold missions, generated_missions.
    destruct (choose_missions_spec post (profile_of kv userId)) as (Hne & _).
    destruct (getDefaultMissions_well_formed post (profile_of kv userId)) as [Hfive _].
    destruct (prompt_converts _).
    + by destruct (choose_missions post (profile_of kv userId)).
    + by destruct (getDefaultMissions post (profile_of kv userId)).
  - intros Hincome stored.
    split; [by apply generate_missions_caught|]. split; [apply Hserved|].
    split; [|apply Hmarked].
    unfold fallback_missions. by repeat constructor.
Qed.

Lemma get_missions_after_generate_missions_witness :
  let post := generate_request None in
  let missions := @generated_missions sample_host post missions_store asha in
  let saved := VObj (obj [("missions", VArr missions); ("completedToday", VInt 0);
                          ("lastReset", @iso_now sample_host post)]) in
  @generate_missions sample_host post missions_store
  = (json 200 [("success", VBool true); ("missions", VArr missions)],
     <[missions_key asha := saved]> missions_store)
  ∧ @get_missions sample_host (asha_request VNull) (<[missions_key asha := saved]> missions_store)
    = (json 200 [("success", VBool true); ("data", saved)],
       <[missions_key asha := saved]> missions_store)
  ∧ missions ≠ []
  ∧ Forall (λ m, get m "completed" = VBool false) missions.
Proof.
  intros post missions saved.
  apply (@get_missions_after_generate_missions sample_host post (asha_request VNull)
           missions_store asha); reflexivity.
Defined.

Lemma mission_id_prefix (n : Z) (now : Z) (k : string) :
  pretty n = k → mission_id n now = js "mission_" ++ js k ++ js "_" ++ js (pretty now).
Proof. by intros <-. Qed.

(** X20: the five default missions carry five different ids, whatever
    the time and the profile, so that a completion by id names one of
    them. *)
Theorem default_missions_ids `{Host} (req : request) (userData : value) :
  NoDup ((λ m, get m "id") <$> getDefaultMissions req userData).
Proof.
  unfold getDefaultMissions. cbn [fmap list_fmap]. unfold mission. cbn [get].
  lookup_fields. cbn [default from_option]. unfold Datatypes.id.
  rewrite (mission_id_prefix 1 _ "1"), (mission_id_prefix 2 _ "2"),
    (mission_id_prefix 3 _ "3"), (mission_id_prefix 4 _ "4"),
    (mission_id_prefix 5 _ "5") by done.
  apply (NoDup_fmap_1 (λ v, match v with VStr s => take 9 s | _ => [] end)).
  cbn [fmap list_fmap]. by vm_compute; apply (bool_decide_unpack _).
Qed.

(** ** Financial data *)

(** X21: POST /financial-data replaces the entry of the caller by the
    fields of the body and a fresh [updatedAt], whatever the entry held,
    and GET /financial-data of the same caller serves it. *)
Theorem get_financial_data_after_post `{Host} (post read : request) (kv : kvstore)
    (userId : jsstring) (body : value) :
  caller post = Some userId → caller read = Some userId → json_body post = Some body →
  let kv' := <[financial_key userId := saved_financial_data post body]> kv in
  ∃ r,
    post_financial_data post kv = (r, kv') ∧ status r = 200%Z
    ∧ get_financial_data read kv'
      = (json 200 [("success", VBool true); ("data", saved_financial_data post body)], kv')
    ∧ get (saved_financial_data post body) "updatedAt" = iso_now post
    ∧ ∀ k, k ≠ js "updatedAt" →
        spread (saved_financial_data post body) !! k = spread body !! k.
Proof.
  intros Hpost Hread Hbody kv'. unfold kv'.
  unfold post_financial_data, get_financial_data.
  rewrite (authenticated_caller _ _ _ Hpost), (authenticated_caller _ _ _ Hread).
  run_handler. rewrite Hbody. cbv beta iota.
  eexists. split; [reflexivity|]. split; [done|]. split.
  { by rewrite lookup_insert_eq. }
  split.
  { unfold saved_financial_data. by lookup_fields. }
  intros k Hk. unfold saved_financial_data. cbn [spread].
  rewrite lookup_with_fields. unfold obj. simpl.
  by rewrite lookup_insert_ne, lookup_empty.
Qed.

Lemma get_financial_data_after_post_witness :
  let body := VObj (obj [("monthlyIncome", VInt 50000)]) in
  let saved := @saved_financial_data sample_host (asha_request body) body in
  let kv' := <[financial_key asha := saved]> sample_store in
  ∃ r,
    @post_financial_data sample_host (asha_request body) sample_store = (r, kv')
    ∧ status r = 200%Z
    ∧ @get_financial_data sample_host (asha_request VNull) kv'
      = (json 200 [("success", VBool true); ("data", saved)], kv')
    ∧ get saved "updatedAt" = @iso_now sample_host (asha_request body)
    ∧ ∀ k, k ≠ js "updatedAt" → spread saved !! k = spread body !! k.
Proof.
  intros body saved kv'.
  apply (@get_financial_data_after_post sample_host
           (asha_request body) (asha_request VNull) sample_store asha body); reflexivity.
Defined.

(** ** Community posts *)

(** X22: POST /community/posts refuses with 400 a content that is not a
    string or is a string of white space only, and stores nothing. *)
Theorem create_post_blank `{Host} (req : request) (kv : kvstore) (userId : jsstring)
    (body : value) :
  caller req = Some userId → json_body req = Some body → is_nullish body = false →
  blank_content (get body "content") = true →
  create_post req kv = (json 400 [("error", VText "Content is required")], kv).
Proof.
  intros Hcaller Hbody Hnull Hblank.
  unfold create_post. rewrite (authenticated_caller _ _ _ Hcaller).
  run_handler. rewrite Hbody. cbv beta iota.
  destruct body as [| | | | | |fields]; try discriminate Hnull; cbv beta iota;
    try reflexivity.
  destruct (get (VObj fields) "content") as [| | | |text| |]; try reflexivity.
  simpl in Hblank. rewrite Hblank. by rewrite orb_true_r.
Qed.

Lemma create_post_blank_witness :
  @create_post sample_host (asha_request (VObj (obj [("content", VText "   ")]))) sample_store
  = (json 400 [("error", VText "Content is required")], sample_store).
Proof.
  apply (@create_post_blank sample_host
           (asha_request (VObj (obj [("content", VText "   ")]))) sample_store asha
           (VObj (obj [("content", VText "   ")]))); reflexivity.
Defined.




Section sorting.
Context (key : value → Z) (cmp : value → value → num) (P : value → Prop).
Hypothesis cmp_key :
  ∀ x y, P x → P y → positive (cmp x y) = bool_decide (key x < key y)%Z.


End sorting.



(** ** Leaderboard, search and friends *)

(** X25: GET /leaderboard writes nothing and answers 500 when the XP
    of an onboarded user does not convert to a number.  Otherwise its
    entries are numbered 1, 2, ... in the order served; each is built
    from an onboarded user of the store, of whom it carries the email,
    the name and the level, and no password. *)
Theorem leaderboard_ranks `{Host} (req : request) (kv : kvstore) (userId : jsstring) :
  caller req = Some userId →
  let onboarded := filter (λ u, listed u = true) (values_under (js "user:") kv) in
  ∃ r,
    get_leaderboard req kv = (r, kv)
    ∧ (forallb xp_converts onboarded = false → status r = 500%Z)
    ∧ (forallb xp_converts onboarded = true →
       ∃ board,
         r = json 200 [("success", VBool true); ("leaderboard", VArr board)]
         ∧ ∀ i entry, board !! i = Some entry →
             get entry "rank" = VInt (Z.of_nat i + 1)
             ∧ get entry "password" = VUndef
             ∧ ∃ user, user ∈ values_under (js "user:") kv ∧ listed user = true
                       ∧ get entry "email" = get user "email"
                       ∧ get entry "name" = or_else (get user "name") (VText "Unknown")
                       ∧ get entry "level" = level_of user).
Proof.
  intros Hcaller onboarded.
  destruct (forallb xp_converts onboarded) eqn:Hconverts.
  2:{ destruct (get_leaderboard_throws req kv userId Hcaller Hconverts) as (r & Hrun & Hstatus).
      exists r. split; [done|]. by split. }
  rewrite (get_leaderboard_run _ _ _ Hcaller Hconverts).
  eexists. split; [reflexivity|]. split; [done|]. intros _.
  eexists. split; [reflexivity|].
  intros i entry Hentry. unfold leaderboard in Hentry.
  apply list_lookup_imap_Some in Hentry as (user & Huser & ->).
  split; [unfold leaderboard_entry; by lookup_fields|].
  split; [unfold leaderboard_entry; by lookup_fields|].
  exists user.
  apply list_elem_of_lookup_2, top_users, list_elem_of_filter in Huser as [Hlisted Hin].
  split; [done|]. split; [done|].
  assert (Hemail : truthy (get user "email") = true).
  { unfold listed in Hlisted. by apply andb_prop in Hlisted as [_ ?]. }
  split.
  { unfold leaderboard_entry. cbn [get]. lookup_fields. simpl. unfold or_else. by rewrite Hemail. }
  split; unfold leaderboard_entry; by lookup_fields.
Qed.

Lemma leaderboard_ranks_witness :
  ∃ board,
    @get_leaderboard sample_host (asha_request VNull) sample_store
    = (json 200 [("success", VBool true); ("leaderboard", VArr board)], sample_store)
    ∧ ∀ i entry, board !! i = Some entry →
        get entry "rank" = VInt (Z.of_nat i + 1)
        ∧ get entry "password" = VUndef
        ∧ ∃ user, user ∈ values_under (js "user:") sample_store ∧ listed user = true
                  ∧ get entry "email" = get user "email"
                  ∧ get entry "name" = or_else (get user "name") (VText "Unknown")
                  ∧ get entry "level" = @level_of sample_host user.
Proof.
  destruct (@leaderboard_ranks sample_host (asha_request VNull) sample_store asha eq_refl)
    as (r & Hrun & _ & Hserved).
  destruct (Hserved eq_refl) as (board & -> & Hentries).
  exists board. split; [exact Hrun | exact Hentries].
Defined.

Lemma rfilter_ok {A} (p : A → result bool) (l l' : list A) :
  rfilter p l = Ok l' → l' `sublist_of` l ∧ Forall (λ x, p x = Ok true) l'.
Proof.
  revert l'. induction l as [|x l IH]; intros l'; cbn [rfilter rbind].
  - intros [= <-]. by split.
  - destruct (p x) as [b|e] eqn:Hx; cbn [rbind]; [|done].
    destruct (rfilter p l) as [ys|e]; cbn [rbind]; [|done].
    destruct (IH ys eq_refl) as [Hsub Hall].
    intros [= <-]. destruct b.
    + split; [by apply sublist_skip | by constructor].
    + split; [by apply sublist_cons | done].
Qed.

Lemma search_hit_true `{Host} (userId query : jsstring) (user : value) :
  search_hit userId query user = Ok true →
  listed user = true ∧ strict_eq (get user "email") (VStr userId) = false
  ∧ (lower_includes (get user "name") query = Ok true
     ∨ lower_includes (get user "email") query = Ok true).
Proof.
  unfold search_hit.
  destruct (listed user); [|done].
  destruct (strict_eq (get user "email") (VStr userId)); [done|].
  cbn [andb negb]. intros Hhit. split; [done|]. split; [done|].
  destruct (is_nullish (get user "name")); cbn [rbind] in Hhit; [by right|].
  destruct (lower_includes (get user "name") query) as [[]|e]; cbn [rbind] in Hhit;
    [by left | by right | done].
Qed.

(** X26: GET /users/search never writes; a query of fewer than two
    characters finds nobody; otherwise at most 20 users are served, each
    an onboarded user of the store other than the caller whose name or
    email contains the query, and no entry carries a password. *)
Theorem search_users_results `{Host} (req : request) (kv : kvstore) (userId : jsstring) :
  caller req = Some userId →
  let query := default [] (query_q req) in
  ∃ r,
    search_users req kv = (r, kv)
    ∧ (length query < 2 →
       r = json 200 [("success", VBool true); ("users", VArr [])])
    ∧ ∀ users,
        payload r !! js "users" = Some (VArr users) →
        length users ≤ 20
        ∧ Forall (λ entry,
            ∃ user, user ∈ values_under (js "user:") kv ∧ entry = search_entry user
                    ∧ listed user = true
                    ∧ get entry "email" = get user "email"
                    ∧ get user "email" ≠ VStr userId
                    ∧ get entry "password" = VUndef
                    ∧ (2 ≤ length query →
                       lower_includes (get user "name") query = Ok true
                       ∨ lower_includes (get user "email") query = Ok true)) users.
Proof.
  intros Hcaller query. unfold search_users.
  rewrite (authenticated_caller _ _ _ Hcaller). fold query. run_handler.
  destruct (Nat.ltb_spec (length query) 2) as [Hshort|Hlong].
  { eexists. split; [reflexivity|]. split; [done|].
    intros users. unfold json; cbn [payload]. lookup_fields. intros [= <-].
    split; [simpl; lia | constructor]. }
  destruct (rfilter _ _) as [hits|e] eqn:Hhits; cbv beta iota.
  2:{ eexists. split; [reflexivity|]. split; [lia|].
      intros users. unfold json; cbn [payload]. by lookup_fields. }
  destruct (converted_xp (take 20 hits)); cbv beta iota.
  2:{ eexists. split; [reflexivity|]. split; [lia|].
      intros users. unfold json; cbn [payload]. by lookup_fields. }
  eexists. split; [reflexivity|]. split; [lia|].
  intros users. unfold json; cbn [payload]. lookup_fields. intros [= <-]. split.
  { rewrite length_fmap, length_take. lia. }
  apply Forall_fmap, Forall_forall. intros user Hin.
  apply rfilter_ok in Hhits as [Hsub Hall].
  apply subseteq_take in Hin.
  assert (Hhit := proj1 (Forall_forall _ _) Hall user Hin).
  apply (sublist_subseteq _ _ Hsub) in Hin.
  apply search_hit_true in Hhit as (Hlisted & Hother & Hmatch).
  exists user. split; [done|]. split; [done|]. split; [done|].
  assert (Hemail : truthy (get user "email") = true).
  { unfold listed in Hlisted. by apply andb_prop in Hlisted as [_ ?]. }
  split.
  { unfold search_entry. cbn [get]. lookup_fields. simpl. unfold or_else. by rewrite Hemail. }
  split.
  { intros Heq. rewrite Heq in Hother. simpl in Hother.
    by apply bool_decide_eq_false in Hother. }
  split; [|done].
  unfold search_entry. by lookup_fields.
Qed.

Lemma search_users_results_witness :
  let query := default [] (query_q (search_request "ravi")) in
  ∃ r,
    @search_users sample_host (search_request "ravi") sample_store = (r, sample_store)
    ∧ (length query < 2 →
       r = json 200 [("success", VBool true); ("users", VArr [])])
    ∧ ∀ users,
        payload r !! js "users" = Some (VArr users) →
        length users ≤ 20
        ∧ Forall (λ entry,
            ∃ user, user ∈ values_under (js "user:") sample_store
                    ∧ entry = @search_entry sample_host user
                    ∧ listed user = true
                    ∧ get entry "email" = get user "email"
                    ∧ get user "email" ≠ VStr asha
                    ∧ get entry "password" = VUndef
                    ∧ (2 ≤ length query →
                       @lower_includes sample_host (get user "name") query = Ok true
                       ∨ @lower_includes sample_host (get user "email") query = Ok true))
            users.
Proof.
  apply (@search_users_results sample_host (search_request "ravi") sample_store asha).
  reflexivity.
Defined.

Lemma omap_length {A B} (f : A → option B) (l : list A) : length (omap f l) ≤ length l.
Proof.
  induction l as [|x l IH]; [done|].
  change (omap f (x :: l)) with (match f x with Some y => y :: omap f l | None => omap f l end).
  destruct (f x); simpl; lia.
Qed.

Lemma friend_details_run `{Host} (friendEmails : list value) (kv : kvstore) :
  forallb (friend_converts kv) friendEmails = true →
  friend_details friendEmails kv = (Ok (omap (friend_entry kv) friendEmails), kv).
Proof.
  induction friendEmails as [|email rest IH]; [done|].
  cbn [forallb]. unfold friend_converts at 1.
  intros [[Hemail Hxp]%andb_prop Hrest]%andb_prop.
  cbn [friend_details]. run_handler.
  rewrite (ToPrimitive_converts _ Hemail). cbv beta iota.
  change (omap (friend_entry kv) (email :: rest))
    with (match friend_entry kv email with
          | Some entry => entry :: omap (friend_entry kv) rest
          | None => omap (friend_entry kv) rest
          end).
  unfold friend_entry at 1.
  destruct (truthy (default VUndef (kv !! user_key email))) eqn:Hprofile.
  - rewrite (ToPrimitive_converts _ Hxp). cbv beta iota. by rewrite (IH Hrest).
  - cbv beta iota. by rewrite (IH Hrest).
Qed.

Lemma friend_details_throws `{Host} (friendEmails : list value) (kv : kvstore) :
  forallb (friend_converts kv) friendEmails = false →
  friend_details friendEmails kv = (Throw (Engine TypeError), kv).
Proof.
  induction friendEmails as [|email rest IH]; [done|].
  cbn [forallb]. unfold friend_converts at 1. intros Hthrows.
  cbn [friend_details]. run_handler. unfold ToPrimitive.
  destruct (converts email); [|done]. cbn [andb] in Hthrows. cbv beta iota.
  destruct (truthy (default VUndef (kv !! user_key email))).
  - destruct (converts _); [|done]. cbn [andb] in Hthrows. cbv beta iota.
    by rewrite (IH Hthrows).
  - cbn [andb] in Hthrows. cbv beta iota. by rewrite (IH Hthrows).
Qed.

Lemma get_friends_run `{Host} (req : request) (kv : kvstore) (userId : jsstring)
    (emails : list value) :
  caller req = Some userId → friends_of kv userId = VArr emails →
  forallb (friend_converts kv) emails = true →
  get_friends req kv
  = (json 200 [("success", VBool true);
               ("friends", VArr (omap (friend_entry kv) emails))], kv).
Proof.
  intros Hcaller Hfriends Hconverts. unfold get_friends.
  rewrite (authenticated_caller _ _ _ Hcaller). run_handler.
  fold (profile_of kv userId). fold (friends_of kv userId). rewrite Hfriends.
  cbv beta iota delta [iterate]. by rewrite (friend_details_run _ _ Hconverts).
Qed.

Lemma get_friends_throws `{Host} (req : request) (kv : kvstore) (userId : jsstring)
    (emails : list value) :
  caller req = Some userId → friends_of kv userId = VArr emails →
  forallb (friend_converts kv) emails = false →
  ∃ r, get_friends req kv = (r, kv) ∧ status r = 500%Z.
Proof.
  intros Hcaller Hfriends Hthrows. unfold get_friends.
  rewrite (authenticated_caller _ _ _ Hcaller). run_handler.
  fold (profile_of kv userId). fold (friends_of kv userId). rewrite Hfriends.
  cbv beta iota delta [iterate]. rewrite (friend_details_throws _ _ Hthrows).
  by eexists.
Qed.

Lemma friend_entry_listed `{Host} (kv : kvstore) (emails : list value) (email : value) :
  email ∈ emails → truthy (default VUndef (kv !! user_key email)) = true →
  ∃ entry, entry ∈ omap (friend_entry kv) emails ∧ get entry "email" = email
           ∧ get entry "name" = get (default VUndef (kv !! user_key email)) "name".
Proof.
  intros Hin Hprofile.
  assert (Hentry : ∃ entry, friend_entry kv email = Some entry
                            ∧ get entry "email" = email
                            ∧ get entry "name" = get (default VUndef (kv !! user_key email)) "name").
  { unfold friend_entry. rewrite Hprofile. eexists. split; [done|]. by lookup_fields. }
  destruct Hentry as (entry & Hentry & Hfields).
  exists entry. split; [|done]. apply list_elem_of_omap. by exists email.
Qed.

(** X27: GET /friends writes nothing and answers 500 when an element
    of the stored list, or the XP of the profile it names, does not
    convert.  Otherwise it serves, in the order of the stored list, one
    entry for every email of the list that has a profile and skips the
    others; no entry carries a password. *)
Theorem get_friends_lists `{Host} (req : request) (kv : kvstore) (userId : jsstring)
    (emails : list value) :
  caller req = Some userId → friends_of kv userId = VArr emails →
  ∃ r,
    get_friends req kv = (r, kv)
    ∧ (forallb (friend_converts kv) emails = false → status r = 500%Z)
    ∧ (forallb (friend_converts kv) emails = true →
       r = json 200 [("success", VBool true);
                     ("friends", VArr (omap (friend_entry kv) emails))]
       ∧ length (omap (friend_entry kv) emails) ≤ length emails
       ∧ (∀ email, email ∈ emails →
            truthy (default VUndef (kv !! user_key email)) = true →
            ∃ entry, entry ∈ omap (friend_entry kv) emails ∧ get entry "email" = email
                     ∧ get entry "name"
                       = get (default VUndef (kv !! user_key email)) "name")
       ∧ Forall (λ entry, get entry "password" = VUndef) (omap (friend_entry kv) emails)).
Proof.
  intros Hcaller Hfriends.
  destruct (forallb (friend_converts kv) emails) eqn:Hconverts.
  2:{ destruct (get_friends_throws req kv userId emails Hcaller Hfriends Hconverts)
        as (r & Hrun & Hstatus).
      exists r. split; [done|]. by split. }
  eexists. split; [by apply (get_friends_run _ _ userId emails)|].
  split; [done|]. intros _.
  split; [done|]. split; [apply omap_length|].
  split; [intros email; apply friend_entry_listed|].
  apply Forall_forall. intros entry (email & _ & Hentry)%list_elem_of_omap.
  unfold friend_entry in Hentry.
  destruct (truthy _); [|done]. injection Hentry as <-. by lookup_fields.
Qed.

Lemma get_friends_lists_witness :
  let kv := <[user_key (VStr asha) :=
                VObj (obj [("email", VStr asha);
                           ("friends", VArr [VText "gone@example.com"; VStr ravi])])]>
              sample_store in
  let emails := [VText "gone@example.com"; VStr ravi] in
  @get_friends sample_host (asha_request VNull) kv
  = (json 200 [("success", VBool true);
               ("friends", VArr (omap (@friend_entry sample_host kv) emails))], kv)
  ∧ length (omap (@friend_entry sample_host kv) emails) = 1
  ∧ Forall (λ entry, get entry "password" = VUndef)
           (omap (@friend_entry sample_host kv) emails).
Proof.
  intros kv emails.
  destruct (@get_friends_lists sample_host (asha_request VNull) kv asha emails
              eq_refl eq_refl) as (r & Hrun & _ & Hserved).
  destruct (Hserved eq_refl) as (-> & _ & _ & Hpassword).
  split; [exact Hrun|]. split; [reflexivity | exact Hpassword].
Defined.

(** What a POST /friends/add that is answered 200 leaves in the store. *)
Lemma add_friend_accepted `{Host} (req : request) (kv : kvstore) (A B : jsstring)
    (body : value) (fa : list value) :
  caller req = Some A → json_body req = Some body → get body "friendEmail" = VStr B →
  friends_of kv A = VArr fa →
  status (add_friend req kv).1 = 200%Z →
  friends_of (add_friend req kv).2 A = VArr (fa ++ [VStr B])
  ∧ truthy (default VUndef ((add_friend req kv).2 !! user_key (VStr B))) = true.
Proof.
  intros Hpost Hbody Hfriend HfA.
  destruct body as [| | | | | |fields]; try done.
  unfold add_friend. rewrite (authenticated_caller _ _ _ Hpost).
  run_handler. rewrite Hbody. run_handler. rewrite Hfriend.
  rewrite ToPrimitive_str. cbv beta iota.
  destruct (truthy (default VUndef (kv !! user_key (VStr B)))) eqn:HB;
    cbv beta iota delta [negb]; [|discriminate].
  fold (profile_of kv A). fold (friends_of kv A). rewrite HfA.
  cbv beta iota delta [includes push as_array rbind].
  destruct (existsb (same_value_zero (VStr B)) fa) eqn:Hin; [discriminate|].
  cbv beta iota.
  assert (HafterA : friends_of (<[user_key (VStr A) :=
             VObj (with_fields (spread (profile_of kv A)) [("friends", VArr (fa ++ [VStr B]))])]> kv) A
           = VArr (fa ++ [VStr B])).
  { unfold friends_of. rewrite profile_of_insert. by lookup_fields. }
  destruct (decide (A = B)) as [<-|Hne].
  - rewrite lookup_insert_eq.
    cbv beta iota delta [default from_option Datatypes.id].
    change (or_else (VObj ?o) (VObj ∅)) with (VObj o).
    rewrite get_with_fields. lookup_fields.
    change (or_else (VArr ?l) (VArr [])) with (VArr l). cbv beta iota.
    assert (existsb (same_value_zero (VStr A)) (fa ++ [VStr A]) = true) as ->.
    { apply existsb_same_value_zero. set_solver. }
    cbv beta iota delta [negb].
    destruct (ToPrimitive _); cbv beta iota; [|discriminate].
    cbn [fst snd]. intros _.
    split; [exact HafterA|]. by rewrite lookup_insert_eq.
  - assert (Hkeys : user_key (VStr A) ≠ user_key (VStr B)).
    { intros Heq. by apply user_key_inj in Heq. }
    rewrite lookup_insert_ne by done.
    destruct (or_else (get (or_else (default VUndef (kv !! user_key (VStr B))) (VObj ∅))
                           "friends") (VArr [])) as [| | | |s|fb|] eqn:HfB;
      cbv beta iota; try discriminate.
    + destruct (str_includes s (to_string (VStr A))); cbv beta iota delta [negb];
        [|discriminate].
      destruct (ToPrimitive _); cbv beta iota; [|discriminate].
      cbn [fst snd]. intros _. split; [exact HafterA|].
      by rewrite lookup_insert_ne.
    + destruct (existsb (same_value_zero (VStr A)) fb) eqn:HinA;
        cbv beta iota delta [negb];
        (destruct (ToPrimitive _); cbv beta iota; [|discriminate]);
        cbn [fst snd]; intros _; split.
      * exact HafterA.
      * by rewrite lookup_insert_ne.
      * unfold friends_of, profile_of. rewrite lookup_insert_ne by done. exact HafterA.
      * by rewrite lookup_insert_eq.
Qed.

(** X28: after a POST /friends/add that is answered 200, GET /friends
    of the caller lists the new friend, by email and by name, when every
    email of the list then stored, and the XP of every profile the list
    names, converts; it answers 500 otherwise. *)
Theorem get_friends_after_add_friend `{Host} (post read : request) (kv : kvstore)
    (A B : jsstring) (body : value) (fa : list value) :
  caller post = Some A → caller read = Some A →
  json_body post = Some body → get body "friendEmail" = VStr B →
  friends_of kv A = VArr fa →
  status (add_friend post kv).1 = 200%Z →
  let kv' := (add_friend post kv).2 in
  ∃ r,
    get_friends read kv' = (r, kv')
    ∧ (forallb (friend_converts kv') (fa ++ [VStr B]) = false → status r = 500%Z)
    ∧ (forallb (friend_converts kv') (fa ++ [VStr B]) = true →
       ∃ friends entry,
         r = json 200 [("success", VBool true); ("friends", VArr friends)]
         ∧ entry ∈ friends ∧ get entry "email" = VStr B
         ∧ get entry "name" = get (profile_of kv' B) "name").
Proof.
  intros Hpost Hread Hbody Hfriend HfA Hok kv'.
  destruct (add_friend_accepted post kv A B body fa Hpost Hbody Hfriend HfA Hok)
    as [Hlist Hprofile].
  fold kv' in Hlist, Hprofile.
  destruct (forallb (friend_converts kv') (fa ++ [VStr B])) eqn:Hconverts.
  2:{ destruct (get_friends_throws read kv' A _ Hread Hlist Hconverts) as (r & Hrun & Hstatus).
      exists r. split; [done|]. by split. }
  destruct (friend_entry_listed kv' (fa ++ [VStr B]) (VStr B))
    as (entry & Hentry & Hemail & Hname); [set_solver | done |].
  eexists. split; [by apply (get_friends_run _ _ A (fa ++ [VStr B]))|].
  split; [done|]. intros _.
  eexists _, entry. split; [reflexivity|]. split; [done|]. split; [done|].
  rewrite Hname. unfold profile_of, or_else. by rewrite Hprofile.
Qed.

Lemma get_friends_after_add_friend_witness :
  let post := asha_request (VObj (obj [("friendEmail", VStr ravi)])) in
  ∃ friends entry,
    @get_friends sample_host (asha_request VNull) (@add_friend sample_host post sample_store).2
    = (json 200 [("success", VBool true); ("friends", VArr friends)],
       (@add_friend sample_host post sample_store).2)
    ∧ entry ∈ friends ∧ get entry "email" = VStr ravi
    ∧ get entry "name" = get (profile_of (@add_friend sample_host post sample_store).2 ravi) "name".
Proof.
  intros post.
  destruct (@get_friends_after_add_friend sample_host post (asha_request VNull) sample_store
              asha ravi (VObj (obj [("friendEmail", VStr ravi)])) []
              eq_refl eq_refl eq_refl eq_refl eq_refl eq_refl)
    as (r & Hrun & _ & Hserved).
  destruct (Hserved eq_refl) as (friends & entry & -> & Hlisted).
  exists friends, entry. split; [exact Hrun | exact Hlisted].
Defined.

(** ** The list of transactions *)

Lemma transactions_key_ne (u u' : jsstring) : user_key (VStr u) ≠ transactions_key u'.
Proof. unfold user_key, transactions_key. apply key_ne; by vm_compute. Qed.

(** X29: a POST /transactions whose body carries one of the four
    types and a positive integer amount appends one entry to the list of
    the caller, with the type and the amount of the body, an id made of
    the time and the random tail, and the date of the request; GET
    /transactions of the same caller then serves the old list followed by
    that entry.  The answer is 200, with the entry, when the stored
    totals convert to numbers; it is 500 otherwise, the entry being
    appended all the same. *)
Theorem get_transactions_after_add_transaction `{Host} (post read : request) (kv : kvstore)
    (userId : jsstring) (transaction : value) :
  caller post = Some userId → caller read = Some userId →
  json_body post = Some transaction → passes_validation transaction = true →
  let entry := new_transaction post transaction in
  ∃ r kv',
    add_transaction post kv = (r, kv')
    ∧ status r
      = (if converts (get (profile_of kv userId) "currentSavings")
            && converts (get (profile_of kv userId) "currentNetWorth")
         then 200 else 500)%Z
    ∧ (status r = 200%Z → payload r !! js "transaction" = Some entry)
    ∧ get entry "type" = get transaction "type"
    ∧ get entry "amount" = get transaction "amount"
    ∧ get entry "id"
      = VStr (js "txn_" ++ to_string (VInt (now post)) ++ js "_" ++ random_tail post)
    ∧ get entry "date" = iso_now post
    ∧ transactions_of kv' userId = transactions_of kv userId ++ [entry]
    ∧ get_transactions read kv'
      = (json 200 [("success", VBool true);
                   ("transactions", VArr (transactions_of kv userId ++ [entry]))], kv').
Proof.
  intros Hpost Hread Hbody Hvalid entry. unfold entry, new_transaction.
  destruct (passes_validation_inv _ Hvalid) as (fields & type & a & -> & Htype & Hin & Hamount & Ha).
  unfold add_transaction, get_transactions.
  rewrite (authenticated_caller _ _ _ Hpost).
  run_handler. rewrite Hbody. cbv beta iota. rewrite Htype, Hamount.
  assert (Hknown : existsb (same_value_zero (VText type)) transaction_types = true).
  { repeat (apply elem_of_cons in Hin as [->|Hin]; [by vm_compute|]).
    by apply elem_of_nil in Hin. }
  assert (Htruthy : truthy (VText type) = true).
  { repeat (apply elem_of_cons in Hin as [->|Hin]; [by vm_compute|]).
    by apply elem_of_nil in Hin. }
  rewrite Hknown, Htruthy. cbv beta iota delta [negb orb].
  assert (Hpos : truthy (VInt a) = true) by (simpl; destruct (Z.eqb_spec a 0); [lia|done]).
  rewrite Hpos. change (to_number (VInt a)) with (Fin a).
  cbn [typeof not_positive negb orb].
  rewrite bool_decide_eq_true_2 by done.
  destruct (Z.leb_spec a 0) as [?|_]; [lia|].
  cbv beta iota delta [negb orb].
  assert (Hlist : ∀ kv0 : kvstore, (match default VUndef (kv0 !! transactions_key userId) with
                        | VArr l => l | _ => [] end) = transactions_of kv0 userId).
  { intros kv0. unfold transactions_of. by destruct (kv0 !! transactions_key userId) as [[]|]. }
  rewrite Hlist.
  rewrite lookup_insert_ne by (apply not_eq_sym, transactions_key_ne).
  fold (profile_of kv userId). unfold ToPrimitive.
  destruct (converts (get (profile_of kv userId) "currentSavings")); cbv beta iota;
    [destruct (converts (get (profile_of kv userId) "currentNetWorth"))|];
    cbv beta iota; cbn [andb].
  all: eexists _, _; split; [reflexivity|]; split; [done|].
  all: split; [first [by lookup_fields | discriminate]|].
  all: do 4 (split; [by lookup_fields|]).
  all: split;
    [unfold transactions_of; rewrite ?lookup_insert_ne by apply transactions_key_ne;
     by rewrite lookup_insert_eq|].
  all: rewrite (authenticated_caller _ _ _ Hread); run_handler.
  all: rewrite ?lookup_insert_ne by apply transactions_key_ne.
  all: by rewrite lookup_insert_eq.
Qed.

Lemma get_transactions_after_add_transaction_witness :
  let transaction := VObj (obj [("type", VText "saving"); ("amount", VInt 500)]) in
  let entry := @new_transaction sample_host (asha_request transaction) transaction in
  ∃ r kv',
    @add_transaction sample_host (asha_request transaction) sample_store = (r, kv')
    ∧ status r = 200%Z
    ∧ payload r !! js "transaction" = Some entry
    ∧ get entry "amount" = VInt 500
    ∧ transactions_of kv' asha = transactions_of sample_store asha ++ [entry]
    ∧ @get_transactions sample_host (asha_request VNull) kv'
      = (json 200 [("success", VBool true);
                   ("transactions", VArr (transactions_of sample_store asha ++ [entry]))], kv').
Proof.
  intros transaction entry.
  destruct (@get_transactions_after_add_transaction sample_host (asha_request transaction)
              (asha_request VNull) sample_store asha transaction
              eq_refl eq_refl eq_refl eq_refl)
    as (r & kv' & Hrun & Hstatus & Hentry & _ & Hamount & _ & _ & Hlist & Hread).
  exists r, kv'. split; [exact Hrun|]. split; [exact Hstatus|].
  split; [exact (Hentry Hstatus)|]. split; [exact Hamount|]. split; [exact Hlist | exact Hread].
Defined.

(** ** The call to the model *)

(** X30: [callGeminiAPI] returns a value only when a key is configured
    and the fetch resolves with an ok response whose body parses and
    whose first candidate has a content; the value is the text of the
    first part of that content.  In every other case it throws. *)
Theorem callGeminiAPI_returns `{Host} (req : request) (prompt : jsstring) (text : value) :
  callGeminiAPI req prompt = Ok text →
  nonempty GEMINI_API_KEY = true
  ∧ ∃ response data,
      fetch_gemini req prompt = Some response
      ∧ fetch_ok response = true
      ∧ fetch_json response = Some data
      ∧ truthy (get (at_index (get data "candidates") 0) "content") = true
      ∧ text = get (at_index (get (get (at_index (get data "candidates") 0) "content")
                                 "parts") 0) "text".
Proof.
  unfold callGeminiAPI.
  destruct (nonempty GEMINI_API_KEY); [|done]. cbn [negb].
  destruct (fetch_gemini req prompt) as [response|] eqn:Hfetch; [|done].
  destruct (fetch_json response) as [data|] eqn:Hjson; [|done].
  destruct (fetch_ok response) eqn:Hok; cbn [negb].
  2:{ destruct (prop data "error"); cbn [rbind]; done. }
  unfold prop at 1. destruct (is_nullish data) eqn:Hdata; [done|]. cbn [rbind].
  destruct (truthy (get data "candidates")); [|done].
  destruct (truthy (at_index (get data "candidates") 0)); [|done].
  destruct (truthy (get (at_index (get data "candidates") 0) "content")) eqn:Hcontent;
    [|done].
  cbn [negb orb]. unfold prop at 1.
  destruct (is_nullish (get (at_index (get data "candidates") 0) "content")) eqn:Hnull.
  { by destruct (get (at_index (get data "candidates") 0) "content"). }
  cbn [rbind].
  destruct (is_nullish (get (get (at_index (get data "candidates") 0) "content") "parts"));
    [done|].
  cbn [rbind]. unfold prop.
  destruct (is_nullish (at_index _ 0)); [done|]. cbn [rbind].
  intros [= <-]. split; [done|]. by exists response, data.
Qed.

Lemma callGeminiAPI_returns_witness :
  let req := generate_request (Some (gemini_reply "[{}]")) in
  nonempty (@GEMINI_API_KEY sample_host) = true
  ∧ ∃ response data,
      fetch_gemini req (@prompt sample_host asha_profile) = Some response
      ∧ fetch_ok response = true
      ∧ fetch_json response = Some data
      ∧ truthy (get (at_index (get data "candidates") 0) "content") = true
      ∧ VText "[{}]"
        = get (at_index (get (get (at_index (get data "candidates") 0) "content")
                            "parts") 0) "text".
Proof.
  intros req.
  apply (@callGeminiAPI_returns sample_host req (@prompt sample_host asha_profile)
           (VText "[{}]")).
  reflexivity.
Defined.
